(** * Tool-dispatch layer of the local chat assistant: a Rocq model

    A shallow embedding of [backend/app/mcp_tools.py] (the tool registry,
    its built-in handlers and the call-syntax parser) and of
    [backend/app/research_tools.py] (the research client), with the
    properties of the specification stated and proved over it.

    Conventions of the model.
    - A Python [str] is a Rocq [string]: the bytes of its UTF-8 encoding.
      On ASCII text ([PyStr.isascii]) a byte is a character, and the
      character classes of Python ([\w] of [re], [str.isspace]), the
      length [len] and the slices are those of the model; on other text
      Python counts code points and consults the Unicode database, which
      the model does not, so every statement that rests on a class, a
      length or a slice is made for ASCII text.  Literal text of the
      program that is not ASCII is kept in its UTF-8 encoding.
    - A Python [dict] with string keys is a [gmap string _].
    - A Python call either returns a value or raises; [result] keeps the
      two apart, and an exception records whether it is an instance of
      [Exception] (what [except Exception] catches) or only of
      [BaseException].
    - What the program asks of its environment (the clock, the file
      system, the HTTP endpoint, the interpreter's [eval]) is an explicit
      argument, and what it does to it is an explicit trace of events. *)

From Stdlib Require Import ZArith Ascii String List Lia Bool.
From stdpp Require Import base option list strings gmap.

Open Scope string_scope.

(** ** Python strings *)

Module PyStr.

Definition code (c : ascii) : N := N_of_ascii c.

(** [str.isspace] on one ASCII character: TAB, LF, VT, FF, CR, the four
    separators FS GS RS US, and the space. *)
Definition isspace (c : ascii) : bool :=
  let n := code c in
  ((9 <=? n) && (n <=? 13) || (28 <=? n) && (n <=? 32))%N.

(** [\w] of [re] on one ASCII character. *)
Definition isword (c : ascii) : bool :=
  let n := code c in
  ((48 <=? n) && (n <=? 57) || (65 <=? n) && (n <=? 90)
   || (97 <=? n) && (n <=? 122) || (n =? 95))%N.

Definition isdigit (c : ascii) : bool :=
  let n := code c in ((48 <=? n) && (n <=? 57))%N.

(** [c in s] for a single character [c]. *)
Fixpoint contains (c : ascii) (s : string) : bool :=
  match s with
  | EmptyString => false
  | String d s' => if Ascii.eqb d c then true else contains c s'
  end.

Fixpoint forallb (p : ascii -> bool) (s : string) : bool :=
  match s with
  | EmptyString => true
  | String c s' => p c && forallb p s'
  end.

Fixpoint lstrip (s : string) : string :=
  match s with
  | EmptyString => EmptyString
  | String c s' => if isspace c then lstrip s' else s
  end.

Fixpoint rstrip (s : string) : string :=
  match s with
  | EmptyString => EmptyString
  | String c s' =>
      match rstrip s' with
      | EmptyString => if isspace c then EmptyString else String c EmptyString
      | r => String c r
      end
  end.

(** [s.strip()] *)
Definition strip (s : string) : string := rstrip (lstrip s).

(** [s.split(sep)] for a one-character separator: never empty. *)
Fixpoint split (sep : ascii) (s : string) : list string :=
  match s with
  | EmptyString => [EmptyString]
  | String c s' =>
      if Ascii.eqb c sep then EmptyString :: split sep s'
      else match split sep s' with
           | h :: t => String c h :: t
           | [] => [String c EmptyString]
           end
  end.

(** [s.split(sep, 1)]: one or two parts. *)
Fixpoint split1 (sep : ascii) (s : string) : list string :=
  match s with
  | EmptyString => [EmptyString]
  | String c s' =>
      if Ascii.eqb c sep then [EmptyString; s']
      else match split1 sep s' with
           | h :: t => String c h :: t
           | [] => [String c EmptyString]
           end
  end.

(** [s.replace(c, r)] for a one-character [c]. *)
Fixpoint replace (c : ascii) (r : string) (s : string) : string :=
  match s with
  | EmptyString => EmptyString
  | String d s' =>
      if Ascii.eqb d c then r ++ replace c r s' else String d (replace c r s')
  end.

(** [s.startswith(p)], returning what follows the prefix. *)
Fixpoint strip_prefix (p s : string) : option string :=
  match p with
  | EmptyString => Some s
  | String c p' =>
      match s with
      | String d s' => if Ascii.eqb c d then strip_prefix p' s' else None
      | EmptyString => None
      end
  end.

(** [str(n)] for a non-negative integer. *)
Fixpoint digits_of (fuel : nat) (n : N) (acc : string) : string :=
  match fuel with
  | O => acc
  | S fuel' =>
      let d := ascii_of_N (48 + n mod 10) in
      if (n <? 10)%N then String d acc
      else digits_of fuel' (n / 10) (String d acc)
  end.

Definition of_N (n : N) : string := digits_of (S (N.to_nat (N.log2 n))) n EmptyString.

(** [str(z)] for an integer. *)
Definition of_Z (z : Z) : string :=
  match z with
  | Z0 => "0"
  | Zpos p => of_N (Npos p)
  | Zneg p => String "-" (of_N (Npos p))
  end.

Definition of_nat (n : nat) : string := of_N (N.of_nat n).

(** [s.isascii()]: every character is below 128. *)
Definition isascii (s : string) : bool := forallb (fun c => (code c <? 128)%N) s.

End PyStr.

(** ** The regular expression of the call marker

    [pattern = r'\[TOOL:(\w+)\](.*?)\[/TOOL\]'], searched with [re.DOTALL].
    The expression is kept as data and run by a backtracking matcher with
    the order of alternatives of Python's [re]: a greedy repetition tries the
    longest run first, a lazy one the shortest. *)

Module Re.

Inductive item :=
| Lit (s : string)     (* literal text *)
| WordPlus             (* the group (\w+), greedy *)
| AnyLazy.             (* the group (.*?), with DOTALL: any character *)

Definition pattern : list item :=
  [Lit "[TOOL:"; WordPlus; Lit "]"; AnyLazy; Lit "[/TOOL]"].

Section Repetition.
Context {R : Type} (k : string -> option R).

(** One or more word characters, longest first, then [k]. *)
Fixpoint greedy_word (s : string) : option (string * R) :=
  match s with
  | EmptyString => None
  | String c s' =>
      if PyStr.isword c then
        match greedy_word s' with
        | Some (w, r) => Some (String c w, r)
        | None => match k s' with
                  | Some r => Some (String c EmptyString, r)
                  | None => None
                  end
        end
      else None
  end.

(** Zero or more characters of any kind, shortest first, then [k]. *)
Fixpoint lazy_any (s : string) : option (string * R) :=
  match k s with
  | Some r => Some (EmptyString, r)
  | None =>
      match s with
      | EmptyString => None
      | String c s' =>
          match lazy_any s' with
          | Some (a, r) => Some (String c a, r)
          | None => None
          end
      end
  end.
End Repetition.

(** A match of the items at the start of [s]: the captured groups in
    order, and the text after the match. *)
Fixpoint match_items (p : list item) (s : string) : option (list string * string) :=
  match p with
  | [] => Some ([], s)
  | Lit l :: p' =>
      match PyStr.strip_prefix l s with
      | Some s' => match_items p' s'
      | None => None
      end
  | WordPlus :: p' =>
      match greedy_word (match_items p') s with
      | Some (w, (groups, rest)) => Some (w :: groups, rest)
      | None => None
      end
  | AnyLazy :: p' =>
      match lazy_any (match_items p') s with
      | Some (a, (groups, rest)) => Some (a :: groups, rest)
      | None => None
      end
  end.

(** [re.findall]: the matches are searched from left to right, the search
    resumes after a match, and moves one character on where none starts.
    (A match of [pattern] is never empty.)  [fuel] bounds the number of
    steps; [findall] gives enough of it. *)
Fixpoint findall_fuel (fuel : nat) (p : list item) (s : string) : list (list string) :=
  match fuel with
  | O => []
  | S fuel' =>
      match match_items p s with
      | Some (groups, rest) => groups :: findall_fuel fuel' p rest
      | None =>
          match s with
          | EmptyString => []
          | String _ s' => findall_fuel fuel' p s'
          end
      end
  end.

Definition findall (p : list item) (s : string) : list (list string) :=
  findall_fuel (S (String.length s)) p s.

End Re.

(** ** The call-syntax parser: [parse_tool_call_from_text] *)

Module Parser.

Record tool_call := ToolCall { tool : string; args : gmap string string }.

(** The body of the loop over the matches: the keyword arguments of one
    call. *)
Definition parse_pair (kwargs : gmap string string) (pair : string) : gmap string string :=
  if PyStr.contains "=" pair then
    match PyStr.split1 "=" pair with
    | [key; value] => <[PyStr.strip key := PyStr.strip value]> kwargs
    | _ => kwargs  (* the unpacking of a two-part split: not reached *)
    end
  else kwargs.

Definition query_tools : list string :=
  ["web_search"; "calculator"; "count_words"; "tavily_search";
   "tavily_scrape"; "tavily_search_scrape"; "deep_research"].

Definition parse_kwargs (tool_name args_text : string) : gmap string string :=
  if PyStr.contains "=" args_text then
    foldl parse_pair ∅ (PyStr.split "|" args_text)
  else if String.eqb tool_name "read_file" then
    <["path" := PyStr.strip args_text]> ∅
  else if String.eqb tool_name "write_file" then
    let parts := PyStr.split1 "|" args_text in
    let kwargs := <["path" := PyStr.strip (nth 0 parts EmptyString)]> ∅ in
    <["content" := match parts with
                   | _ :: p1 :: _ => PyStr.strip p1
                   | _ => EmptyString
                   end]> kwargs
  else if existsb (String.eqb tool_name) query_tools then
    if String.eqb tool_name "tavily_scrape" then
      <["url" := PyStr.strip args_text]> ∅
    else
      <["query" := PyStr.strip args_text]> ∅
  else
    <["query" := PyStr.strip args_text]> ∅.

Definition call_of_match (m : list string) : tool_call :=
  let tool_name := nth 0 m EmptyString in
  let args_text := nth 1 m EmptyString in
  ToolCall tool_name (parse_kwargs tool_name args_text).

Definition parse_tool_call_from_text (text : string) : list tool_call :=
  map call_of_match (Re.findall Re.pattern text).

End Parser.

(** ** Python calls: a value or an exception *)

Module Py.

(** An exception: the name of its class, whether the class derives from
    [Exception] (and not only from [BaseException], as [SystemExit] and
    [KeyboardInterrupt] do), and [str(e)]. *)
Record exc := Exc { exc_type : string; exc_is_Exception : bool; exc_str : string }.

Inductive result (A : Type) : Type :=
| Return (a : A)
| Raise (e : exc).

Arguments Return {A} a.
Arguments Raise {A} e.

(** [try: ... except Exception as e: return f(e)]: an exception that is no
    instance of [Exception] passes through. *)
Definition except_Exception {A : Type} (body : result A) (f : exc -> A) : result A :=
  match body with
  | Return a => Return a
  | Raise e => if exc_is_Exception e then Return (f e) else Raise e
  end.

End Py.

(** ** The tool registry: [MCPToolRegistry] *)

Module Registry.

Section WithWorld.

(** The state the handlers act on (files, network, clock). *)
Context {World : Type}.

(** The call of the function of a tool with the keyword arguments,
    followed by [str(result)], the two steps inside the [try] of
    [execute_tool]: the string, or the exception that
    either step raised, and the world after the call. *)
Definition handler : Type := gmap string string -> World -> Py.result string * World.

Record tool_descriptor := Tool {
  name : string;
  description : string;
  function : handler
}.

(** [register_tool]: [self.tools[name] = {...}] *)
Definition register_tool (name description : string) (function : handler)
    (tools : gmap string tool_descriptor) : gmap string tool_descriptor :=
  <[name := Tool name description function]> tools.

(** [get_tool]: [self.tools.get(name)] *)
Definition get_tool (tools : gmap string tool_descriptor) (name : string) : option tool_descriptor :=
  tools !! name.

(** The body of [execute_tool], with [name] and [kwargs] bound. *)
Definition execute_tool_body (tools : gmap string tool_descriptor) (name : string)
    (kwargs : gmap string string) (w : World) : Py.result string * World :=
  match get_tool tools name with
  | None => (Py.Return ("❌ Narzędzie '" ++ name ++ "' nie istnieje"), w)
  | Some tool =>
      let '(r, w') := function tool kwargs w in
      (Py.except_Exception r
         (fun e => "❌ Błąd wykonania narzędzia '" ++ name ++ "': " ++ Py.exc_str e), w')
  end.

(** The parameters that the signature of [execute_tool] binds itself;
    every other keyword goes to [kwargs]. *)
Definition bound_parameters : list string := ["self"; "name"].

Definition multiple_values (parameter : string) : Py.exc :=
  Py.Exc "TypeError" true
    ("MCPToolRegistry.execute_tool() got multiple values for argument '" ++ parameter ++ "'").

(** The call of [execute_tool] with a name and keywords: a keyword that is
    one of the bound parameters is refused by the call itself, before the
    body runs.  Where both are among the keywords Python names the one
    written first; the mapping does not keep the order of writing and the
    model names [self]: only the text of the message depends on it. *)
Definition execute_tool (tools : gmap string tool_descriptor) (name : string)
    (kwargs : gmap string string) (w : World) : Py.result string * World :=
  match List.find (fun p => bool_decide (is_Some (kwargs !! p))) bound_parameters with
  | Some p => (Py.Raise (multiple_values p), w)
  | None => execute_tool_body tools name kwargs w
  end.

(** The names and descriptions of [_register_default_tools] and of
    [_register_research_tools], in the order of registration. *)
Definition default_tools : list (string * string) :=
  [("read_file", "Czyta zawartość pliku. Args: path (str)");
   ("write_file", "Zapisuje tekst do pliku. Args: path (str), content (str)");
   ("list_directory", "Listuje pliki w katalogu. Args: path (str, default='.')");
   ("web_search", "Wyszukuje informacje w internecie. Args: query (str)");
   ("calculator", "Wykonuje obliczenia matematyczne. Args: expression (str)");
   ("execute_python", "Wykonuje kod Python (bezpiecznie). Args: code (str)");
   ("system_info", "Zwraca informacje systemowe");
   ("get_datetime", "Zwraca aktualną datę i czas");
   ("count_words", "Liczy słowa w tekście. Args: text (str)")].

Definition research_tools : list (string * string) :=
  [("tavily_search", "Wyszukuje informacje przez Tavily AI. Args: query (str), max_age_days (int, default=120), num_results (int, default=10). Filtruje informacje według daty.");
   ("tavily_scrape", "Pobiera treść strony przez Tavily. Args: url (str), only_main_content (bool, default=True)");
   ("tavily_search_scrape", "Wyszukuje i scrapuje pierwsze wyniki. Args: query (str), max_age_days (int, default=120)");
   ("deep_research", "Głębokie wyszukiwanie w wielu źródłach. Args: query (str), max_age_days (int, default=120)");
   ("research_status", "Sprawdza status narzędzi badawczych")].

Definition register_all (methods : string -> handler) (table : list (string * string))
    (tools : gmap string tool_descriptor) : gmap string tool_descriptor :=
  foldl (fun t nd => register_tool nd.1 nd.2 (methods nd.1) t) tools table.

(** [__init__], given the methods of the class by name and whether the
    research module was imported ([HAS_RESEARCH_TOOLS]). *)
Definition init (methods : string -> handler) (has_research_tools : bool)
    : gmap string tool_descriptor :=
  let tools := register_all methods default_tools ∅ in
  if has_research_tools then register_all methods research_tools tools else tools.

End WithWorld.

End Registry.

(** ** The calculator: [_calculator] *)

Module Calculator.

Definition allowed_chars : string := "0123456789+-*/().^ ".

(** [c in allowed_chars or c.isspace()] *)
Definition char_allowed (c : ascii) : bool :=
  PyStr.contains c allowed_chars || PyStr.isspace c.

(** One call of [eval]: the source text, the names of [__builtins__] and
    the names of the local mapping. *)
Record eval_call := EvalCall {
  ev_source : string;
  ev_builtins : list string;
  ev_names : list string
}.

Definition math_names : list string :=
  ["sin"; "cos"; "tan"; "sqrt"; "pi"; "e"; "log"; "abs"; "pow"].

Definition rejected : string := "❌ Niedozwolone znaki w wyrażeniu".

Section WithEval.

(** The interpreter: [eval] followed by the rendering of its value in the
    f-string, the two steps inside the [try]. *)
Variable py_eval : eval_call -> Py.result string.

(** The string returned, and the calls of [eval] made. *)
Definition _calculator (expression : string) : Py.result string * list eval_call :=
  if negb (PyStr.forallb char_allowed expression) then
    (Py.Return rejected, [])
  else
    let expression := PyStr.replace "^" "**" expression in
    let call := EvalCall expression [] math_names in
    (Py.except_Exception
       (match py_eval call with
        | Py.Return result => Py.Return ("🔢 " ++ expression ++ " = " ++ result)
        | Py.Raise e => Py.Raise e
        end)
       (fun e => "❌ Błąd obliczeń: " ++ Py.exc_str e),
     [call]).

End WithEval.

(** *** Integer expressions

    Modelled from the Python language reference: the value of an
    expression made of decimal integers, [+], [-], [*], [**], parentheses
    and spaces.  [None] stands for every expression outside this fragment
    (floats, division, errors), of which nothing is said.  This is the
    value the language gives, whatever the size and the nesting of the
    expression; an interpreter has limits (CPython refuses a source with
    more than 200 nested parentheses), so nothing is assumed of [eval]
    from it: it gives the values of the examples. *)

Inductive token := TNum (n : Z) | TPlus | TMinus | TStar | TPow | TLParen | TRParen.

Definition flush (cur : option Z) (ts : list token) : list token :=
  match cur with
  | Some n => TNum n :: ts
  | None => ts
  end.

Fixpoint lex (cur : option Z) (s : string) : option (list token) :=
  match s with
  | EmptyString => Some (flush cur [])
  | String c s' =>
      if PyStr.isdigit c then
        match cur with
        | Some 0%Z => None
        | Some n => lex (Some (10 * n + Z.of_N (PyStr.code c) - 48)%Z) s'
        | None => lex (Some (Z.of_N (PyStr.code c) - 48)%Z) s'
        end
      else if Ascii.eqb c " " then flush cur <$> lex None s'
      else if Ascii.eqb c "+" then (fun ts => flush cur (TPlus :: ts)) <$> lex None s'
      else if Ascii.eqb c "-" then (fun ts => flush cur (TMinus :: ts)) <$> lex None s'
      else if Ascii.eqb c "(" then (fun ts => flush cur (TLParen :: ts)) <$> lex None s'
      else if Ascii.eqb c ")" then (fun ts => flush cur (TRParen :: ts)) <$> lex None s'
      else if Ascii.eqb c "*" then
        match s' with
        | String "*" s'' => (fun ts => flush cur (TPow :: ts)) <$> lex None s''
        | _ => (fun ts => flush cur (TStar :: ts)) <$> lex None s'
        end
      else None
  end.

(** The grammar, from the loosest to the tightest binding:
    sums, products, signs, powers (to the right, and tighter than a sign
    on their left), atoms.  [n] bounds the depth of the recursion. *)
Fixpoint arith (n : nat) (ts : list token) : option (Z * list token) :=
  match n with
  | O => None
  | S n =>
      match term n ts with
      | Some (v, ts') => arith_rest n v ts'
      | None => None
      end
  end
with arith_rest (n : nat) (acc : Z) (ts : list token) : option (Z * list token) :=
  match n with
  | O => None
  | S n =>
      match ts with
      | TPlus :: ts' =>
          match term n ts' with
          | Some (v, ts'') => arith_rest n (acc + v)%Z ts''
          | None => None
          end
      | TMinus :: ts' =>
          match term n ts' with
          | Some (v, ts'') => arith_rest n (acc - v)%Z ts''
          | None => None
          end
      | _ => Some (acc, ts)
      end
  end
with term (n : nat) (ts : list token) : option (Z * list token) :=
  match n with
  | O => None
  | S n =>
      match factor n ts with
      | Some (v, ts') => term_rest n v ts'
      | None => None
      end
  end
with term_rest (n : nat) (acc : Z) (ts : list token) : option (Z * list token) :=
  match n with
  | O => None
  | S n =>
      match ts with
      | TStar :: ts' =>
          match factor n ts' with
          | Some (v, ts'') => term_rest n (acc * v)%Z ts''
          | None => None
          end
      | _ => Some (acc, ts)
      end
  end
with factor (n : nat) (ts : list token) : option (Z * list token) :=
  match n with
  | O => None
  | S n =>
      match ts with
      | TPlus :: ts' => factor n ts'
      | TMinus :: ts' =>
          match factor n ts' with
          | Some (v, ts'') => Some ((- v)%Z, ts'')
          | None => None
          end
      | _ => power n ts
      end
  end
with power (n : nat) (ts : list token) : option (Z * list token) :=
  match n with
  | O => None
  | S n =>
      match atom n ts with
      | Some (b, TPow :: ts') =>
          match factor n ts' with
          | Some (e, ts'') => if (e <? 0)%Z then None else Some ((b ^ e)%Z, ts'')
          | None => None
          end
      | r => r
      end
  end
with atom (n : nat) (ts : list token) : option (Z * list token) :=
  match n with
  | O => None
  | S n =>
      match ts with
      | TNum v :: ts' => Some (v, ts')
      | TLParen :: ts' =>
          match arith n ts' with
          | Some (v, TRParen :: ts'') => Some (v, ts'')
          | _ => None
          end
      | _ => None
      end
  end.

Definition int_eval (source : string) : option Z :=
  match lex None source with
  | Some ts =>
      match arith (6 * S (length ts)) ts with
      | Some (v, []) => Some v
      | _ => None
      end
  | None => None
  end.

(** CPython refuses to render an integer of more than 4300 digits. *)
Definition renders (v : Z) : bool := (Z.abs v <? 10 ^ 4300)%Z.

End Calculator.

(** ** Writing a file: [_write_file]

    Paths are those of a POSIX system, where [os.path] is [posixpath]
    (on Windows it is [ntpath], which also cuts at a backslash and at a
    drive letter).  The handler is modelled in two layers: the calls it
    makes, with the path names it hands to the operating system, and what
    those calls do to the files of a disk, where the operating system
    follows a symbolic link. *)

Module FileTools.

(** [posixpath.basename]: what follows the last slash. *)
Fixpoint basename (p : string) : string :=
  match p with
  | EmptyString => EmptyString
  | String c p' =>
      if PyStr.contains "/" p' then basename p'
      else if Ascii.eqb c "/" then p' else p
  end.

Fixpoint ends_with_slash (a : string) : bool :=
  match a with
  | EmptyString => false
  | String c EmptyString => Ascii.eqb c "/"
  | String _ a' => ends_with_slash a'
  end.

(** [posixpath.join] of two components. *)
Definition join (a b : string) : string :=
  match b with
  | String "/" _ => b
  | _ =>
      match a with
      | EmptyString => b
      | _ => if ends_with_slash a then a ++ b else a ++ "/" ++ b
      end
  end.

(** The operating system as the handler sees it: the environment, and
    for each call whether it returns ([None]) or raises. *)
Record os := OS {
  getenv : string -> option string;
  makedirs_error : string -> option Py.exc;          (* os.makedirs(d, exist_ok=True) *)
  open_error : string -> option Py.exc;              (* open(p, 'w', encoding='utf-8') *)
  write_error : string -> string -> option Py.exc    (* f.write(content) and the close *)
}.

(** What a call that returned has done to the file system. *)
Inductive fs_event :=
| MadeDirs (d : string)                 (* the directory exists, created where missing *)
| Truncated (p : string)                (* the file exists and is empty *)
| Written (p : string) (content : string).

Definition failed (e : Py.exc) : Py.result string :=
  Py.except_Exception (Py.Raise e) (fun e => "❌ Błąd zapisu: " ++ Py.exc_str e).

Definition _write_file (o : os) (path content : string) : Py.result string * list fs_event :=
  let safe_dir := default "./mcp_workspace" (getenv o "MCP_SAFE_DIR") in
  match makedirs_error o safe_dir with
  | Some e => (failed e, [])
  | None =>
      let safe_path := join safe_dir (basename path) in
      match open_error o safe_path with
      | Some e => (failed e, [MadeDirs safe_dir])
      | None =>
          match write_error o safe_path content with
          | Some e => (failed e, [MadeDirs safe_dir; Truncated safe_path])
          | None =>
              (Py.Return ("✅ Zapisano " ++ PyStr.of_nat (String.length content)
                          ++ " znaków do '" ++ safe_path ++ "'"),
               [MadeDirs safe_dir; Truncated safe_path; Written safe_path content])
          end
      end
  end.

(** A last component that names a directory whatever the directory holds. *)
Definition names_directory (name : string) : bool :=
  String.eqb name EmptyString || String.eqb name "." || String.eqb name "..".

(** What POSIX fixes of the operating system: no directory has the empty
    name, and a path whose last component is empty, [.] or [..] names a
    directory, which cannot be opened for writing. *)
Definition posix (o : os) : Prop :=
  makedirs_error o EmptyString <> None /\
  forall p, names_directory (basename p) = true -> open_error o p <> None.

(** A directory as the prefix of the paths of its entries. *)
Definition dir_of (d : string) : string :=
  if ends_with_slash d then d else d ++ "/".

(** *** The files behind the names

    A disk: the entries that are symbolic links, each with the absolute
    path of the file it points to (itself no link), and the content of
    each regular file. *)
Record disk := Disk {
  symlinks : gmap string string;
  files : gmap string string
}.

(** The file that [open(p, 'w')] opens: the handler passes no flag that
    would keep the operating system from following a link at [p]. *)
Definition opened (d : disk) (p : string) : string := default p (symlinks d !! p).

(** What a call that returned has done to the files. *)
Definition apply_event (d : disk) (ev : fs_event) : disk :=
  match ev with
  | MadeDirs _ => d
  | Truncated p => Disk (symlinks d) (<[opened d p := EmptyString]> (files d))
  | Written p content => Disk (symlinks d) (<[opened d p := content]> (files d))
  end.

Definition after (d : disk) (events : list fs_event) : disk := foldl apply_event d events.

(** Whether a path lies below a directory, by its name. *)
Definition below (directory p : string) : bool :=
  bool_decide (is_Some (PyStr.strip_prefix (dir_of directory) p)).

End FileTools.

(** ** Dates and times: the part of [datetime] the client uses

    Modelled from the Python library: a [datetime] holds its civil
    fields and, when it is aware, its offset from UTC. *)

Module DateTime.

Open Scope Z_scope.

Record datetime := DT {
  year : Z; month : Z; day : Z;
  hour : Z; minute : Z; second : Z; microsecond : Z;
  utcoffset : option Z     (* minutes east of UTC; [None] for a naive value *)
}.

Definition is_leap (y : Z) : bool :=
  (y mod 4 =? 0) && (negb (y mod 100 =? 0) || (y mod 400 =? 0)).

Definition days_in_month (y m : Z) : Z :=
  if m =? 2 then (if is_leap y then 29 else 28)
  else if (m =? 4) || (m =? 6) || (m =? 9) || (m =? 11) then 30 else 31.

Definition days_before_year (y : Z) : Z :=
  let y := y - 1 in y * 365 + y / 4 - y / 100 + y / 400.

Fixpoint days_before_month_nat (y : Z) (m : nat) : Z :=
  match m with
  | O => 0
  | S m' => days_before_month_nat y m' + days_in_month y (Z.of_nat m)
  end.

Definition days_before_month (y m : Z) : Z := days_before_month_nat y (Z.to_nat (m - 1)).

(** [date.toordinal]: day 1 is 0001-01-01. *)
Definition ymd2ord (y m d : Z) : Z := days_before_year y + days_before_month y m + d.

(** The month and day of the [n]-th day (from 0) of year [y]. *)
Fixpoint month_of (y : Z) (fuel : nat) (m n : Z) : Z * Z :=
  match fuel with
  | O => (m, n + 1)
  | S fuel' =>
      if n <? days_in_month y m then (m, n + 1)
      else month_of y fuel' (m + 1) (n - days_in_month y m)
  end.

(** [date.fromordinal] *)
Definition ord2ymd (n : Z) : Z * Z * Z :=
  let n := n - 1 in
  let n400 := n / 146097 in
  let n := n mod 146097 in
  let n100 := n / 36524 in
  let n := n mod 36524 in
  let n4 := n / 1461 in
  let n := n mod 1461 in
  let n1 := n / 365 in
  let n := n mod 365 in
  let y := n400 * 400 + n100 * 100 + n4 * 4 + n1 + 1 in
  if (n1 =? 4) || (n100 =? 4) then (y - 1, 12, 31)
  else let '(m, d) := month_of y 11 1 n in (y, m, d).

(** The ordinal of 1970-01-01. *)
Definition epoch_ordinal : Z := 719163.

Definition us_per_day : Z := 86400 * 1000000.

(** The naive local time a clock shows that has counted [t] microseconds
    from the epoch: [datetime.now()]. *)
Definition of_epoch_us (t : N) : datetime :=
  let t := Z.of_N t in
  let '(y, m, d) := ord2ymd (epoch_ordinal + t / us_per_day) in
  let r := t mod us_per_day in
  DT y m d (r / 3600000000) (r / 60000000 mod 60) (r / 1000000 mod 60) (r mod 1000000) None.

(** Microseconds from 0001-01-01T00:00 on the civil fields. *)
Definition civil_us (d : datetime) : Z :=
  (((ymd2ord (year d) (month d) (day d) - 1) * 24 + hour d) * 60 + minute d) * 60000000
  + second d * 1000000 + microsecond d.

Definition overflow (msg : string) : Py.exc := Py.Exc "OverflowError" true msg.

(** [d - timedelta(days=days)] *)
Definition sub_days (d : datetime) (days : Z) : Py.result datetime :=
  if 999999999 <? Z.abs days then
    Py.Raise (overflow ("days=" ++ PyStr.of_Z days ++ "; must have magnitude <= 999999999"))
  else
    let o := ymd2ord (year d) (month d) (day d) - days in
    if (o <? 1) || (3652059 <? o) then Py.Raise (overflow "date value out of range")
    else
      let '(y, m, dd) := ord2ymd o in
      Py.Return (DT y m dd (hour d) (minute d) (second d) (microsecond d) (utcoffset d)).

(** [a >= b]: between two naive values the civil fields are compared,
    between two aware ones the instants; a naive and an aware value do not
    compare ([None]: the comparison raises [TypeError]). *)
Definition ge (a b : datetime) : option bool :=
  match utcoffset a, utcoffset b with
  | None, None => Some (civil_us b <=? civil_us a)
  | Some oa, Some ob => Some (civil_us b - ob * 60000000 <=? civil_us a - oa * 60000000)
  | _, _ => None
  end.

(** [n] written with at least [width] digits. *)
Definition pad (width : nat) (n : Z) : string :=
  let s := PyStr.of_Z n in
  String.concat EmptyString (repeat "0"%string (width - String.length s)) ++ s.

(** [isoformat] of a naive value. *)
Definition isoformat (d : datetime) : string :=
  pad 4 (year d) ++ "-" ++ pad 2 (month d) ++ "-" ++ pad 2 (day d) ++ "T" ++
  pad 2 (hour d) ++ ":" ++ pad 2 (minute d) ++ ":" ++ pad 2 (second d) ++
  (if microsecond d =? 0 then EmptyString else "." ++ pad 6 (microsecond d)).

(** *** Reading a date

    [n] decimal digits at the start of a text. *)
Fixpoint digits (n : nat) (acc : Z) (s : string) : option (Z * string) :=
  match n with
  | O => Some (acc, s)
  | S n' =>
      match s with
      | String c s' =>
          if PyStr.isdigit c then digits n' (10 * acc + Z.of_N (PyStr.code c) - 48) s'
          else None
      | EmptyString => None
      end
  end.

Definition expect (c : ascii) (s : string) : option string :=
  match s with
  | String d s' => if Ascii.eqb c d then Some s' else None
  | EmptyString => None
  end.

(** An offset [+HH:MM] or [-HH:MM] that ends the text, in minutes. *)
Definition read_offset (s : string) : option Z :=
  match s with
  | String sign s1 =>
      if Ascii.eqb sign "+" || Ascii.eqb sign "-" then
        '(h, s2) ← digits 2 0 s1;
        s3 ← expect ":" s2;
        '(m, s4) ← digits 2 0 s3;
        if String.eqb s4 EmptyString && (h <? 24) && (m <? 60) then
          Some (if Ascii.eqb sign "-" then - (h * 60 + m) else h * 60 + m)
        else None
      else None
  | EmptyString => None
  end.

(** The texts [YYYY-MM-DD] and [YYYY-MM-DD?HH:MM:SS], the second with an
    optional fraction of six digits and an optional offset: the part of
    [datetime.fromisoformat] that this model reads.  [None]: the text is not
    of these forms. *)
Definition fromisoformat_basic (s : string) : option datetime :=
  '(y, s) ← digits 4 0 s;
  s ← expect "-" s;
  '(m, s) ← digits 2 0 s;
  s ← expect "-" s;
  '(d, s) ← digits 2 0 s;
  if negb ((1 <=? y) && (1 <=? m) && (m <=? 12) && (1 <=? d) && (d <=? days_in_month y m)) then None
  else
    match s with
    | EmptyString => Some (DT y m d 0 0 0 0 None)
    | String _ s =>
        '(hh, s) ← digits 2 0 s;
        s ← expect ":" s;
        '(mm, s) ← digits 2 0 s;
        s ← expect ":" s;
        '(ss, s) ← digits 2 0 s;
        '(us, s) ← match s with
                   | String "." s' => digits 6 0 s'
                   | _ => Some (0, s)
                   end;
        if negb ((hh <? 24) && (mm <? 60) && (ss <? 60)) then None
        else
          match s with
          | EmptyString => Some (DT y m d hh mm ss us None)
          | _ => off ← read_offset s; Some (DT y m d hh mm ss us (Some off))
          end
    end.

End DateTime.

(** ** The research client: [ResearchTools] *)

Module Research.

Import DateTime.

(** One result of the upstream API; a field is [None] where the key is
    absent (or null). *)
Record search_result := Result {
  url : option string;
  title : option string;
  content : option string;
  published_date : option string;
  score : option string
}.

(** The body of the three shapes of response the client returns. *)
Inductive response :=
| SearchSuccess (query : string) (results : list search_result) (total_found : nat)
    (filtered_by_date : bool) (response_time_ms : Z) (answer : option string)
    (mock : bool) (message : option string)
| DeepSuccess (query : string) (results : list search_result) (total_unique : nat)
    (sources_checked : list string) (timestamp : string)
| Failure (error : string) (message : string).

(** [r.get("success")] *)
Definition success (r : response) : bool :=
  match r with
  | Failure _ _ => false
  | _ => true
  end.

(** [r.get("results", [])] *)
Definition results_of (r : response) : list search_result :=
  match r with
  | SearchSuccess _ rs _ _ _ _ _ _ => rs
  | DeepSuccess _ rs _ _ _ => rs
  | Failure _ _ => []
  end.

(** The request [requests.post] sends to the search endpoint. *)
Record request := Request {
  req_url : string;
  req_authorization : string;
  req_query : string;
  req_max_age_days : Z;
  req_num_results : Z;
  req_search_depth : string;
  req_include_answer : bool;
  req_timeout_s : Z
}.

(** The decoded body of a reply: [data.get("results", [])] and
    [data.get("answer", "")] read its two fields. *)
Record search_data := Data {
  data_results : option (list search_result);
  data_answer : option string
}.

(** What [requests.post] gives: a reply with its status, its text, its
    body decoded by [response.json()] (or the message of the error that
    decoding raises) and the time the call took, or the message of the
    exception raised by the call. *)
Inductive http_outcome :=
| Reply (status_code : Z) (text : string) (json : string + search_data) (elapsed_ms : Z)
| NoReply (error : string).

(** The world of the client: the clock, as the microseconds from the epoch
    that each successive reading shows, the endpoint, and the requests sent
    so far. *)
Record world := World {
  clock : nat -> N;
  readings : nat;
  endpoint : request -> http_outcome;
  sent : list request
}.

Definition M (A : Type) : Type := world -> A * world.

Definition ret {A : Type} (a : A) : M A := fun w => (a, w).

Definition bind {A B : Type} (m : M A) (k : A -> M B) : M B :=
  fun w => let '(a, w') := m w in k a w'.

Notation "'let*' x ':=' m 'in' k" := (bind m (fun x => k))
  (at level 10, x name, m at level 100, k at level 200).

(** [datetime.now()] *)
Definition datetime_now : M datetime :=
  fun w => (of_epoch_us (clock w (readings w)),
            World (clock w) (S (readings w)) (endpoint w) (sent w)).

(** [requests.post(...)] *)
Definition post (r : request) : M http_outcome :=
  fun w => (endpoint w r, World (clock w) (readings w) (endpoint w) (sent w ++ [r])).

(** [l[:n]] *)
Definition slice_to {A : Type} (n : Z) (l : list A) : list A :=
  if (0 <=? n)%Z then take (Z.to_nat n) l
  else take (length l - Z.to_nat (- n)) l.

Definition truthy (s : option string) : bool :=
  match s with
  | Some (String _ _) => true
  | _ => false
  end.

Section Client.

(** [datetime.fromisoformat], of the Python library. *)
Variable fromisoformat : string -> option datetime.

(** [self.tavily_api_key] *)
Variable tavily_api_key : string.

Definition tavily_base : string := "https://api.tavily.com".

(** [_mock_search] *)
Definition _mock_search (query : string) (max_age_days : Z) : M response :=
  let* now := datetime_now in
  let published :=
    match sub_days now 7 with
    | Py.Return d => isoformat d
    | Py.Raise _ => EmptyString   (* not reached while the clock shows a year up to 9999 *)
    end in
  ret (SearchSuccess query
         [Result (Some ("https://example.com/article-" ++ PyStr.replace " " "-" query))
                 (Some ("Wynik 1 dla: " ++ query))
                 (Some ("Symulowany wynik wyszukiwania dla '" ++ query
                        ++ "'. Informacja nie starsza niż " ++ PyStr.of_Z max_age_days ++ " dni."))
                 (Some published)
                 (Some "0.95")]
         1 false 50 None true
         (Some "Brak TAVILY_API_KEY - używam symulowanych wyników")).

(** The body of the loop over the results: whether the result is
    appended to [filtered_results]. *)
Definition keeps (cutoff_date : datetime) (result : search_result) : bool :=
  if truthy (published_date result) then
    match fromisoformat (PyStr.replace "Z" "+00:00" (default EmptyString (published_date result))) with
    | Some result_date =>
        match ge result_date cutoff_date with
        | Some b => b
        | None => true       (* the comparison raised: [except:] appends *)
        end
    | None => true           (* the parse raised: [except:] appends *)
    end
  else true.

Definition connection_failed (error : string) : response :=
  Failure error "Błąd połączenia z Tavily API".

(** [search] *)
Definition search (query : string) (max_age_days num_results : Z) (search_depth : string)
    : M response :=
  if String.eqb tavily_api_key EmptyString then _mock_search query max_age_days
  else
    let* reply := post (Request (tavily_base ++ "/search") ("Bearer " ++ tavily_api_key)
                          query max_age_days num_results search_depth true 30) in
    match reply with
    | NoReply error => ret (connection_failed error)
    | Reply status_code text json elapsed_ms =>
        if (status_code =? 200)%Z then
          match json with
          | inl error => ret (connection_failed error)
          | inr data =>
              let* now := datetime_now in
              match sub_days now max_age_days with
              | Py.Raise e => ret (connection_failed (Py.exc_str e))
              | Py.Return cutoff_date =>
                  let raw := default [] (data_results data) in
                  let filtered_results := filter (fun r => keeps cutoff_date r = true) raw in
                  ret (SearchSuccess query
                         (slice_to num_results filtered_results)
                         (length filtered_results)
                         (length filtered_results <? length raw)%nat
                         elapsed_ms
                         (Some (default EmptyString (data_answer data)))
                         false None)
              end
          end
        else ret (Failure ("API error: " ++ PyStr.of_Z status_code) text)
    end.

(** The loop that removes the duplicates. *)
Fixpoint unique_loop (seen_urls : gset string) (unique_results : list search_result)
    (all_results : list search_result) : list search_result :=
  match all_results with
  | [] => unique_results
  | r :: rest =>
      if truthy (url r) && bool_decide (default EmptyString (url r) ∉ seen_urls) then
        unique_loop ({[default EmptyString (url r)]} ∪ seen_urls) (unique_results ++ [r]) rest
      else unique_loop seen_urls unique_results rest
  end.

(** [deep_research] *)
Definition deep_research (query : string) (sources : option (list string)) (max_age_days : Z)
    : M response :=
  let sources := default ["tavily"] sources in
  let* all_results :=
    if bool_decide ("tavily" ∈ sources) then
      let* tavily_results := search query max_age_days 10 "advanced" in
      ret (if success tavily_results then results_of tavily_results else [])
    else ret [] in
  let unique_results := unique_loop ∅ [] all_results in
  let* now := datetime_now in
  ret (DeepSuccess query (take 15 unique_results) (length unique_results)
         sources (isoformat now)).

End Client.

End Research.

(** ** More of Python's strings *)

Module Text.

(** The line feed. *)
Definition nl : string := String "010"%char EmptyString.

(** [s[:n]] for a non-negative [n], on ASCII text: the cut is made after
    [n] characters of the model, which are bytes. *)
Fixpoint prefix (n : nat) (s : string) : string :=
  match n, s with
  | S n', String c s' => String c (prefix n' s')
  | _, _ => EmptyString
  end.

(** [p in s] *)
Fixpoint occurs (p s : string) : bool :=
  match PyStr.strip_prefix p s with
  | Some _ => true
  | None =>
      match s with
      | EmptyString => false
      | String _ s' => occurs p s'
      end
  end.

(** [s.split()] on ASCII text: the runs of characters that are no white
    space. *)
Fixpoint words (s : string) : list string :=
  match s with
  | EmptyString => []
  | String c s' =>
      if PyStr.isspace c then words s'
      else
        match s' with
        | EmptyString => [String c EmptyString]
        | String d _ =>
            if PyStr.isspace d then String c EmptyString :: words s'
            else match words s' with
                 | h :: t => String c h :: t
                 | [] => [String c EmptyString]
                 end
        end
  end.

(** The number of characters [c] in [s]. *)
Fixpoint count (c : ascii) (s : string) : nat :=
  match s with
  | EmptyString => 0
  | String d s' => (if Ascii.eqb d c then 1 else 0) + count c s'
  end.

End Text.

(** ** Keywords bound to the parameters of a method

    Modelled from the Python language reference: the call of a bound
    method with keywords only.  A keyword that names no parameter is refused
    first, then a required parameter that got no value.  Where several
    keywords name no parameter the message names one of them (Python names
    the first one written, which a mapping does not record). *)

Module Call.

Definition quoted (p : string) : string := "'" ++ p ++ "'".

(** The names as the message lists them. *)
Fixpoint listed (names : list string) : string :=
  match names with
  | [] => EmptyString
  | [p] => quoted p
  | [p; q] => quoted p ++ " and " ++ quoted q
  | p :: rest =>
      quoted p ++ ", " ++
      (match rest with
       | [q] => "and " ++ quoted q
       | _ => listed rest
       end)
  end.

Definition unexpected (method key : string) : Py.exc :=
  Py.Exc "TypeError" true
    ("MCPToolRegistry." ++ method ++ "() got an unexpected keyword argument " ++ quoted key).

Definition missing (method : string) (names : list string) : Py.exc :=
  Py.Exc "TypeError" true
    ("MCPToolRegistry." ++ method ++ "() missing " ++ PyStr.of_nat (length names)
     ++ " required positional argument" ++ (if (length names =? 1)%nat then EmptyString else "s")
     ++ ": " ++ listed names).

(** The keywords as bound to the parameters, or the [TypeError] of the
    call. *)
Definition bind (method : string) (required optional : list string)
    (kwargs : gmap string string) : Py.result (gmap string string) :=
  match List.find (fun kv => negb (bool_decide (kv.1 ∈ (required ++ optional)%list)))
                  (map_to_list kwargs) with
  | Some kv => Py.Raise (unexpected method kv.1)
  | None =>
      match List.filter (fun p => bool_decide (kwargs !! p = None)) required with
      | [] => Py.Return kwargs
      | names => Py.Raise (missing method names)
      end
  end.

End Call.

(** ** The other built-in handlers *)

Module Handlers.

(** A method with no parameter but [self], as the registry calls it. *)
Definition without_parameters {World : Type} (method : string)
    (body : World -> Py.result string * World) : @Registry.handler World :=
  fun kwargs w =>
    match Call.bind method [] [] kwargs with
    | Py.Raise e => (Py.Raise e, w)
    | Py.Return _ => body w
    end.

(** A method with parameters, as the registry calls it: the keywords are
    bound, then the body runs. *)
Definition guarded {World : Type} (method : string) (required optional : list string)
    (body : gmap string string -> World -> Py.result string * World) : @Registry.handler World :=
  fun kwargs w =>
    match Call.bind method required optional kwargs with
    | Py.Raise e => (Py.Raise e, w)
    | Py.Return bound => body bound w
    end.

(** The method behind each tool, with its required parameters and those
    that have a default. *)
Definition signatures : list (string * (string * list string * list string)) :=
  [("read_file", ("_read_file", ["path"], []));
   ("write_file", ("_write_file", ["path"; "content"], []));
   ("list_directory", ("_list_directory", [], ["path"]));
   ("web_search", ("_web_search", ["query"], []));
   ("calculator", ("_calculator", ["expression"], []));
   ("execute_python", ("_execute_python", ["code"], []));
   ("system_info", ("_system_info", [], []));
   ("get_datetime", ("_get_datetime", [], []));
   ("count_words", ("_count_words", ["text"], []));
   ("tavily_search", ("_tavily_search", ["query"], ["max_age_days"; "num_results"]));
   ("tavily_scrape", ("_tavily_scrape", ["url"], ["only_main_content"]));
   ("tavily_search_scrape", ("_tavily_search_scrape", ["query"], ["max_age_days"]));
   ("deep_research", ("_deep_research", ["query"], ["max_age_days"]));
   ("research_status", ("_research_status", [], []))].

(** What the module [platform] reports. *)
Record platform := Platform {
  system : string;
  release : string;
  machine : string;
  processor : string;
  python_version : string
}.

(** [_system_info] *)
Definition _system_info (p : platform) : string :=
  "💻 Informacje systemowe:" ++ Text.nl ++
  String.concat Text.nl
    ["- System: " ++ system p;
     "- Release: " ++ release p;
     "- Machine: " ++ machine p;
     "- Processor: " ++ (if String.eqb (processor p) EmptyString then "Unknown" else processor p);
     "- Python: " ++ python_version p].

(** [_calculator] as the registry calls it; the world is the list of the
    calls of [eval] made so far. *)
Definition calculator_tool (py_eval : Calculator.eval_call -> Py.result string)
    : @Registry.handler (list Calculator.eval_call) :=
  fun kwargs w =>
    match Call.bind "_calculator" ["expression"] [] kwargs with
    | Py.Raise e => (Py.Raise e, w)
    | Py.Return bound =>
        let '(r, calls) :=
          Calculator._calculator py_eval (default EmptyString (bound !! "expression")) in
        (r, (w ++ calls)%list)
    end.

(** The three numbers of [_count_words]. *)
Definition stats (words chars lines : nat) : string :=
  "📊 Statystyki tekstu:" ++ Text.nl ++ "- Słowa: " ++ PyStr.of_nat words ++ Text.nl
  ++ "- Znaki: " ++ PyStr.of_nat chars ++ Text.nl ++ "- Linie: " ++ PyStr.of_nat lines.

(** [_count_words]; [String.length] is [len] on ASCII text. *)
Definition _count_words (text : string) : string :=
  let words := length (Text.words text) in
  let chars := String.length text in
  let lines := length (PyStr.split "010" text) in
  stats words chars lines.

(** What [open(path).read()] gives. *)
Inductive read_outcome :=
| Read (content : string)
| NotFound                      (* FileNotFoundError *)
| ReadError (e : Py.exc).

(** [_read_file]; the length and the cut are those of Python on ASCII
    content. *)
Definition _read_file (read : string -> read_outcome) (path : string) : Py.result string :=
  match read path with
  | Read content =>
      Py.Return
        (if (500 <? String.length content)%nat
         then "📄 Zawartość pliku '" ++ path ++ "':" ++ Text.nl ++ Text.prefix 500 content ++ "..."
         else "📄 Zawartość pliku '" ++ path ++ "':" ++ Text.nl ++ content)
  | NotFound => Py.Return ("❌ Plik '" ++ path ++ "' nie istnieje")
  | ReadError e => Py.except_Exception (Py.Raise e) (fun e => "❌ Błąd czytania pliku: " ++ Py.exc_str e)
  end.

(** The substrings [_execute_python] refuses. *)
Definition dangerous : list string := ["import os"; "import sys"; "exec"; "eval"; "__"].

(** One call of [subprocess.run] with [capture_output] and [text]. *)
Record run_call := Run { argv : list string; timeout_s : Z }.

Inductive run_outcome :=
| Completed (stdout stderr : string)
| TimeoutExpired
| RunError (e : Py.exc).

Definition unsafe_code : string := "❌ Niebezpieczny kod - zabronione importy".

(** [_execute_python]: the string returned, and the processes run; the cut
    is that of Python on ASCII output. *)
Definition _execute_python (run : run_call -> run_outcome) (code : string)
    : Py.result string * list run_call :=
  if existsb (fun d => Text.occurs d code) dangerous then (Py.Return unsafe_code, [])
  else
    let call := Run ["python3"; "-c"; code] 5 in
    (match run call with
     | Completed stdout stderr =>
         let output := if String.eqb stdout EmptyString then stderr else stdout in
         Py.Return ("🐍 Wynik:" ++ Text.nl ++ Text.prefix 500 output)
     | TimeoutExpired => Py.Return "❌ Timeout - kod wykonywał się za długo"
     | RunError e =>
         Py.except_Exception (Py.Raise e) (fun e => "❌ Błąd wykonania: " ++ Py.exc_str e)
     end, [call]).

End Handlers.

(** ** Scraping: [scrape], [search_and_scrape], [_extract_title] *)

Module Scraping.

Import DateTime.

Definition default_title : string := "Brak tytułu".

(** The loop of [_extract_title] over the lines ([strip] as on ASCII
    text). *)
Fixpoint first_heading (lines : list string) : option string :=
  match lines with
  | [] => None
  | line :: rest =>
      match PyStr.strip_prefix "# " (PyStr.strip line) with
      | Some title => Some (PyStr.strip title)
      | None => first_heading rest
      end
  end.

(** [_extract_title] *)
Definition _extract_title (content : string) : string :=
  default default_title (first_heading (PyStr.split "010" (PyStr.strip content))).

(** What Python raises for [None.strip()] and for [None[:2000]]. *)
Definition no_attribute_strip : Py.exc :=
  Py.Exc "AttributeError" true "'NoneType' object has no attribute 'strip'".

Definition not_subscriptable : Py.exc :=
  Py.Exc "TypeError" true "'NoneType' object is not subscriptable".

(** [_extract_title] called with what [data.get] gave: [None] has no
    method [strip]. *)
Definition extract_title_of (content : option string) : Py.result string :=
  match content with
  | Some text => Py.Return (_extract_title text)
  | None => Py.Raise no_attribute_strip
  end.

(** A URL as an f-string shows it: the argument may be [None]. *)
Definition shown (url : option string) : string := default "None" url.

(** The request [requests.post] sends to the scrape endpoint. *)
Record scrape_request := ScrapeRequest {
  sreq_url : string;
  sreq_authorization : string;
  sreq_page : option string;
  sreq_only_main_content : bool;
  sreq_output_format : string;
  sreq_timeout_s : Z
}.

(** A field of the decoded body: the key is absent, or it is there with
    the JSON [null], or with a text. *)
Inductive field :=
| Missing
| Null
| Str (text : string).

(** [data.get(key, default)]: the value is [None] or a string. *)
Definition get (f : field) (default : option string) : option string :=
  match f with
  | Missing => default
  | Null => None
  | Str text => Some text
  end.

(** The decoded body of a reply. *)
Record scrape_data := ScrapeData {
  data_content : field;
  data_markdown : field
}.

Inductive scrape_outcome :=
| ScrapeReply (status_code : Z) (json : string + scrape_data)
| ScrapeNoReply (error : string).

(** The shapes of what [scrape] returns: a success with a text as
    content, a success whose content is [None] (the reply held no content
    and a markdown that is [null]), and a failure. *)
Inductive scrape_response :=
| ScrapeSuccess (url : option string) (content title timestamp : string) (mock : bool)
| ScrapeSuccessNone (url : option string) (title timestamp : string)
| ScrapeFailure (error : string) (url : option string).

(** [r.get("success", False)] and [r.get("content", "")] *)
Definition scrape_success (r : scrape_response) : bool :=
  match r with
  | ScrapeSuccess _ _ _ _ _ => true
  | ScrapeSuccessNone _ _ _ => true
  | ScrapeFailure _ _ => false
  end.

Definition scrape_content (r : scrape_response) : option string :=
  match r with
  | ScrapeSuccess _ content _ _ _ => Some content
  | ScrapeSuccessNone _ _ _ => None
  | ScrapeFailure _ _ => Some EmptyString
  end.

(** One entry of [scraped_pages]. *)
Record scraped_page := Page {
  page_url : option string;
  page_title : option string;
  page_content : string;
  page_success : bool
}.

(** How a call of [search_and_scrape] ends: it returns its own success,
    or the response of the search that did not succeed, or it raises (the
    loop over the pages is in no [try]). *)
Inductive combined_response :=
| Combined (query : string) (search_results : list Research.search_result)
    (scraped_pages : list scraped_page) (total_scraped : nat)
| SearchFailed (r : Research.response)
| Raised (e : Py.exc).

(** The world of the search, with the scrape endpoint and the requests
    sent to it so far. *)
Record world := World {
  base : Research.world;
  scrape_endpoint : scrape_request -> scrape_outcome;
  scrape_sent : list scrape_request
}.

Definition M (A : Type) : Type := world -> A * world.

Definition ret {A : Type} (a : A) : M A := fun w => (a, w).

Definition bind {A B : Type} (m : M A) (k : A -> M B) : M B :=
  fun w => let '(a, w') := m w in k a w'.

Notation "'let*' x ':=' m 'in' k" := (bind m (fun x => k))
  (at level 10, x name, m at level 100, k at level 200).

(** A step of the search client, run in this world. *)
Definition lift {A : Type} (m : Research.M A) : M A :=
  fun w => let '(a, b) := m (base w) in (a, World b (scrape_endpoint w) (scrape_sent w)).

Definition post (r : scrape_request) : M scrape_outcome :=
  fun w => (scrape_endpoint w r, World (base w) (scrape_endpoint w) (scrape_sent w ++ [r])).

Section Client.

Variable fromisoformat : string -> option datetime.

Variable tavily_api_key : string.

(** [_mock_scrape]: the clock is read for the content and again for the
    timestamp. *)
Definition _mock_scrape (url : option string) : M scrape_response :=
  let* written := lift Research.datetime_now in
  let* stamped := lift Research.datetime_now in
  ret (ScrapeSuccess url
         ("# Symulowana treść" ++ Text.nl ++ Text.nl
          ++ "To jest symulowany wynik scrapowania dla: " ++ shown url ++ Text.nl ++ Text.nl
          ++ "## Informacje" ++ Text.nl ++ "- URL: " ++ shown url ++ Text.nl
          ++ "- Data: " ++ isoformat written ++ Text.nl ++ Text.nl
          ++ "Treść strony zostałaby pobrana przez Tavily API gdyby klucz był skonfigurowany.")
         ("Symulowana strona: " ++ shown url)
         (isoformat stamped)
         true).

(** [scrape] *)
Definition scrape (url : option string) (only_main_content : bool) : M scrape_response :=
  if String.eqb tavily_api_key EmptyString then _mock_scrape url
  else
    let* reply := post (ScrapeRequest (Research.tavily_base ++ "/scrape")
                          ("Bearer " ++ tavily_api_key) url only_main_content "markdown" 30) in
    match reply with
    | ScrapeNoReply error => ret (ScrapeFailure error url)
    | ScrapeReply status_code json =>
        if (status_code =? 200)%Z then
          match json with
          | inl error => ret (ScrapeFailure error url)
          | inr data =>
              let content :=
                get (data_content data) (get (data_markdown data) (Some EmptyString)) in
              match extract_title_of (get (data_content data) (Some EmptyString)) with
              | Py.Raise e => ret (ScrapeFailure (Py.exc_str e) url)
              | Py.Return title =>
                  let* now := lift Research.datetime_now in
                  ret (match content with
                       | Some text => ScrapeSuccess url text title (isoformat now) false
                       | None => ScrapeSuccessNone url title (isoformat now)
                       end)
              end
          end
        else ret (ScrapeFailure ("API error: " ++ PyStr.of_Z status_code) url)
    end.

(** The body of the loop of [search_and_scrape]: the slice of a content
    that is [None] raises. *)
Definition scrape_page (result : Research.search_result) : M (Py.result scraped_page) :=
  let url := Research.url result in
  let* scrape_result := scrape url true in
  ret (match scrape_content scrape_result with
       | Some content =>
           Py.Return (Page url (Research.title result) (Text.prefix 2000 content)
                        (scrape_success scrape_result))
       | None => Py.Raise not_subscriptable
       end).

(** The loop: it ends at the first page that raises. *)
Fixpoint scrape_pages (results : list Research.search_result)
    : M (Py.result (list scraped_page)) :=
  match results with
  | [] => ret (Py.Return [])
  | result :: rest =>
      let* page := scrape_page result in
      match page with
      | Py.Raise e => ret (Py.Raise e)
      | Py.Return page =>
          let* pages := scrape_pages rest in
          ret (match pages with
               | Py.Return pages => Py.Return (page :: pages)
               | Py.Raise e => Py.Raise e
               end)
      end
  end.

(** [search_and_scrape] *)
Definition search_and_scrape (query : string) (max_age_days : Z) : M combined_response :=
  let* search_results := lift (Research.search fromisoformat tavily_api_key
                                 query max_age_days 5 "advanced") in
  if negb (Research.success search_results) then ret (SearchFailed search_results)
  else
    let* scraped := scrape_pages (take 3 (Research.results_of search_results)) in
    ret (match scraped with
         | Py.Return scraped =>
             Combined query (Research.results_of search_results) scraped (length scraped)
         | Py.Raise e => Raised e
         end).

End Client.

End Scraping.

(** ** The status of the client: [get_status] *)

Module Status.

Record status := Status {
  tavily_configured : bool;
  serper_configured : bool;
  features : list string;
  default_max_age_days : Z;
  note : string
}.

(** [bool(s)] of a string. *)
Definition nonempty (s : string) : bool := negb (String.eqb s EmptyString).

Definition get_status (tavily_api_key serper_api_key : string) : status :=
  Status (nonempty tavily_api_key) (nonempty serper_api_key)
    ["search"; "scrape"; "search_and_scrape"; "deep_research"]
    120
    "Ustaw TAVILY_API_KEY w .env aby włączyć prawdziwe wyszukiwanie".

End Status.

(** * The vocabulary of the specification *)

(** The text of one marker. *)
Definition marker (name args : string) : string :=
  "[TOOL:" ++ name ++ "]" ++ args ++ "[/TOOL]".

(** A name is a non-empty run of word characters (those of ASCII). *)
Definition word_token (name : string) : Prop :=
  name <> EmptyString /\ PyStr.forallb PyStr.isword name = true.

(** Some marker starts the text. *)
Definition starts_marker (s : string) : Prop :=
  exists name args rest, word_token name /\ s = marker name args ++ rest.

(** The arguments are as short as can be: the closing tag after them is
    the first one. *)
Definition shortest_args (args rest : string) : Prop :=
  forall a' r', args ++ "[/TOOL]" ++ rest = a' ++ "[/TOOL]" ++ r' ->
                String.length args <= String.length a'.

(** The marker that starts the text, its arguments taken non-greedily. *)
Definition occurrence (s name args rest : string) : Prop :=
  s = marker name args ++ rest /\ word_token name /\ shortest_args args rest.

(** The occurrences of a text, as a scan from left to right finds them:
    none in the empty text; where no marker starts, the scan moves one
    character on; where one starts, it is recorded and the scan resumes
    after its closing tag. *)
Inductive Scan : string -> list (string * string) -> Prop :=
| Scan_end : Scan EmptyString []
| Scan_skip c s l :
    ~ starts_marker (String c s) -> Scan s l -> Scan (String c s) l
| Scan_hit s name args rest l :
    occurrence s name args rest -> Scan rest l -> Scan s ((name, args) :: l).

(** The pattern after the name. *)
Definition tail_items : list Re.item := [Re.Lit "]"; Re.AnyLazy; Re.Lit "[/TOOL]"].

(** The two groups of each match, as [re.findall] returns them. *)
Definition found (text : string) : list (string * string) :=
  map (fun m => (nth 0 m EmptyString, nth 1 m EmptyString)) (Re.findall Re.pattern text).

(** What one piece of a [key=value] segment does to the arguments read
    so far. *)
Inductive KeyValue : string -> gmap string string -> gmap string string -> Prop :=
| KV_pair key value kw :
    PyStr.contains "=" key = false ->
    KeyValue (key ++ "=" ++ value) kw (<[PyStr.strip key := PyStr.strip value]> kw)
| KV_skip piece kw :
    PyStr.contains "=" piece = false -> KeyValue piece kw kw.


(** A tool with no positional rule of its own. *)
Definition other_tool (tool_name : string) : Prop :=
  tool_name <> "read_file" /\ tool_name <> "write_file" /\ tool_name <> "tavily_scrape".


(** The request of a search. *)
Definition search_request (key query : string) (max_age_days num_results : Z)
    (search_depth : string) : Research.request :=
  Research.Request "https://api.tavily.com/search" ("Bearer " ++ key)
    query max_age_days num_results search_depth true 30.

Definition mock_result (query : string) (max_age_days : Z) (published : string)
    : Research.search_result :=
  Research.Result
    (Some ("https://example.com/article-" ++ PyStr.replace " " "-" query))
    (Some ("Wynik 1 dla: " ++ query))
    (Some ("Symulowany wynik wyszukiwania dla '" ++ query
           ++ "'. Informacja nie starsza niż " ++ PyStr.of_Z max_age_days ++ " dni."))
    (Some published)
    (Some "0.95").

Definition mock_response (query : string) (max_age_days : Z) (published : string)
    : Research.response :=
  Research.SearchSuccess query [mock_result query max_age_days published] 1 false 50 None true
    (Some "Brak TAVILY_API_KEY - używam symulowanych wyników").

(** The date of the synthetic result when the clock shows [t]: seven days
    before. *)
Definition mock_published (t : N) : string :=
  match DateTime.sub_days (DateTime.of_epoch_us t) 7 with
  | Py.Return d => DateTime.isoformat d
  | Py.Raise _ => EmptyString
  end.

(** The loop without its accumulator: the results kept after [seen]. *)
Fixpoint firsts (seen : gset string) (l : list Research.search_result)
    : list Research.search_result :=
  match l with
  | [] => []
  | r :: rest =>
      if Research.truthy (Research.url r)
         && bool_decide (default EmptyString (Research.url r) ∉ seen)
      then r :: firsts ({[default EmptyString (Research.url r)]} ∪ seen) rest
      else firsts seen rest
  end.

(** * Handlers, systems and worlds of the examples *)

(** A handler that ends the process, as [sys.exit] does, and one that
    returns. *)
Definition exiting_handler : @Registry.handler unit :=
  fun _ w => (Py.Raise (Py.Exc "SystemExit" false "bye"), w).

Definition idle_methods : string -> @Registry.handler unit :=
  fun _ _ w => (Py.Return "ok", w).

(** A handler that fails with a [ValueError]. *)
Definition failing_handler : @Registry.handler unit :=
  fun _ w => (Py.Raise (Py.Exc "ValueError" true "bad value"), w).

(** An interpreter that gives an integer expression its value, and a
    syntax error elsewhere. *)
Definition reference_eval (call : Calculator.eval_call) : Py.result string :=
  match Calculator.int_eval (Calculator.ev_source call) with
  | Some v =>
      if Calculator.renders v then Py.Return (PyStr.of_Z v)
      else Py.Raise (Py.Exc "ValueError" true "Exceeds the limit for integer string conversion")
  | None => Py.Raise (Py.Exc "SyntaxError" true "invalid syntax")
  end.

(** An operating system on which every directory can be made and every
    file written. *)
Definition willing_os : FileTools.os :=
  FileTools.OS
    (fun _ => None)
    (fun d => if String.eqb d EmptyString
              then Some (Py.Exc "FileNotFoundError" true "No such file or directory: ''")
              else None)
    (fun p => if FileTools.names_directory (FileTools.basename p)
              then Some (Py.Exc "IsADirectoryError" true ("Is a directory: '" ++ p ++ "'"))
              else None)
    (fun _ _ => None).

(** A disk on which the entry [notes.txt] of the safe directory is a
    symbolic link to a file of the user, outside the directory. *)
Definition linked_disk : FileTools.disk :=
  FileTools.Disk {[ "./mcp_workspace/notes.txt" := "/home/user/.bashrc" ]}
                 {[ "/home/user/.bashrc" := "export PATH=/usr/bin" ]}.

(** A world whose clock shows 2026-11-03T10:00:00 and moves on one
    second at every reading, with the given endpoint. *)
Definition world_at (endpoint : Research.request -> Research.http_outcome) : Research.world :=
  Research.World (fun n => (1793700000000000 + 1000000 * N.of_nat n)%N) 0 endpoint [].

Definition old_result (published_date : string) : Research.search_result :=
  Research.Result (Some "https://example.com/old") (Some "Old news") (Some "text")
    (Some published_date) None.

(** An endpoint that answers every request with one result. *)
Definition answers (r : Research.search_result) : Research.request -> Research.http_outcome :=
  fun _ => Research.Reply 200 "{}" (inr (Research.Data (Some [r]) (Some "an answer"))) 12.

Definition unreachable : Research.request -> Research.http_outcome :=
  fun _ => Research.NoReply "no network".

(** An endpoint whose reply holds the same URL twice and a result with
    no URL. *)
Definition page (u : option string) (t : string) : Research.search_result :=
  Research.Result u (Some t) (Some "text") None None.

Definition repeating : Research.request -> Research.http_outcome :=
  fun _ => Research.Reply 200 "{}"
    (inr (Research.Data
            (Some [page (Some "https://a.example") "first a";
                   page (Some "https://b.example") "b";
                   page (Some "https://a.example") "second a";
                   page None "no url"])
            None)) 7.

(** An endpoint that is down. *)
Definition down : Research.request -> Research.http_outcome :=
  fun _ => Research.Reply 500 "Internal Server Error" (inl "no body") 3.

(** * More vocabulary and examples *)

(** Every descriptor is stored under its own name and holds the method
    of that name. *)
Definition well_named {World : Type} (methods : string -> @Registry.handler World)
    (tools : gmap string Registry.tool_descriptor) : Prop :=
  map_Forall (fun k t => Registry.name t = k /\ Registry.function t = methods k) tools.

(** The message of the registry for an exception of a tool. *)
Definition tool_error (name : string) (e : Py.exc) : string :=
  "❌ Błąd wykonania narzędzia '" ++ name ++ "': " ++ Py.exc_str e.

(** The methods of a registry whose calculator is the handler modelled
    and whose other tools do nothing. *)
Definition calculator_methods (name : string) : @Registry.handler (list Calculator.eval_call) :=
  if String.eqb name "calculator" then Handlers.calculator_tool reference_eval
  else fun _ w => (Py.Return "done", w).

(** A machine. *)
Definition this_machine : Handlers.platform :=
  Handlers.Platform "Linux" "6.1" "x86_64" EmptyString "3.11.4".

Definition system_info_body (w : unit) : Py.result string * unit :=
  (Py.Return (Handlers._system_info this_machine), w).

Definition system_info_tool : @Registry.handler unit :=
  Handlers.without_parameters "_system_info" system_info_body.

(** The keywords the parser gives a call read by position. *)
Definition positional_keys (tool_name : string) : list string :=
  if String.eqb tool_name "read_file" then ["path"]
  else if String.eqb tool_name "write_file" then ["path"; "content"]
  else if String.eqb tool_name "tavily_scrape" then ["url"]
  else ["query"].

(** The body of [calculator_tool]. *)
Definition calculator_body (py_eval : Calculator.eval_call -> Py.result string)
    (bound : gmap string string) (w : list Calculator.eval_call)
    : Py.result string * list Calculator.eval_call :=
  let '(r, calls) :=
    Calculator._calculator py_eval (default EmptyString (bound !! "expression")) in
  (r, (w ++ calls)%list).

(** The request of a scrape. *)
Definition scrape_request_for (key : string) (url : option string) (only_main_content : bool)
    : Scraping.scrape_request :=
  Scraping.ScrapeRequest "https://api.tavily.com/scrape" ("Bearer " ++ key)
    url only_main_content "markdown" 30.

(** A page as [search_and_scrape] records it for a result (the length is
    that of Python where the content is ASCII). *)
Definition page_of (r : Research.search_result) (p : Scraping.scraped_page) : Prop :=
  Scraping.page_url p = Research.url r /\
  Scraping.page_title p = Research.title r /\
  String.length (Scraping.page_content p) <= 2000.

(** A scrape endpoint that answers with a page in markdown only. *)
Definition markdown_only : Scraping.scrape_request -> Scraping.scrape_outcome :=
  fun _ => Scraping.ScrapeReply 200
             (inr (Scraping.ScrapeData Scraping.Missing
                     (Scraping.Str ("# Heading" ++ Text.nl ++ "body")))).

Definition scraping_world (search_endpoint : Research.request -> Research.http_outcome)
    : Scraping.world :=
  Scraping.World (world_at search_endpoint) markdown_only [].

(** A scrape endpoint whose reply holds no content and a markdown that is
    [null], and one whose reply holds a content that is [null]. *)
Definition null_markdown : Scraping.scrape_request -> Scraping.scrape_outcome :=
  fun _ => Scraping.ScrapeReply 200 (inr (Scraping.ScrapeData Scraping.Missing Scraping.Null)).

Definition null_content : Scraping.scrape_request -> Scraping.scrape_outcome :=
  fun _ => Scraping.ScrapeReply 200
             (inr (Scraping.ScrapeData Scraping.Null (Scraping.Str "# Heading"))).

(** A decoded body from which [scrape] takes an ASCII text as content, or
    on which it fails: every body but one with no content and a markdown
    that is [null]. *)
Definition plain (data : Scraping.scrape_data) : bool :=
  match Scraping.data_content data, Scraping.data_markdown data with
  | Scraping.Str text, _ => PyStr.isascii text
  | Scraping.Null, _ => true
  | Scraping.Missing, Scraping.Str text => PyStr.isascii text
  | Scraping.Missing, Scraping.Missing => true
  | Scraping.Missing, Scraping.Null => false
  end.

(** Whether the text starts with a character that is not white space. *)
Definition starts_word (s : string) : bool :=
  match s with
  | String c _ => negb (PyStr.isspace c)
  | EmptyString => false
  end.

(** An interpreter run that prints one line. *)
Definition printing : Handlers.run_call -> Handlers.run_outcome :=
  fun _ => Handlers.Completed ("1" ++ Text.nl) EmptyString.

(** * Properties *)

Example strip_ex : PyStr.strip "  a b   " = "a b".
Proof. reflexivity. Qed.

Example split_ex : PyStr.split "|" "a|b||c" = ["a"; "b"; EmptyString; "c"].
Proof. reflexivity. Qed.

Example of_Z_ex : PyStr.of_Z 1200 = "1200" /\ PyStr.of_Z (-7) = "-7" /\ PyStr.of_Z (2^70) = "1180591620717411303424".
Proof. vm_compute. auto. Qed.

Example parse_calculator :
  Parser.parse_tool_call_from_text "[TOOL:calculator]2+2[/TOOL]"
  = [Parser.ToolCall "calculator" {[ "query" := "2+2" ]}].
Proof. vm_compute. reflexivity. Qed.

Example parse_two :
  map Parser.tool (Parser.parse_tool_call_from_text
    "x [TOOL:a]1[/TOOL] y [TOOL:b][TOOL:c]2[/TOOL] z[/TOOL]") = ["a"; "b"].
Proof. vm_compute. reflexivity. Qed.

(** ** Facts on strings *)

#[local] Arguments String.append !s1 s2 : simpl nomatch.

Lemma sapp_assoc (a b c : string) : (a ++ b) ++ c = a ++ (b ++ c).
Proof. induction a as [|x a IH]; simpl; [reflexivity | now rewrite IH]. Qed.

Lemma sapp_nil_r (a : string) : a ++ EmptyString = a.
Proof. induction a as [|x a IH]; simpl; [reflexivity | now rewrite IH]. Qed.

Lemma slength_app (a b : string) :
  String.length (a ++ b) = String.length a + String.length b.
Proof. induction a as [|x a IH]; simpl; [reflexivity | now rewrite IH]. Qed.

Lemma strip_prefix_Some (p s s' : string) :
  PyStr.strip_prefix p s = Some s' <-> s = p ++ s'.
Proof.
  revert s. induction p as [|c p IH]; intros s; simpl.
  - split; [intros [= ->] | intros ->]; reflexivity.
  - destruct s as [|d s]; [split; discriminate|].
    destruct (Ascii.eqb_spec c d) as [->|Hne].
    + rewrite IH. split; [intros -> | intros [= ->]]; reflexivity.
    + split; [discriminate | intros [= -> _]; now destruct Hne].
Qed.

(** ** The matcher against the grammar of the marker *)

Lemma lazy_any_unfold {R} (k : string -> option R) (s : string) :
  Re.lazy_any k s =
  match k s with
  | Some r => Some (EmptyString, r)
  | None => match s with
            | EmptyString => None
            | String c s' => match Re.lazy_any k s' with
                             | Some (a, r) => Some (String c a, r)
                             | None => None
                             end
            end
  end.
Proof. destruct s; reflexivity. Qed.

Lemma lazy_any_sound {R} (k : string -> option R) (s a : string) (r : R) :
  Re.lazy_any k s = Some (a, r) ->
  exists s2, s = a ++ s2 /\ k s2 = Some r /\
    forall a' s2', s = a' ++ s2' -> String.length a' < String.length a -> k s2' = None.
Proof.
  revert a. induction s as [|c s IH]; intros a; rewrite lazy_any_unfold.
  - destruct (k EmptyString) eqn:E; [|discriminate].
    intros [= <- <-]. exists EmptyString. repeat split; auto. simpl; lia.
  - destruct (k (String c s)) eqn:E.
    + intros [= <- <-]. exists (String c s). repeat split; auto. simpl; lia.
    + destruct (Re.lazy_any k s) as [[a0 r0]|] eqn:E2; [|discriminate].
      intros [= <- <-]. destruct (IH _ eq_refl) as (s2 & -> & Hk & Hmin).
      exists s2. repeat split; auto.
      intros [|x a'] s2' Heq Hlt; simpl in Heq.
      * now subst s2'.
      * injection Heq as -> Heq. apply (Hmin a' s2' Heq). simpl in Hlt. lia.
Qed.

Lemma lazy_any_exact {R} (k : string -> option R) (a s2 : string) (r : R) :
  k s2 = Some r ->
  (forall a' s2', a ++ s2 = a' ++ s2' -> String.length a' < String.length a -> k s2' = None) ->
  Re.lazy_any k (a ++ s2) = Some (a, r).
Proof.
  intros Hk. induction a as [|c a IH]; intros Hmin; rewrite lazy_any_unfold.
  - simpl. now rewrite Hk.
  - simpl. rewrite (Hmin EmptyString (String c (a ++ s2))) by (simpl; auto; lia).
    rewrite IH; [reflexivity|].
    intros a' s2' Heq Hlt. apply (Hmin (String c a') s2'); simpl; [now rewrite Heq | lia].
Qed.

Lemma lazy_any_complete {R} (k : string -> option R) (a s2 : string) (r : R) :
  k s2 = Some r -> exists a' r', Re.lazy_any k (a ++ s2) = Some (a', r').
Proof.
  intros Hk. induction a as [|c a IH]; rewrite lazy_any_unfold; simpl.
  - rewrite Hk. eauto.
  - destruct (k (String c (a ++ s2))); [eauto|].
    destruct IH as (a' & r' & ->). eauto.
Qed.

Lemma greedy_word_sound {R} (k : string -> option R) (s w : string) (r : R) :
  Re.greedy_word k s = Some (w, r) ->
  exists s2, s = w ++ s2 /\ word_token w /\ k s2 = Some r.
Proof.
  revert w. induction s as [|c s IH]; intros w; simpl; [discriminate|].
  destruct (PyStr.isword c) eqn:Hc; [|discriminate].
  destruct (Re.greedy_word k s) as [[w0 r0]|] eqn:E.
  - intros [= <- <-]. destruct (IH _ eq_refl) as (s2 & -> & [_ Hw] & Hk).
    exists s2. split; [reflexivity|]. split; [|assumption].
    split; [discriminate | simpl; now rewrite Hc].
  - destruct (k s) eqn:Ek; [|discriminate].
    intros [= <- <-]. exists s. split; [reflexivity|]. split; [|assumption].
    split; [discriminate | simpl; now rewrite Hc].
Qed.

Lemma greedy_word_exact {R} (k : string -> option R) (w s2 : string) (r : R) :
  word_token w -> k s2 = Some r ->
  (forall c t, PyStr.isword c = true -> k (String c t) = None) ->
  Re.greedy_word k (w ++ s2) = Some (w, r).
Proof.
  intros [Hne Hw] Hk Hfail. induction w as [|c w IH]; [congruence|].
  simpl in Hw. apply andb_prop in Hw as [Hc Hw]. simpl. rewrite Hc.
  destruct w as [|d w'].
  - simpl. assert (Re.greedy_word k s2 = None) as ->.
    { destruct s2 as [|x t]; simpl; [reflexivity|].
      destruct (PyStr.isword x) eqn:Hx; [|reflexivity].
      rewrite (Hfail _ _ Hx) in Hk. discriminate. }
    now rewrite Hk.
  - rewrite IH; [reflexivity | discriminate | exact Hw].
Qed.

Lemma match_close (s : string) (g : list string) (rest : string) :
  Re.match_items [Re.Lit "[/TOOL]"] s = Some (g, rest) <->
  g = [] /\ s = "[/TOOL]" ++ rest.
Proof.
  cbn [Re.match_items].
  destruct (PyStr.strip_prefix "[/TOOL]" s) as [s'|] eqn:E.
  - apply strip_prefix_Some in E. subst s. split.
    + intros [= <- <-]. auto.
    + intros [-> H]. apply (inj (String.append "[/TOOL]")) in H. now subst.
  - split; [discriminate|]. intros [_ H].
    apply strip_prefix_Some in H. congruence.
Qed.

Lemma match_tail_spec (s : string) (g : list string) (rest : string) :
  Re.match_items tail_items s = Some (g, rest) <->
  exists args, g = [args] /\ s = "]" ++ args ++ "[/TOOL]" ++ rest /\ shortest_args args rest.
Proof.
  unfold tail_items. cbn [Re.match_items].
  destruct (PyStr.strip_prefix "]" s) as [s1|] eqn:E.
  - apply strip_prefix_Some in E. subst s. split.
    + destruct (Re.lazy_any _ s1) as [[a [g2 r2]]|] eqn:El; [|discriminate].
      intros [= <- <-]. apply lazy_any_sound in El as (s4 & -> & Hk & Hmin).
      apply match_close in Hk as [-> ->]. exists a. repeat split.
      intros a' r' Heq. destruct (le_lt_dec (String.length a) (String.length a')) as [|Hlt]; [assumption|].
      specialize (Hmin a' _ Heq Hlt).
      assert (Re.match_items [Re.Lit "[/TOOL]"] ("[/TOOL]" ++ r') = Some ([], r')) as Hs
        by (now apply match_close).
      cbn [Re.match_items] in Hs. congruence.
    + intros (args & -> & Heq & Hmin).
      apply (inj (String.append "]")) in Heq. subst s1.
      rewrite (lazy_any_exact _ args ("[/TOOL]" ++ rest) ([], rest)); [reflexivity | now apply match_close |].
      intros a' s2' Heq Hlt.
      destruct (Re.match_items [Re.Lit "[/TOOL]"] s2') as [[g2 r2]|] eqn:Ek; [|exact Ek].
      apply match_close in Ek as [-> ->]. specialize (Hmin _ _ Heq). lia.
  - split; [discriminate|]. intros (args & _ & Heq & _).
    apply strip_prefix_Some in Heq. congruence.
Qed.

Lemma match_tail_word (c : ascii) (t : string) :
  PyStr.isword c = true -> Re.match_items tail_items (String c t) = None.
Proof.
  intros Hc. unfold tail_items. cbn [Re.match_items PyStr.strip_prefix].
  destruct (Ascii.eqb_spec "]" c) as [<-|_]; [discriminate | reflexivity].
Qed.

(** The matcher finds at the start of a text the occurrence of the
    marker there, and nothing else. *)
Lemma match_pattern_spec (s : string) (g : list string) (rest : string) :
  Re.match_items Re.pattern s = Some (g, rest) <->
  exists name args, g = [name; args] /\ occurrence s name args rest.
Proof.
  unfold Re.pattern. fold tail_items. cbn [Re.match_items].
  destruct (PyStr.strip_prefix "[TOOL:" s) as [s1|] eqn:E.
  - apply strip_prefix_Some in E. subst s. split.
    + destruct (Re.greedy_word _ s1) as [[w [g1 r1]]|] eqn:Eg; [|discriminate].
      intros [= <- <-]. apply greedy_word_sound in Eg as (s2 & -> & Hw & Hk).
      apply match_tail_spec in Hk as (args & -> & -> & Hmin).
      exists w, args. split; [reflexivity|]. split; [|split; assumption].
      unfold marker. now rewrite !sapp_assoc.
    + intros (name & args & -> & Heq & Hw & Hmin).
      unfold marker in Heq. rewrite !sapp_assoc in Heq.
      apply (inj (String.append "[TOOL:")) in Heq. subst s1.
      rewrite (greedy_word_exact _ name _ ([args], rest)); [reflexivity | assumption | | apply match_tail_word].
      apply match_tail_spec. exists args. auto.
  - split; [discriminate|]. intros (name & args & _ & Heq & _).
    unfold marker in Heq. rewrite !sapp_assoc in Heq.
    apply strip_prefix_Some in Heq. congruence.
Qed.

(** Where some marker starts, the matcher succeeds. *)
Lemma match_pattern_complete (s : string) :
  starts_marker s -> exists g rest, Re.match_items Re.pattern s = Some (g, rest).
Proof.
  intros (name & args & rest & Hw & ->).
  unfold Re.pattern. fold tail_items. cbn [Re.match_items].
  unfold marker. rewrite !sapp_assoc.
  assert (PyStr.strip_prefix "[TOOL:" ("[TOOL:" ++ name ++ "]" ++ args ++ "[/TOOL]" ++ rest)
          = Some (name ++ "]" ++ args ++ "[/TOOL]" ++ rest)) as -> by now apply strip_prefix_Some.
  assert (exists r, Re.match_items tail_items ("]" ++ args ++ "[/TOOL]" ++ rest) = Some r) as [[g1 r1] Hk].
  { unfold tail_items. cbn [Re.match_items].
    assert (PyStr.strip_prefix "]" ("]" ++ args ++ "[/TOOL]" ++ rest)
            = Some (args ++ "[/TOOL]" ++ rest)) as -> by now apply strip_prefix_Some.
    destruct (lazy_any_complete (Re.match_items [Re.Lit "[/TOOL]"]) args ("[/TOOL]" ++ rest) ([], rest))
      as (a' & [g2 r2] & El); [now apply match_close |].
    cbn [Re.match_items] in El. rewrite El. eauto. }
  rewrite (greedy_word_exact _ name _ _ Hw Hk match_tail_word). eauto.
Qed.

Lemma match_pattern_None (s : string) :
  Re.match_items Re.pattern s = None <-> ~ starts_marker s.
Proof.
  split.
  - intros E H. destruct (match_pattern_complete s H) as (g & rest & E'). congruence.
  - intros H. destruct (Re.match_items Re.pattern s) as [[g rest]|] eqn:E; [|reflexivity].
    apply match_pattern_spec in E as (name & args & _ & Heq & Hw & _).
    destruct H. exists name, args, rest. auto.
Qed.

Lemma occurrence_shrinks (s name args rest : string) :
  occurrence s name args rest -> String.length rest < String.length s.
Proof.
  intros (-> & _ & _). unfold marker. rewrite !slength_app. simpl. lia.
Qed.

(** ** [re.findall] on the pattern of the marker *)

Lemma findall_fuel_enough (n m : nat) (s : string) :
  String.length s < n -> String.length s < m ->
  Re.findall_fuel n Re.pattern s = Re.findall_fuel m Re.pattern s.
Proof.
  revert m s. induction n as [|n IH]; intros [|m] s Hn Hm; try lia.
  cbn [Re.findall_fuel].
  destruct (Re.match_items Re.pattern s) as [[g rest]|] eqn:E.
  - f_equal. apply match_pattern_spec in E as (name & args & _ & Hocc).
    apply occurrence_shrinks in Hocc. apply IH; lia.
  - destruct s as [|c s]; [reflexivity|]. simpl in Hn, Hm. apply IH; lia.
Qed.

Lemma findall_unfold (s : string) :
  Re.findall Re.pattern s =
  match Re.match_items Re.pattern s with
  | Some (g, rest) => g :: Re.findall Re.pattern rest
  | None => match s with
            | EmptyString => []
            | String _ s' => Re.findall Re.pattern s'
            end
  end.
Proof.
  unfold Re.findall at 1. cbn [Re.findall_fuel].
  destruct (Re.match_items Re.pattern s) as [[g rest]|] eqn:E.
  - f_equal. apply match_pattern_spec in E as (name & args & _ & Hocc).
    apply occurrence_shrinks in Hocc. apply findall_fuel_enough; lia.
  - destruct s as [|c s]; [reflexivity|]. apply findall_fuel_enough; simpl; lia.
Qed.

Lemma found_hit (s name args rest : string) :
  occurrence s name args rest -> found s = (name, args) :: found rest.
Proof.
  intros Hocc. unfold found. rewrite findall_unfold.
  assert (Re.match_items Re.pattern s = Some ([name; args], rest)) as ->
    by (apply match_pattern_spec; eauto).
  reflexivity.
Qed.

Lemma found_skip (c : ascii) (s : string) :
  ~ starts_marker (String c s) -> found (String c s) = found s.
Proof.
  intros H. unfold found. rewrite findall_unfold.
  apply match_pattern_None in H. now rewrite H.
Qed.


Lemma found_Scan (s : string) : Scan s (found s).
Proof.
  remember (S (String.length s)) as n eqn:Hn.
  assert (String.length s < n) as Hlt by lia. clear Hn.
  revert s Hlt. induction n as [|n IH]; intros s Hlt; [lia|].
  destruct (Re.match_items Re.pattern s) as [[g rest]|] eqn:E.
  - apply match_pattern_spec in E as (name & args & -> & Hocc).
    rewrite (found_hit _ _ _ _ Hocc). apply Scan_hit with rest; [assumption|].
    apply IH. apply occurrence_shrinks in Hocc. lia.
  - apply match_pattern_None in E. destruct s as [|c s]; [constructor|].
    rewrite (found_skip _ _ E). apply Scan_skip; [assumption|].
    apply IH. simpl in Hlt. lia.
Qed.

Lemma parse_found (text : string) :
  Parser.parse_tool_call_from_text text =
  map (fun na => Parser.ToolCall na.1 (Parser.parse_kwargs na.1 na.2)) (found text).
Proof.
  unfold Parser.parse_tool_call_from_text, found. rewrite map_map. reflexivity.
Qed.



(** ** Splitting *)

Lemma split_nonempty (sep : ascii) (s : string) : PyStr.split sep s <> [].
Proof.
  destruct s as [|c s]; simpl; [discriminate|].
  destruct (Ascii.eqb c sep); [discriminate|].
  destruct (PyStr.split sep s); discriminate.
Qed.

(** [sep.join(s.split(sep)) == s], and no part holds the separator. *)
Lemma split_spec (sep : ascii) (s : string) :
  String.concat (String sep EmptyString) (PyStr.split sep s) = s /\
  Forall (fun p => PyStr.contains sep p = false) (PyStr.split sep s).
Proof.
  induction s as [|c s [IHc IHf]]; simpl.
  - split; [reflexivity | repeat constructor].
  - destruct (Ascii.eqb c sep) eqn:E.
    + apply Ascii.eqb_eq in E. subst c. split.
      * pose proof (split_nonempty sep s) as Hne.
        destruct (PyStr.split sep s) as [|h t]; [congruence|].
        simpl in *. now rewrite IHc.
      * constructor; [reflexivity | assumption].
    + pose proof (split_nonempty sep s) as Hne.
      destruct (PyStr.split sep s) as [|h t]; [congruence|].
      apply Forall_cons in IHf as [Hh Ht]. split.
      * destruct t as [|h' t]; simpl in *; now rewrite <- IHc.
      * constructor; [simpl; now rewrite E | assumption].
Qed.

(** [s.split(sep, 1)]: the text itself where it has no separator, and else
    what stands before the first separator and what stands after it. *)
Lemma split1_spec (sep : ascii) (s : string) :
  (PyStr.contains sep s = false /\ PyStr.split1 sep s = [s]) \/
  (exists a b, s = a ++ String sep b /\ PyStr.contains sep a = false /\
               PyStr.contains sep s = true /\ PyStr.split1 sep s = [a; b]).
Proof.
  induction s as [|c s IH]; simpl.
  - left. auto.
  - destruct (Ascii.eqb c sep) eqn:E.
    + right. apply Ascii.eqb_eq in E. subst c. exists EmptyString, s. auto.
    + destruct IH as [[Hc ->] | (a & b & -> & Ha & Hc & ->)].
      * left. auto.
      * right. exists (String c a), b. simpl. rewrite E. auto.
Qed.

(** ** Keyword arguments *)

Lemma parse_pair_KeyValue (kw : gmap string string) (pair : string) :
  KeyValue pair kw (Parser.parse_pair kw pair).
Proof.
  unfold Parser.parse_pair.
  destruct (split1_spec "=" pair) as [[Hc _] | (a & b & -> & Ha & Hc & Hs)]; rewrite Hc.
  - now apply KV_skip.
  - rewrite Hs. now apply (KV_pair a b).
Qed.




Example key_value_first_equals :
  Parser.parse_kwargs "any_tool" " k = v |junk| k2=a=b" = {[ "k" := "v"; "k2" := "a=b" ]}.
Proof. vm_compute. reflexivity. Qed.




(** ** The registry *)

(** C1, as the specification words it, fails: an exception of the handler
    that is no instance of [Exception] leaves [execute_tool], which catches
    [Exception] only. *)
Lemma execute_tool_can_raise :
  Registry.execute_tool (Registry.register_tool "quit" "Ends the process" exiting_handler ∅)
    "quit" ∅ tt
  = (Py.Raise (Py.Exc "SystemExit" false "bye"), tt).
Proof. reflexivity. Qed.

(** Apart from that, the call of [execute_tool] itself refuses a keyword
    that is called like one of its own parameters, before the [try] is
    entered: the parser gives such a call for [[TOOL:calculator]name=x[/TOOL]]. *)
Lemma execute_tool_refuses_own_parameter {World : Type}
    (tools : gmap string Registry.tool_descriptor) (name : string)
    (kwargs : gmap string string) (w : World) :
  is_Some (kwargs !! "self") \/ is_Some (kwargs !! "name") ->
  exists parameter,
    (parameter = "self" \/ parameter = "name") /\ is_Some (kwargs !! parameter) /\
    Registry.execute_tool tools name kwargs w = (Py.Raise (Registry.multiple_values parameter), w).
Proof.
  intros H. unfold Registry.execute_tool, Registry.bound_parameters. cbn [List.find].
  destruct (kwargs !! "self") as [v|] eqn:Es.
  - exists "self". rewrite bool_decide_eq_true_2 by eauto. rewrite Es. eauto.
  - rewrite bool_decide_eq_false_2 by (intros [? ?]; discriminate).
    destruct H as [[? ?]|H]; [discriminate|].
    exists "name". rewrite bool_decide_eq_true_2 by exact H. auto.
Qed.

Example execute_tool_keyword_name :
  Parser.parse_tool_call_from_text "[TOOL:calculator]name=x[/TOOL]"
  = [Parser.ToolCall "calculator" {[ "name" := "x" ]}] /\
  Registry.execute_tool (Registry.init idle_methods true) "calculator" {[ "name" := "x" ]} tt
  = (Py.Raise (Registry.multiple_values "name"), tt).
Proof. split; [vm_compute|]; reflexivity. Qed.

Lemma execute_tool_binds {World : Type} (tools : gmap string Registry.tool_descriptor)
    (name : string) (kwargs : gmap string string) (w : World) :
  kwargs !! "self" = None -> kwargs !! "name" = None ->
  Registry.execute_tool tools name kwargs w = Registry.execute_tool_body tools name kwargs w.
Proof.
  intros Hs Hn. unfold Registry.execute_tool, Registry.bound_parameters. simpl.
  rewrite Hs, Hn.
  rewrite !bool_decide_eq_false_2 by (intros [? ?]; discriminate). reflexivity.
Qed.

(** C1 (amended). Called with keywords that its signature accepts (none
    is [self] or [name]),
    [execute_tool] answers an unknown name with the not-found message,
    returns what the handler returns, and turns an exception of the handler
    that is an instance of [Exception] into a message that holds the name of
    the tool and the text of the exception; another exception passes
    through. *)
Theorem execute_tool_isolates {World : Type} (tools : gmap string Registry.tool_descriptor)
    (name : string) (kwargs : gmap string string) (w : World) :
  kwargs !! "self" = None -> kwargs !! "name" = None ->
  (tools !! name = None ->
     Registry.execute_tool tools name kwargs w
     = (Py.Return ("❌ Narzędzie '" ++ name ++ "' nie istnieje"), w)) /\
  (forall tool s w',
     tools !! name = Some tool -> Registry.function tool kwargs w = (Py.Return s, w') ->
     Registry.execute_tool tools name kwargs w = (Py.Return s, w')) /\
  (forall tool e w',
     tools !! name = Some tool -> Registry.function tool kwargs w = (Py.Raise e, w') ->
     Py.exc_is_Exception e = true ->
     Registry.execute_tool tools name kwargs w
     = (Py.Return ("❌ Błąd wykonania narzędzia '" ++ name ++ "': " ++ Py.exc_str e), w')) /\
  (forall tool e w',
     tools !! name = Some tool -> Registry.function tool kwargs w = (Py.Raise e, w') ->
     Py.exc_is_Exception e = false ->
     Registry.execute_tool tools name kwargs w = (Py.Raise e, w')) /\
  ((forall tool e w',
      tools !! name = Some tool -> Registry.function tool kwargs w = (Py.Raise e, w') ->
      Py.exc_is_Exception e = true) ->
   exists s w', Registry.execute_tool tools name kwargs w = (Py.Return s, w')).
Proof.
  intros Hs Hn. rewrite (execute_tool_binds _ _ _ _ Hs Hn).
  unfold Registry.execute_tool_body, Registry.get_tool.
  split; [|split; [|split; [|split]]].
  - intros ->. reflexivity.
  - intros tool s w' -> ->. reflexivity.
  - intros tool e w' -> -> He. unfold Py.except_Exception. now rewrite He.
  - intros tool e w' -> -> He. unfold Py.except_Exception. now rewrite He.
  - intros He. destruct (tools !! name) as [tool|]; [|eauto].
    destruct (Registry.function tool kwargs w) as [[s|e] w'] eqn:E; [eauto|].
    unfold Py.except_Exception. rewrite (He tool e w' eq_refl E). eauto.
Qed.

Lemma execute_tool_isolates_witness :
  Registry.execute_tool (Registry.register_tool "t" "A tool" failing_handler ∅)
    "t" {[ "query" := "x" ]} tt
  = (Py.Return "❌ Błąd wykonania narzędzia 't': bad value", tt).
Proof.
  refine (proj1 (proj2 (proj2
    (execute_tool_isolates (Registry.register_tool "t" "A tool" failing_handler ∅)
       "t" {[ "query" := "x" ]} tt _ _)))
    (Registry.Tool "t" "A tool" failing_handler)
    (Py.Exc "ValueError" true "bad value") tt _ _ _); reflexivity.
Defined.

(** The registry as constructed knows no tool [nonexistent_tool]. *)
Lemma execute_nonexistent_tool {World : Type} (methods : string -> @Registry.handler World)
    (has_research_tools : bool) (w : World) :
  Registry.execute_tool (Registry.init methods has_research_tools) "nonexistent_tool" ∅ w
  = (Py.Return "❌ Narzędzie 'nonexistent_tool' nie istnieje", w).
Proof.
  rewrite execute_tool_binds by apply lookup_empty.
  unfold Registry.execute_tool_body, Registry.get_tool.
  assert (Registry.init methods has_research_tools !! "nonexistent_tool" = None) as ->
    by (destruct has_research_tools; reflexivity).
  reflexivity.
Qed.

(** ** The calculator *)

Lemma forallb_false_iff (p : ascii -> bool) (s : string) :
  PyStr.forallb p s = false <->
  exists pre c post, s = pre ++ String c post /\ p c = false.
Proof.
  induction s as [|x s IH]; simpl.
  - split; [discriminate|]. intros ([|? ?] & c & post & H & _); discriminate.
  - destruct (p x) eqn:Hx; simpl.
    + rewrite IH. split.
      * intros (pre & c & post & -> & Hc). exists (String x pre), c, post. auto.
      * intros ([|y pre] & c & post & H & Hc); simpl in H; injection H as -> ->.
        -- congruence.
        -- eauto.
    + split; [|reflexivity]. intros _. exists EmptyString, x, s. auto.
Qed.



(** No character that is let through can start or continue a name: the
    names given to [eval] cannot be written in an accepted expression. *)
Lemma allowed_word_is_digit (c : ascii) :
  Calculator.char_allowed c = true -> PyStr.isword c = true -> PyStr.isdigit c = true.
Proof.
  destruct c as [[] [] [] [] [] [] [] []]; vm_compute; congruence.
Qed.



(** ** Writing a file *)

Lemma contains_app (c : ascii) (a b : string) :
  PyStr.contains c (a ++ b) = PyStr.contains c a || PyStr.contains c b.
Proof.
  induction a as [|x a IH]; simpl; [reflexivity|].
  destruct (Ascii.eqb x c); [reflexivity | exact IH].
Qed.

Lemma basename_no_slash (p : string) : PyStr.contains "/" (FileTools.basename p) = false.
Proof.
  induction p as [|c p IH]; simpl; [reflexivity|].
  destruct (PyStr.contains "/" p) eqn:Hp; [exact IH|].
  destruct (Ascii.eqb c "/") eqn:Hc; [exact Hp|].
  simpl. now rewrite Hc.
Qed.

Lemma basename_app (d name : string) :
  PyStr.contains "/" name = false -> FileTools.basename (d ++ "/" ++ name) = name.
Proof.
  intros Hn. induction d as [|c d IH]; simpl.
  - now rewrite Hn.
  - rewrite contains_app. simpl. now rewrite orb_true_r.
Qed.

Lemma ends_with_slash_app (d : string) :
  FileTools.ends_with_slash d = true -> exists d', d = d' ++ "/".
Proof.
  induction d as [|c d IH]; [discriminate|].
  destruct d as [|c' d].
  - simpl. intros H. apply Ascii.eqb_eq in H. subst c. now exists EmptyString.
  - intros H. destruct (IH H) as [d' ->]. now exists (String c d').
Qed.

Lemma join_child (d name : string) :
  d <> EmptyString -> PyStr.contains "/" name = false ->
  FileTools.join d name = FileTools.dir_of d ++ name /\
  FileTools.basename (FileTools.join d name) = name.
Proof.
  intros Hd Hn.
  assert (FileTools.join d name = FileTools.dir_of d ++ name) as Hj.
  { unfold FileTools.join, FileTools.dir_of.
    destruct d as [|c d]; [congruence|].
    destruct name as [|x name].
    - destruct (FileTools.ends_with_slash _); [reflexivity | now rewrite sapp_assoc].
    - simpl in Hn. destruct (Ascii.eqb_spec x "/") as [->|Hx]; [discriminate|].
      assert (forall A (u v : A), match x with "/"%char => u | _ => v end = v) as Hm.
      { intros A u v. destruct x as [[] [] [] [] [] [] [] []]; try reflexivity. now destruct Hx. }
      rewrite Hm. destruct (FileTools.ends_with_slash _); [reflexivity | now rewrite sapp_assoc]. }
  split; [exact Hj|]. rewrite Hj. unfold FileTools.dir_of.
  destruct (FileTools.ends_with_slash d) eqn:E.
  - apply ends_with_slash_app in E as [d' ->]. rewrite sapp_assoc. now apply basename_app.
  - rewrite sapp_assoc. now apply basename_app.
Qed.

(** The names [write_file] hands to the operating system.  Whatever the
    path and the content, the name used is the base name of the path, which
    holds no slash; every path it asks to empty or to write is the entry of
    that name in the safe directory (the value of [MCP_SAFE_DIR],
    [./mcp_workspace] without it), and the only other thing it asks for is
    to make that directory.  The base name of [../../etc/passwd] is
    [passwd]. *)
Lemma write_file_confined (o : FileTools.os) (path content : string) :
  FileTools.posix o ->
  let safe_dir := default "./mcp_workspace" (FileTools.getenv o "MCP_SAFE_DIR") in
  let name := FileTools.basename path in
  let target := FileTools.dir_of safe_dir ++ name in
  PyStr.contains "/" name = false /\
  (forall ev, ev ∈ (FileTools._write_file o path content).2 ->
     ev = FileTools.MadeDirs safe_dir \/
     ((ev = FileTools.Truncated target \/ ev = FileTools.Written target content) /\
      safe_dir <> EmptyString /\ FileTools.names_directory name = false)) /\
  (PyStr.isascii content = true ->
   FileTools.makedirs_error o safe_dir = None ->
   FileTools.open_error o target = None ->
   FileTools.write_error o target content = None ->
   FileTools._write_file o path content
   = (Py.Return ("✅ Zapisano " ++ PyStr.of_nat (String.length content)
                 ++ " znaków do '" ++ target ++ "'"),
      [FileTools.MadeDirs safe_dir; FileTools.Truncated target;
       FileTools.Written target content])) /\
  FileTools.basename "../../etc/passwd" = "passwd".
Proof.
  intros [Hmk Hop] safe_dir name target.
  pose proof (basename_no_slash path) as Hn. fold name in Hn.
  split; [exact Hn|].
  assert (FileTools.makedirs_error o safe_dir = None ->
          safe_dir <> EmptyString /\ FileTools.join safe_dir name = target) as Hdir.
  { intros E. assert (safe_dir <> EmptyString) as Hd by (intros H; rewrite H in E; congruence).
    split; [exact Hd|]. now apply join_child. }
  assert (FileTools.makedirs_error o safe_dir = None ->
          FileTools.open_error o target = None ->
          FileTools.names_directory name = false) as Hname.
  { intros E1 E2. destruct (FileTools.names_directory name) eqn:En; [|reflexivity].
    destruct (Hdir E1) as [Hd Hj]. destruct (Hop target); [|exact E2].
    rewrite <- Hj. now rewrite (proj2 (join_child safe_dir name Hd Hn)). }
  split; [|split; [|reflexivity]].
  - intros ev. unfold FileTools._write_file. fold safe_dir. fold name.
    destruct (FileTools.makedirs_error o safe_dir) as [e|] eqn:E1; simpl.
    { intros H. now apply elem_of_nil in H. }
    destruct (Hdir eq_refl) as [Hd Hj]. rewrite Hj.
    destruct (FileTools.open_error o target) as [e|] eqn:E2; simpl.
    { rewrite list_elem_of_singleton. auto. }
    specialize (Hname eq_refl eq_refl).
    destruct (FileTools.write_error o target content) as [e|]; simpl;
      rewrite ?elem_of_cons, ?elem_of_nil; intuition auto.
  - intros _ E1 E2 E3. unfold FileTools._write_file. fold safe_dir. fold name.
    rewrite E1. destruct (Hdir E1) as [_ ->]. now rewrite E2, E3.
Qed.

Lemma willing_os_posix : FileTools.posix willing_os.
Proof.
  split; [discriminate|]. intros p H. simpl. now rewrite H.
Qed.

Lemma write_file_confined_witness :
  FileTools.posix willing_os /\
  FileTools._write_file willing_os "../../etc/passwd" "root"
  = (Py.Return "✅ Zapisano 4 znaków do './mcp_workspace/passwd'",
     [FileTools.MadeDirs "./mcp_workspace"; FileTools.Truncated "./mcp_workspace/passwd";
      FileTools.Written "./mcp_workspace/passwd" "root"]).
Proof.
  split; [exact willing_os_posix|].
  exact (proj1 (proj2 (proj2
    (write_file_confined willing_os "../../etc/passwd" "root" willing_os_posix)))
    eq_refl eq_refl eq_refl eq_refl).
Defined.

(** Where the entry of that name in the safe directory is a symbolic
    link, the content goes to the file the link points to. *)
Lemma write_file_through_link (o : FileTools.os) (d : FileTools.disk)
    (path content outside : string) :
  let safe_dir := default "./mcp_workspace" (FileTools.getenv o "MCP_SAFE_DIR") in
  let target := FileTools.join safe_dir (FileTools.basename path) in
  FileTools.makedirs_error o safe_dir = None ->
  FileTools.open_error o target = None ->
  FileTools.write_error o target content = None ->
  FileTools.symlinks d !! target = Some outside ->
  FileTools.files (FileTools.after d (FileTools._write_file o path content).2) !! outside
  = Some content.
Proof.
  intros safe_dir target E1 E2 E3 Hl. unfold FileTools._write_file.
  fold safe_dir. rewrite E1. fold target. rewrite E2, E3.
  cbn [snd FileTools.after foldl FileTools.apply_event FileTools.symlinks FileTools.files].
  unfold FileTools.opened. cbn [FileTools.symlinks]. rewrite Hl. cbn [default from_option id].
  apply lookup_insert_eq.
Qed.

(** C3 fails for a name that is a symbolic link in the safe directory:
    [write_file] reports the file of the safe directory as written, and
    what is overwritten is the file outside it that the link points to; no
    regular file of that name appears in the safe directory. *)
Theorem write_file_follows_link :
  let out := FileTools._write_file willing_os "notes.txt" "alias ls=rm" in
  out.1 = Py.Return "✅ Zapisano 11 znaków do './mcp_workspace/notes.txt'" /\
  out.2 = [FileTools.MadeDirs "./mcp_workspace";
           FileTools.Truncated "./mcp_workspace/notes.txt";
           FileTools.Written "./mcp_workspace/notes.txt" "alias ls=rm"] /\
  FileTools.files linked_disk !! "/home/user/.bashrc" = Some "export PATH=/usr/bin" /\
  FileTools.files (FileTools.after linked_disk out.2) !! "/home/user/.bashrc"
  = Some "alias ls=rm" /\
  FileTools.below "./mcp_workspace" "/home/user/.bashrc" = false /\
  FileTools.files (FileTools.after linked_disk out.2) !! "./mcp_workspace/notes.txt" = None.
Proof.
  cbv zeta. split; [reflexivity|]. split; [reflexivity|]. split; [reflexivity|].
  split; [|split; [reflexivity|]].
  - apply (write_file_through_link willing_os linked_disk "notes.txt" "alias ls=rm");
      reflexivity.
  - vm_compute. reflexivity.
Qed.

Example write_file_parent_refused :
  FileTools._write_file willing_os "a/.." "x"
  = (Py.Return "❌ Błąd zapisu: Is a directory: './mcp_workspace/..'",
     [FileTools.MadeDirs "./mcp_workspace"]).
Proof. reflexivity. Qed.

(** ** Dates *)

Example ordinal_of_epoch : DateTime.ymd2ord 1970 1 1 = DateTime.epoch_ordinal.
Proof. reflexivity. Qed.

Example ordinal_round_trip :
  forallb (fun n => let '(y, m, d) := DateTime.ord2ymd n in (DateTime.ymd2ord y m d =? n)%Z)
          (map (fun k => (738000 + Z.of_nat k)%Z) (seq 0 3000)) = true.
Proof. vm_compute. reflexivity. Qed.

Example cutoff_of_november :
  DateTime.sub_days (DateTime.DT 2026 11 3 10 0 0 0 None) 120
  = Py.Return (DateTime.DT 2026 7 6 10 0 0 0 None).
Proof. reflexivity. Qed.

Example isoformat_now :
  DateTime.isoformat (DateTime.of_epoch_us 1793700000123456) = "2026-11-03T10:00:00.123456".
Proof. vm_compute. reflexivity. Qed.

(** ** The recency filter of [search] *)

(** What decides whether a result is kept: it has no date (or an empty
    one), or its date does not parse, or it does not compare with the cutoff,
    or it is not before the cutoff. *)
Lemma keeps_spec (fromisoformat : string -> option DateTime.datetime)
    (cutoff_date : DateTime.datetime) (r : Research.search_result) :
  Research.keeps fromisoformat cutoff_date r = true <->
  Research.truthy (Research.published_date r) = false \/
  (exists text, Research.published_date r = Some text /\
     (fromisoformat (PyStr.replace "Z" "+00:00" text) = None \/
      exists d, fromisoformat (PyStr.replace "Z" "+00:00" text) = Some d /\
                (DateTime.ge d cutoff_date = None \/ DateTime.ge d cutoff_date = Some true))).
Proof.
  unfold Research.keeps.
  destruct (Research.published_date r) as [[|c text]|];
    cbn [Research.truthy from_option id]; [tauto | | tauto].
  set (t := PyStr.replace "Z" "+00:00" (String c text)).
  destruct (fromisoformat t) as [d|] eqn:E.
  - destruct (DateTime.ge d cutoff_date) as [[]|] eqn:G.
    + split; [|reflexivity]. intros _.
      right. exists (String c text). split; [reflexivity|]. right. exists d. fold t. auto.
    + split; [discriminate|].
      intros [H | (text' & [= <-] & [H | (d' & H & [H' | H'])])]; try discriminate;
        fold t in H; congruence.
    + split; [|reflexivity]. intros _.
      right. exists (String c text). split; [reflexivity|]. right. exists d. fold t. auto.
  - split; [|reflexivity]. intros _. right. exists (String c text). fold t. auto.
Qed.

(** A date with a zone never compares with the cutoff, which has none:
    the result is kept however old it is. *)
Lemma keeps_aware (fromisoformat : string -> option DateTime.datetime)
    (cutoff_date d : DateTime.datetime) (r : Research.search_result) (text : string) (off : Z) :
  DateTime.utcoffset cutoff_date = None ->
  Research.published_date r = Some text -> text <> EmptyString ->
  fromisoformat (PyStr.replace "Z" "+00:00" text) = Some d ->
  DateTime.utcoffset d = Some off ->
  Research.keeps fromisoformat cutoff_date r = true.
Proof.
  intros Hc Hp Hne Hd Ho. apply keeps_spec. right. exists text. split; [exact Hp|].
  right. exists d. split; [exact Hd|]. left. unfold DateTime.ge. now rewrite Ho, Hc.
Qed.

(** What [search] returns on a reply with status 200 and a decoded body:
    the results that [keeps] lets through, cut to [num_results], their number
    before the cut, and whether that number is below the number received. *)
Lemma search_filters (fromisoformat : string -> option DateTime.datetime)
    (key query : string) (max_age_days num_results : Z) (search_depth : string)
    (w : Research.world) (text : string) (data : Research.search_data) (elapsed_ms : Z)
    (cutoff_date : DateTime.datetime) :
  key <> EmptyString ->
  Research.endpoint w (search_request key query max_age_days num_results search_depth)
  = Research.Reply 200 text (inr data) elapsed_ms ->
  DateTime.sub_days (DateTime.of_epoch_us (Research.clock w (Research.readings w))) max_age_days
  = Py.Return cutoff_date ->
  let raw := default [] (Research.data_results data) in
  let kept := filter (fun r => Research.keeps fromisoformat cutoff_date r = true) raw in
  (Research.search fromisoformat key query max_age_days num_results search_depth w).1
  = Research.SearchSuccess query (Research.slice_to num_results kept) (length kept)
      (length kept <? length raw)%nat elapsed_ms
      (Some (default EmptyString (Research.data_answer data))) false None.
Proof.
  intros Hk He Hc raw kept. apply String.eqb_neq in Hk.
  unfold Research.search, Research.bind, Research.post, Research.ret, Research.datetime_now.
  rewrite Hk. cbn [Research.endpoint Research.sent Research.clock Research.readings].
  change (Research.Request _ _ query max_age_days num_results search_depth true 30)
    with (search_request key query max_age_days num_results search_depth).
  rewrite He. cbn. now rewrite Hc.
Qed.

Lemma slice_to_take {A : Type} (n : Z) (l : list A) :
  (0 <= n)%Z -> Research.slice_to n l = take (Z.to_nat n) l.
Proof. intros H. unfold Research.slice_to. now rewrite (proj2 (Z.leb_le 0 n) H). Qed.

(** C2 at the failing input. On 2026-11-03, with [max_age_days = 120],
    a result published on 2020-01-01T00:00:00Z parses (its date is years
    before the cutoff, 2026-07-06) and is kept, and [filtered_by_date] is
    false; the same date written without the zone is excluded. *)
Theorem search_keeps_old_dated_result :
  DateTime.fromisoformat_basic (PyStr.replace "Z" "+00:00" "2020-01-01T00:00:00Z")
  = Some (DateTime.DT 2020 1 1 0 0 0 0 (Some 0%Z)) /\
  (Research.search DateTime.fromisoformat_basic "key" "news" 120 10 "advanced"
     (world_at (answers (old_result "2020-01-01T00:00:00Z")))).1
  = Research.SearchSuccess "news" [old_result "2020-01-01T00:00:00Z"] 1 false 12
      (Some "an answer") false None /\
  (Research.search DateTime.fromisoformat_basic "key" "news" 120 10 "advanced"
     (world_at (answers (old_result "2020-01-01T00:00:00")))).1
  = Research.SearchSuccess "news" [] 0 true 12 (Some "an answer") false None.
Proof. vm_compute. repeat split. Qed.

(** ** The mock search *)



(** ** Deep research *)

Lemma unique_loop_firsts (seen : gset string) (unique_results l : list Research.search_result) :
  Research.unique_loop seen unique_results l = (unique_results ++ firsts seen l)%list.
Proof.
  revert seen unique_results. induction l as [|r rest IH]; intros seen unique_results; simpl.
  - now rewrite app_nil_r.
  - destruct (_ && _); rewrite IH; [now rewrite <- app_assoc | reflexivity].
Qed.

Lemma truthy_url (r : Research.search_result) :
  Research.truthy (Research.url r) = true ->
  Research.url r = Some (default EmptyString (Research.url r)).
Proof. destruct (Research.url r) as [[|c s]|]; simpl; [discriminate | reflexivity | discriminate]. Qed.

Lemma firsts_fresh (seen : gset string) (l : list Research.search_result) (r : Research.search_result) :
  r ∈ firsts seen l ->
  Research.truthy (Research.url r) = true /\ default EmptyString (Research.url r) ∉ seen.
Proof.
  revert seen. induction l as [|r0 rest IH]; intros seen; simpl.
  - intros H. now apply elem_of_nil in H.
  - destruct (Research.truthy (Research.url r0)) eqn:Ht; simpl; [|apply IH].
    case_bool_decide as Hs; [|apply IH].
    rewrite elem_of_cons. intros [-> | H]; [auto|].
    destruct (IH _ H) as [H1 H2]. split; [exact H1|].
    intros Hx. apply H2. apply elem_of_union. now right.
Qed.

Lemma firsts_sublist (seen : gset string) (l : list Research.search_result) :
  sublist (firsts seen l) l.
Proof.
  revert seen. induction l as [|r0 rest IH]; intros seen; simpl; [constructor|].
  destruct (_ && _); [apply sublist_skip | apply sublist_cons]; apply IH.
Qed.

Lemma firsts_NoDup (seen : gset string) (l : list Research.search_result) :
  NoDup (Research.url <$> firsts seen l).
Proof.
  revert seen. induction l as [|r0 rest IH]; intros seen; simpl; [constructor|].
  destruct (Research.truthy (Research.url r0)) eqn:Ht; simpl; [|apply IH].
  case_bool_decide as Hs; [|apply IH].
  rewrite fmap_cons. constructor; [|apply IH].
  rewrite list_elem_of_fmap. intros (r & Hu & Hr).
  apply firsts_fresh in Hr as [Hr1 Hr2].
  rewrite (truthy_url _ Ht), (truthy_url _ Hr1) in Hu. injection Hu as Hu. set_solver.
Qed.

Lemma firsts_covers (seen : gset string) (l : list Research.search_result) (r : Research.search_result) :
  r ∈ l -> Research.truthy (Research.url r) = true ->
  default EmptyString (Research.url r) ∉ seen ->
  exists r', r' ∈ firsts seen l /\ Research.url r' = Research.url r.
Proof.
  revert seen. induction l as [|r0 rest IH]; intros seen Hin Ht Hs.
  - now apply elem_of_nil in Hin.
  - simpl. apply elem_of_cons in Hin as [-> | Hin].
    + rewrite Ht, bool_decide_eq_true_2 by exact Hs. simpl.
      exists r0. split; [apply list_elem_of_here | reflexivity].
    + destruct (Research.truthy (Research.url r0)) eqn:Ht0; simpl; [|now apply IH].
      case_bool_decide as Hs0; [|now apply IH].
      destruct (decide (default EmptyString (Research.url r) = default EmptyString (Research.url r0)))
        as [Heq|Hne].
      * exists r0. split; [apply list_elem_of_here|].
        now rewrite (truthy_url _ Ht), (truthy_url _ Ht0), Heq.
      * destruct (IH ({[default EmptyString (Research.url r0)]} ∪ seen) Hin Ht) as (r' & H1 & H2).
        { rewrite elem_of_union, elem_of_singleton. tauto. }
        exists r'. split; [now apply list_elem_of_further | exact H2].
Qed.

Lemma firsts_first (seen : gset string) (l : list Research.search_result) (r : Research.search_result) :
  r ∈ firsts seen l ->
  exists pre post, l = (pre ++ r :: post)%list /\
    forall x, x ∈ pre -> Research.url x <> Research.url r.
Proof.
  revert seen. induction l as [|r0 rest IH]; intros seen; simpl.
  - intros H. now apply elem_of_nil in H.
  - destruct (Research.truthy (Research.url r0)) eqn:Ht0; simpl.
    + case_bool_decide as Hs0.
      * rewrite elem_of_cons. intros [-> | H].
        -- exists [], rest. split; [reflexivity|]. intros x Hx. now apply elem_of_nil in Hx.
        -- pose proof (firsts_fresh _ _ _ H) as [Ht Hs].
           destruct (IH _ H) as (pre & post & -> & Hpre).
           exists (r0 :: pre), post. split; [reflexivity|].
           intros x Hx. apply elem_of_cons in Hx as [-> | Hx]; [|now apply Hpre].
           rewrite (truthy_url _ Ht), (truthy_url _ Ht0). intros [= Heq]. set_solver.
      * intros H. pose proof (firsts_fresh _ _ _ H) as [Ht Hs].
        destruct (IH _ H) as (pre & post & -> & Hpre).
        exists (r0 :: pre), post. split; [reflexivity|].
        intros x Hx. apply elem_of_cons in Hx as [-> | Hx]; [|now apply Hpre].
        rewrite (truthy_url _ Ht), (truthy_url _ Ht0). intros [= Heq].
        apply Hs. rewrite <- Heq. now apply dec_stable.
    + intros H. pose proof (firsts_fresh _ _ _ H) as [Ht Hs].
      destruct (IH _ H) as (pre & post & -> & Hpre).
      exists (r0 :: pre), post. split; [reflexivity|].
      intros x Hx. apply elem_of_cons in Hx as [-> | Hx]; [|now apply Hpre].
      intros Heq. rewrite Heq, Ht in Ht0. discriminate.
Qed.

Lemma deep_research_unfold (fromisoformat : string -> option DateTime.datetime)
    (key query : string) (sources : option (list string)) (max_age_days : Z)
    (w : Research.world) :
  let sources' := default ["tavily"] sources in
  let found := Research.search fromisoformat key query max_age_days 10 "advanced" w in
  let all_results :=
    if bool_decide ("tavily" ∈ sources')
    then (if Research.success found.1 then Research.results_of found.1 else [])
    else [] in
  let w1 := if bool_decide ("tavily" ∈ sources') then found.2 else w in
  Research.deep_research fromisoformat key query sources max_age_days w
  = (Research.DeepSuccess query
       (take 15 (Research.unique_loop ∅ [] all_results))
       (length (Research.unique_loop ∅ [] all_results))
       sources'
       (DateTime.isoformat (DateTime.of_epoch_us (Research.clock w1 (Research.readings w1)))),
     Research.World (Research.clock w1) (S (Research.readings w1))
       (Research.endpoint w1) (Research.sent w1)).
Proof.
  cbv zeta. unfold Research.deep_research, Research.bind, Research.ret, Research.datetime_now.
  case_bool_decide; [|reflexivity].
  destruct (Research.search _ _ _ _ _ _ _) as [r w1]. reflexivity.
Qed.

(** With a credential, a search sends its one request, whatever comes
    back. *)
Lemma search_sends (fromisoformat : string -> option DateTime.datetime)
    (key query : string) (max_age_days num_results : Z) (search_depth : string)
    (w : Research.world) :
  key <> EmptyString ->
  Research.sent (Research.search fromisoformat key query max_age_days num_results search_depth w).2
  = (Research.sent w ++ [search_request key query max_age_days num_results search_depth])%list.
Proof.
  intros Hk. apply String.eqb_neq in Hk.
  unfold Research.search, Research.bind, Research.post, Research.ret, Research.datetime_now.
  rewrite Hk. cbn [Research.endpoint Research.sent Research.clock Research.readings].
  destruct (Research.endpoint w _) as [status text [err|data] ms|err]; [| |reflexivity].
  - destruct (status =? 200)%Z; reflexivity.
  - destruct (status =? 200)%Z; [|reflexivity]. cbn.
    destruct (DateTime.sub_days _ _); reflexivity.
Qed.

(** C9. With the source [tavily] asked for (the default), [deep_research]
    searches with [num_results] 10, and of the results found keeps, in their
    order, the first one of every URL: no two results kept have the same
    URL, every kept result is the first with its URL among those found, and
    every URL found is kept once.  At most 15 of them are returned. *)
Theorem deep_research_unique (fromisoformat : string -> option DateTime.datetime)
    (key query : string) (sources : option (list string)) (max_age_days : Z)
    (w : Research.world) :
  "tavily" ∈ default ["tavily"] sources ->
  let found := Research.search fromisoformat key query max_age_days 10 "advanced" w in
  let all_results := if Research.success found.1 then Research.results_of found.1 else [] in
  let out := Research.deep_research fromisoformat key query sources max_age_days w in
  (key <> EmptyString ->
   Research.sent out.2
   = (Research.sent w ++ [search_request key query max_age_days 10 "advanced"])%list) /\
  exists unique_results timestamp,
    out.1 = Research.DeepSuccess query (take 15 unique_results) (length unique_results)
              (default ["tavily"] sources) timestamp /\
    length (take 15 unique_results) <= 15 /\
    sublist unique_results all_results /\
    NoDup (Research.url <$> unique_results) /\
    (forall r, r ∈ unique_results ->
       Research.truthy (Research.url r) = true /\
       exists pre post, all_results = (pre ++ r :: post)%list /\
         forall x, x ∈ pre -> Research.url x <> Research.url r) /\
    (forall r, r ∈ all_results -> Research.truthy (Research.url r) = true ->
       exists r', r' ∈ unique_results /\ Research.url r' = Research.url r).
Proof.
  intros Hs found all_results out. subst out.
  rewrite deep_research_unfold. rewrite bool_decide_eq_true_2 by exact Hs.
  fold found. fold all_results. cbn [fst snd Research.sent].
  split; [intros Hk; now apply search_sends|].
  exists (Research.unique_loop ∅ [] all_results), (DateTime.isoformat
    (DateTime.of_epoch_us (Research.clock found.2 (Research.readings found.2)))).
  rewrite unique_loop_firsts, app_nil_l.
  split; [reflexivity|]. split; [rewrite length_take; lia|].
  split; [apply firsts_sublist|]. split; [apply firsts_NoDup|]. split.
  - intros r Hr. split; [now apply (firsts_fresh ∅ all_results) | now apply (firsts_first ∅)].
  - intros r Hr Ht. apply firsts_covers; [exact Hr | exact Ht | set_solver].
Qed.

(** C10. [deep_research] returns a success whatever the search returns;
    where the search fails, the failure is dropped and the success holds no
    result. *)
Theorem deep_research_always_succeeds (fromisoformat : string -> option DateTime.datetime)
    (key query : string) (sources : option (list string)) (max_age_days : Z)
    (w : Research.world) :
  let out := Research.deep_research fromisoformat key query sources max_age_days w in
  Research.success out.1 = true /\
  exists results total_unique timestamp,
    out.1 = Research.DeepSuccess query results total_unique (default ["tavily"] sources) timestamp /\
    (Research.success
       (Research.search fromisoformat key query max_age_days 10 "advanced" w).1 = false ->
     results = [] /\ total_unique = 0).
Proof.
  cbv zeta. rewrite deep_research_unfold. cbn [fst]. split; [reflexivity|].
  eexists _, _, _. split; [reflexivity|].
  intros Hf. rewrite Hf. destruct (bool_decide _); auto.
Qed.

Lemma deep_research_unique_witness :
  "tavily" ∈ default ["tavily"] None /\
  Research.sent (Research.deep_research DateTime.fromisoformat_basic "key" "q" None 120
                   (world_at repeating)).2
  = [search_request "key" "q" 120 10 "advanced"].
Proof.
  split; [apply list_elem_of_here|].
  refine (proj1 (deep_research_unique DateTime.fromisoformat_basic "key" "q" None 120
                   (world_at repeating) _) _); [apply list_elem_of_here | discriminate].
Defined.

Example deep_research_repeating :
  (Research.deep_research DateTime.fromisoformat_basic "key" "q" None 120 (world_at repeating)).1
  = Research.DeepSuccess "q"
      [page (Some "https://a.example") "first a"; page (Some "https://b.example") "b"]
      2 ["tavily"] "2026-11-03T10:00:01".
Proof. vm_compute. reflexivity. Qed.

Example deep_research_over_failure :
  (Research.search DateTime.fromisoformat_basic "key" "q" 120 10 "advanced" (world_at down)).1
  = Research.Failure "API error: 500" "Internal Server Error" /\
  (Research.deep_research DateTime.fromisoformat_basic "key" "q" None 120 (world_at down)).1
  = Research.DeepSuccess "q" [] 0 ["tavily"] "2026-11-03T10:00:00".
Proof. vm_compute. split; reflexivity. Qed.

Example parse_across_lines :
  Parser.parse_tool_call_from_text
    (String.concat (String (ascii_of_nat 10) EmptyString)
       ["[TOOL:write_file]notes.txt|line one"; "line two[/TOOL] then [TOOL:read_file] notes.txt [/TOOL]"])
  = [Parser.ToolCall "write_file"
       {[ "content" := String.concat (String (ascii_of_nat 10) EmptyString) ["line one"; "line two"];
          "path" := "notes.txt" ]};
     Parser.ToolCall "read_file" {[ "path" := "notes.txt" ]}].
Proof. vm_compute. reflexivity. Qed.

Example parse_without_marker :
  Parser.parse_tool_call_from_text "no call here: [TOOL:x never closed, [TOOL:]y[/TOOL]" = [].
Proof. vm_compute. reflexivity. Qed.

(** * More of the code *)

#[local] Set Warnings "-clear-no-such-hyp".

(** ** The parser *)

Lemma contains_lstrip (c : ascii) (s : string) :
  PyStr.contains c s = false -> PyStr.contains c (PyStr.lstrip s) = false.
Proof.
  induction s as [|x s IH]; simpl; [reflexivity|].
  destruct (Ascii.eqb x c) eqn:E; [discriminate|]. intros H.
  destruct (PyStr.isspace x); [now apply IH | simpl; now rewrite E].
Qed.

Lemma contains_rstrip (c : ascii) (s : string) :
  PyStr.contains c s = false -> PyStr.contains c (PyStr.rstrip s) = false.
Proof.
  induction s as [|x s IH]; simpl; [reflexivity|].
  destruct (Ascii.eqb x c) eqn:E; [discriminate|]. intros H. specialize (IH H).
  destruct (PyStr.rstrip s) as [|y r].
  - destruct (PyStr.isspace x); simpl; [reflexivity | now rewrite E].
  - change (PyStr.contains c (String x (String y r))) with
      (if Ascii.eqb x c then true else PyStr.contains c (String y r)).
    now rewrite E.
Qed.

Lemma contains_strip (c : ascii) (s : string) :
  PyStr.contains c s = false -> PyStr.contains c (PyStr.strip s) = false.
Proof. intros H. unfold PyStr.strip. now apply contains_rstrip, contains_lstrip. Qed.

Lemma contains_app_false (c : ascii) (a b : string) :
  PyStr.contains c (a ++ b) = false ->
  PyStr.contains c a = false /\ PyStr.contains c b = false.
Proof. rewrite contains_app. apply orb_false_elim. Qed.

Lemma split_keeps_equals (s : string) :
  PyStr.contains "=" s = true ->
  Exists (fun p => PyStr.contains "=" p = true) (PyStr.split "|" s).
Proof.
  induction s as [|c s IH]; simpl; [discriminate|].
  destruct (Ascii.eqb_spec c "|") as [->|Hbar].
  - simpl. intros H. apply Exists_cons_tl. now apply IH.
  - pose proof (split_nonempty "|" s) as Hne.
    destruct (PyStr.split "|" s) as [|h t]; [congruence|].
    destruct (Ascii.eqb c "=") eqn:E.
    + intros _. apply Exists_cons_hd. simpl. now rewrite E.
    + intros H. specialize (IH H). apply Exists_cons in IH as [Hh | Ht].
      * apply Exists_cons_hd. simpl. now rewrite E.
      * now apply Exists_cons_tl.
Qed.

Lemma parse_pair_nonempty (kw : gmap string string) (pair : string) :
  kw <> ∅ \/ PyStr.contains "=" pair = true -> Parser.parse_pair kw pair <> ∅.
Proof.
  intros H. destruct (parse_pair_KeyValue kw pair) as [key value kw Hk | piece kw Hp].
  - apply insert_non_empty.
  - destruct H as [H | H]; [exact H | congruence].
Qed.

Lemma foldl_parse_pair_nonempty (pieces : list string) (kw : gmap string string) :
  kw <> ∅ \/ Exists (fun p => PyStr.contains "=" p = true) pieces ->
  foldl Parser.parse_pair kw pieces <> ∅.
Proof.
  revert kw. induction pieces as [|p ps IH]; intros kw H; simpl.
  - destruct H as [H | H]; [exact H | inversion H].
  - apply IH. destruct H as [H | H].
    + left. apply parse_pair_nonempty. now left.
    + apply Exists_cons in H as [H | H]; [left | now right].
      apply parse_pair_nonempty. now right.
Qed.

Lemma parse_kwargs_nonempty (tool_name args_text : string) :
  Parser.parse_kwargs tool_name args_text <> ∅.
Proof.
  unfold Parser.parse_kwargs.
  destruct (PyStr.contains "=" args_text) eqn:E.
  - apply foldl_parse_pair_nonempty. right. now apply split_keeps_equals.
  - repeat (match goal with |- context [if ?b then _ else _] => destruct b end);
      apply insert_non_empty.
Qed.

(** Every call the parser returns has at least one argument, also where
    the segment between the tags is empty. *)
Theorem parsed_arguments_never_empty (text : string) :
  Forall (fun call => Parser.args call <> ∅) (Parser.parse_tool_call_from_text text).
Proof.
  unfold Parser.parse_tool_call_from_text. apply Forall_fmap, Forall_true.
  intros m. apply parse_kwargs_nonempty.
Qed.

Lemma parse_pair_no_bar (kw : gmap string string) (pair : string) :
  map_Forall (fun _ v => PyStr.contains "|" v = false) kw ->
  PyStr.contains "|" pair = false ->
  map_Forall (fun _ v => PyStr.contains "|" v = false) (Parser.parse_pair kw pair).
Proof.
  intros Hkw Hp. destruct (parse_pair_KeyValue kw pair) as [key value kw Hk | piece kw _].
  - apply map_Forall_insert_2; [|exact Hkw].
    apply contains_strip. apply contains_app_false in Hp as [_ Hp].
    now apply (contains_app_false "|" "=" value) in Hp as [_ Hp].
  - exact Hkw.
Qed.

(** No value the parser returns holds both an [=] and a [|]: a segment
    with an [=] is cut at every [|], and a segment read by position has no
    [=]. *)
Theorem parsed_values_separators (tool_name args_text : string) :
  map_Forall (fun _ v => PyStr.contains "=" v = false \/ PyStr.contains "|" v = false)
    (Parser.parse_kwargs tool_name args_text).
Proof.
  unfold Parser.parse_kwargs.
  destruct (PyStr.contains "=" args_text) eqn:E.
  - eapply map_Forall_impl; [|intros k v H; right; exact H].
    destruct (split_spec "|" args_text) as [_ Hf]. revert Hf.
    generalize (PyStr.split "|" args_text). intros pieces.
    assert (map_Forall (fun (_ : string) v => PyStr.contains "|" v = false)
              (∅ : gmap string string)) as H0 by apply map_Forall_empty.
    revert H0. generalize (∅ : gmap string string).
    induction pieces as [|p ps IH]; intros kw Hkw Hf; simpl; [exact Hkw|].
    apply Forall_cons in Hf as [Hp Hps]. apply IH; [|exact Hps].
    now apply parse_pair_no_bar.
  - eapply map_Forall_impl; [|intros k v H; left; exact H].
    assert (PyStr.contains "=" (PyStr.strip args_text) = false) as Hs by now apply contains_strip.
    destruct (String.eqb tool_name "read_file");
      [apply map_Forall_insert_2; [exact Hs | apply map_Forall_empty]|].
    destruct (String.eqb tool_name "write_file").
    + destruct (split1_spec "|" args_text) as [[_ ->] | (a & b & -> & _ & _ & ->)]; simpl.
      * apply map_Forall_insert_2; [reflexivity|].
        apply map_Forall_insert_2; [exact Hs | apply map_Forall_empty].
      * apply contains_app_false in E as [Ha Hb].
        apply (contains_app_false "=" "|" b) in Hb as [_ Hb].
        apply map_Forall_insert_2; [now apply contains_strip|].
        apply map_Forall_insert_2; [now apply contains_strip | apply map_Forall_empty].
    + repeat (match goal with |- context [if ?b then _ else _] => destruct b end);
        (apply map_Forall_insert_2; [exact Hs | apply map_Forall_empty]).
Qed.

Lemma Scan_names (s : string) (l : list (string * string)) :
  Scan s l -> Forall (fun na => word_token na.1) l /\ 15 * length l <= String.length s.
Proof.
  induction 1 as [|c s l _ _ [IH1 IH2]|s name args rest l (-> & Hw & _) _ [IH1 IH2]].
  - split; [constructor | simpl; lia].
  - split; [exact IH1 | simpl; lia].
  - split; [now constructor|].
    unfold marker. rewrite !slength_app. destruct Hw as [Hne _].
    destruct name as [|x name]; [congruence|]. simpl. lia.
Qed.

(** In an ASCII text, the names the parser returns are non-empty runs of
    word characters, and a text of [n] characters holds at most [n / 15]
    calls. *)
Theorem parsed_names_and_count (text : string) :
  PyStr.isascii text = true ->
  Forall (fun call => word_token (Parser.tool call)) (Parser.parse_tool_call_from_text text) /\
  15 * length (Parser.parse_tool_call_from_text text) <= String.length text.
Proof.
  intros _.
  rewrite parse_found. destruct (Scan_names _ _ (found_Scan text)) as [H1 H2].
  rewrite length_map. split; [|exact H2].
  apply Forall_fmap. eapply Forall_impl; [exact H1|]. intros [name args] H. exact H.
Qed.

Lemma parsed_names_and_count_witness :
  PyStr.isascii "[TOOL:a]1[/TOOL][TOOL:b_2][/TOOL]" = true /\
  15 * length (Parser.parse_tool_call_from_text "[TOOL:a]1[/TOOL][TOOL:b_2][/TOOL]")
  <= String.length "[TOOL:a]1[/TOOL][TOOL:b_2][/TOOL]".
Proof.
  split; [reflexivity|].
  exact (proj2 (parsed_names_and_count "[TOOL:a]1[/TOOL][TOOL:b_2][/TOOL]" eq_refl)).
Defined.

(** ** The registry *)

(** What is registered is found under its name, a later registration of
    the name replaces the earlier one, and the other names are untouched. *)
Theorem register_then_get {World : Type} (tools : gmap string (@Registry.tool_descriptor World))
    (name description description' other : string) (function function' : Registry.handler) :
  Registry.get_tool (Registry.register_tool name description function tools) name
  = Some (Registry.Tool name description function) /\
  (other <> name ->
   Registry.get_tool (Registry.register_tool name description function tools) other
   = Registry.get_tool tools other) /\
  Registry.register_tool name description' function'
    (Registry.register_tool name description function tools)
  = Registry.register_tool name description' function' tools.
Proof.
  unfold Registry.get_tool, Registry.register_tool. split; [apply lookup_insert_eq|]. split.
  - intros H. now apply lookup_insert_ne.
  - apply insert_insert_eq.
Qed.

Lemma register_all_spec {World : Type} (methods : string -> @Registry.handler World)
    (table : list (string * string)) (tools : gmap string Registry.tool_descriptor) :
  well_named methods tools ->
  well_named methods (Registry.register_all methods table tools) /\
  dom (Registry.register_all methods table tools) = dom tools ∪ list_to_set table.*1.
Proof.
  unfold Registry.register_all. revert tools.
  induction table as [|[n d] table IH]; intros tools H; simpl.
  - split; [exact H | set_solver].
  - destruct (IH (Registry.register_tool n d (methods n) tools)) as [H1 H2].
    { unfold Registry.register_tool. apply map_Forall_insert_2; [split; reflexivity | exact H]. }
    split; [exact H1|]. rewrite H2. unfold Registry.register_tool.
    rewrite dom_insert_L. set_solver.
Qed.

(** The registry as constructed holds the nine built-in tools, and the
    five research tools where the research module was imported, and nothing
    else; each is stored under its own name with the method of that name. *)
Theorem init_registers {World : Type} (methods : string -> @Registry.handler World)
    (has_research_tools : bool) :
  dom (Registry.init methods has_research_tools)
  = list_to_set (Registry.default_tools.*1)
    ∪ (if has_research_tools then list_to_set (Registry.research_tools.*1) else ∅) /\
  size (Registry.init methods has_research_tools) = (if has_research_tools then 14 else 9) /\
  well_named methods (Registry.init methods has_research_tools).
Proof.
  unfold Registry.init.
  destruct (register_all_spec methods Registry.default_tools ∅) as [H1 H2];
    [apply map_Forall_empty|].
  destruct has_research_tools.
  - destruct (register_all_spec methods Registry.research_tools _ H1) as [H3 H4].
    split; [rewrite H4, H2; set_solver|]. split; [|exact H3].
    rewrite <- size_dom, H4, H2. vm_compute. reflexivity.
  - split; [rewrite H2; set_solver|]. split; [|exact H1].
    rewrite <- size_dom, H2. vm_compute. reflexivity.
Qed.

(** ** Parsed calls given to the registry *)

Lemma bind_nothing (method : string) (kwargs : gmap string string) :
  kwargs <> ∅ ->
  exists key, is_Some (kwargs !! key) /\
    Call.bind method [] [] kwargs = Py.Raise (Call.unexpected method key).
Proof.
  intros H. unfold Call.bind.
  destruct (map_to_list kwargs) as [|[k v] l] eqn:E.
  - apply map_to_list_empty_iff in E. congruence.
  - exists k. split.
    + exists v. apply elem_of_map_to_list. rewrite E. apply list_elem_of_here.
    + reflexivity.
Qed.

(** A tool whose method takes no parameter never runs on a parsed call:
    the parser always passes an argument, which the method refuses, and the
    registry answers with the message of that error (or the call of
    [execute_tool] itself refuses a keyword [self] or [name]). *)
Theorem parsed_call_of_tool_without_parameters {World : Type}
    (tools : gmap string Registry.tool_descriptor) (name description method : string)
    (body : World -> Py.result string * World) (tool_name args_text : string) (w : World) :
  tools !! name = Some (Registry.Tool name description (Handlers.without_parameters method body)) ->
  (exists key, Registry.execute_tool tools name (Parser.parse_kwargs tool_name args_text) w
               = (Py.Return (tool_error name (Call.unexpected method key)), w)) \/
  (exists parameter, Registry.execute_tool tools name (Parser.parse_kwargs tool_name args_text) w
                     = (Py.Raise (Registry.multiple_values parameter), w)).
Proof.
  intros Ht. set (kwargs := Parser.parse_kwargs tool_name args_text).
  unfold Registry.execute_tool.
  destruct (List.find _ Registry.bound_parameters) as [p|]; [right; eauto|]. left.
  destruct (bind_nothing method kwargs (parse_kwargs_nonempty _ _)) as (key & _ & Hb).
  exists key. unfold Registry.execute_tool_body, Registry.get_tool. rewrite Ht.
  cbn [Registry.function]. unfold Handlers.without_parameters. rewrite Hb. reflexivity.
Qed.

Lemma parsed_call_of_tool_without_parameters_witness :
  Registry.register_tool "system_info" "Zwraca informacje systemowe" system_info_tool ∅
    !! "system_info"
  = Some (Registry.Tool "system_info" "Zwraca informacje systemowe" system_info_tool) /\
  ((exists key,
      Registry.execute_tool
        (Registry.register_tool "system_info" "Zwraca informacje systemowe" system_info_tool ∅)
        "system_info" (Parser.parse_kwargs "system_info" EmptyString) tt
      = (Py.Return (tool_error "system_info" (Call.unexpected "_system_info" key)), tt)) \/
   (exists parameter,
      Registry.execute_tool
        (Registry.register_tool "system_info" "Zwraca informacje systemowe" system_info_tool ∅)
        "system_info" (Parser.parse_kwargs "system_info" EmptyString) tt
      = (Py.Raise (Registry.multiple_values parameter), tt))).
Proof.
  split; [reflexivity|].
  apply (parsed_call_of_tool_without_parameters
           (Registry.register_tool "system_info" "Zwraca informacje systemowe" system_info_tool ∅)
           "system_info" "Zwraca informacje systemowe" "_system_info" system_info_body).
  reflexivity.
Defined.

Example system_info_from_text :
  map (fun call => (Registry.execute_tool
                      (Registry.register_tool "system_info" "Zwraca informacje systemowe"
                         system_info_tool ∅)
                      (Parser.tool call) (Parser.args call) tt).1)
      (Parser.parse_tool_call_from_text "[TOOL:system_info][/TOOL]")
  = [Py.Return "❌ Błąd wykonania narzędzia 'system_info': MCPToolRegistry._system_info() got an unexpected keyword argument 'query'"].
Proof. vm_compute. reflexivity. Qed.

Lemma bind_query_refused (method : string) (required optional : list string) (value : string) :
  "query" ∉ (required ++ optional)%list ->
  Call.bind method required optional {[ "query" := value ]}
  = Py.Raise (Call.unexpected method "query").
Proof.
  intros H. unfold Call.bind. rewrite map_to_list_singleton. simpl.
  now rewrite bool_decide_eq_false_2 by exact H.
Qed.

Lemma positional_query (tool_name args_text : string) :
  PyStr.contains "=" args_text = false -> other_tool tool_name ->
  Parser.parse_kwargs tool_name args_text = {[ "query" := PyStr.strip args_text ]}.
Proof.
  intros E (H1 & H2 & H3). unfold Parser.parse_kwargs. rewrite E.
  apply String.eqb_neq in H1, H2, H3. rewrite H1, H2.
  destruct (existsb _ _); [rewrite H3|]; reflexivity.
Qed.

(** A call read by position reaches a tool only if its method has a
    parameter [query] (or the tool is [read_file], [write_file] or
    [tavily_scrape]): otherwise the method refuses the keyword, the body does
    not run and the registry answers with the message of the [TypeError]. *)
Theorem positional_call_refused {World : Type} (tools : gmap string Registry.tool_descriptor)
    (name description method : string) (required optional : list string)
    (body : gmap string string -> World -> Py.result string * World)
    (args_text : string) (w : World) :
  tools !! name
  = Some (Registry.Tool name description (Handlers.guarded method required optional body)) ->
  PyStr.contains "=" args_text = false ->
  other_tool name ->
  "query" ∉ (required ++ optional)%list ->
  Registry.execute_tool tools name (Parser.parse_kwargs name args_text) w
  = (Py.Return (tool_error name (Call.unexpected method "query")), w).
Proof.
  intros Ht E Ho Hq. rewrite (positional_query _ _ E Ho).
  rewrite execute_tool_binds by reflexivity.
  unfold Registry.execute_tool_body, Registry.get_tool. rewrite Ht.
  cbn [Registry.function]. unfold Handlers.guarded.
  now rewrite (bind_query_refused _ _ _ _ Hq).
Qed.

Lemma calculator_tool_guarded (py_eval : Calculator.eval_call -> Py.result string) :
  Handlers.calculator_tool py_eval
  = Handlers.guarded "_calculator" ["expression"] [] (calculator_body py_eval).
Proof. reflexivity. Qed.

Lemma init_calculator {World : Type} (methods : string -> @Registry.handler World) (b : bool) :
  Registry.init methods b !! "calculator"
  = Some (Registry.Tool "calculator" "Wykonuje obliczenia matematyczne. Args: expression (str)"
            (methods "calculator")).
Proof. destruct b; reflexivity. Qed.

Lemma positional_call_refused_witness :
  Registry.execute_tool (Registry.init calculator_methods true) "calculator"
    (Parser.parse_kwargs "calculator" "2+2") []
  = (Py.Return "❌ Błąd wykonania narzędzia 'calculator': MCPToolRegistry._calculator() got an unexpected keyword argument 'query'", []).
Proof.
  refine (positional_call_refused (Registry.init calculator_methods true) "calculator"
            "Wykonuje obliczenia matematyczne. Args: expression (str)"
            "_calculator" ["expression"] [] (calculator_body reference_eval) "2+2" [] _ _ _ _).
  - reflexivity.
  - reflexivity.
  - repeat split; discriminate.
  - intros H. apply list_elem_of_singleton in H. discriminate.
Defined.

(** The built-in tools a call read by position cannot reach. *)
Example tools_out_of_positional_reach :
  (List.filter (fun s => negb (forallb (fun k => bool_decide (k ∈ (s.2.1.2 ++ s.2.2)%list))
                                 (positional_keys s.1))
                         || negb (forallb (fun p => bool_decide (p ∈ positional_keys s.1)) s.2.1.2))
     Handlers.signatures).*1
  = ["list_directory"; "calculator"; "execute_python"; "system_info"; "get_datetime";
     "count_words"; "research_status"].
Proof. vm_compute. reflexivity. Qed.

Lemma split_no_separator (sep : ascii) (s : string) :
  PyStr.contains sep s = false -> PyStr.split sep s = [s].
Proof.
  induction s as [|c s IH]; simpl; [reflexivity|].
  destruct (Ascii.eqb c sep); [discriminate|]. intros H. now rewrite (IH H).
Qed.

Lemma bind_expression (value : string) :
  Call.bind "_calculator" ["expression"] [] {[ "expression" := value ]}
  = Py.Return {[ "expression" := value ]}.
Proof. unfold Call.bind. rewrite map_to_list_singleton. reflexivity. Qed.

(** The calculator never raises an instance of [Exception]. *)
Lemma calculator_raises (py_eval : Calculator.eval_call -> Py.result string)
    (expression : string) (e : Py.exc) :
  (Calculator._calculator py_eval expression).1 = Py.Raise e -> Py.exc_is_Exception e = false.
Proof.
  unfold Calculator._calculator. destruct (negb _); [discriminate|]. cbn [fst].
  unfold Py.except_Exception. destruct (py_eval _) as [v|e']; [discriminate|].
  destruct (Py.exc_is_Exception e') eqn:E; [discriminate|]. now intros [= <-].
Qed.

(** ** Substrings *)

Lemma occurs_unfold (p s : string) :
  Text.occurs p s =
  match PyStr.strip_prefix p s with
  | Some _ => true
  | None => match s with
            | EmptyString => false
            | String _ s' => Text.occurs p s'
            end
  end.
Proof. destruct s; reflexivity. Qed.

(** [p in s] holds exactly where [s] is some text, [p], and some text. *)
Lemma occurs_spec (p s : string) :
  Text.occurs p s = true <-> exists pre post, s = pre ++ p ++ post.
Proof.
  induction s as [|c s IH]; rewrite occurs_unfold.
  - destruct (PyStr.strip_prefix p EmptyString) as [r|] eqn:E.
    + apply strip_prefix_Some in E. split; [|reflexivity]. intros _. now exists EmptyString, r.
    + split; [discriminate|]. intros ([|x pre] & post & H); [|discriminate].
      simpl in H. apply strip_prefix_Some in H. congruence.
  - destruct (PyStr.strip_prefix p (String c s)) as [r|] eqn:E.
    + apply strip_prefix_Some in E. split; [|reflexivity]. intros _. now exists EmptyString, r.
    + rewrite IH. split.
      * intros (pre & post & ->). now exists (String c pre), post.
      * intros ([|x pre] & post & H).
        -- simpl in H. apply strip_prefix_Some in H. congruence.
        -- simpl in H. injection H as -> ->. eauto.
Qed.

(** Where two texts with the same tail are equal and the first head is
    the longer one, it goes on into the second tail. *)
Lemma app_longer_head (a b c d : string) :
  a ++ b = c ++ d -> String.length c < String.length a ->
  exists x, a = c ++ x /\ x <> EmptyString /\ x ++ b = d.
Proof.
  revert a. induction c as [|y c IH]; intros a H Hlt.
  - exists a. destruct a as [|z a]; [simpl in Hlt; lia|].
    split; [reflexivity|]. split; [discriminate | exact H].
  - destruct a as [|z a]; [simpl in Hlt; lia|]. simpl in H. injection H as -> H.
    destruct (IH a H) as (x & -> & H3 & H4); [simpl in Hlt; lia|].
    exists x. auto.
Qed.

(** Arguments in which no closing tag occurs are as short as can be. *)
Lemma shortest_without_close (args rest : string) :
  Text.occurs "[/TOOL]" args = false -> shortest_args args rest.
Proof.
  intros Ho a' r' Heq.
  destruct (le_lt_dec (String.length args) (String.length a')) as [|Hlt]; [assumption|].
  exfalso. destruct (app_longer_head _ _ _ _ Heq Hlt) as (x & Ha & Hx & Hd).
  assert (exists post, x = "[/TOOL]" ++ post) as [post ->].
  { clear - Hx Hd.
    destruct x as [|c1 x]; [congruence|]. simpl in Hd. injection Hd as -> Hd.
    destruct x as [|c2 x]; [discriminate|]. simpl in Hd. injection Hd as -> Hd.
    destruct x as [|c3 x]; [discriminate|]. simpl in Hd. injection Hd as -> Hd.
    destruct x as [|c4 x]; [discriminate|]. simpl in Hd. injection Hd as -> Hd.
    destruct x as [|c5 x]; [discriminate|]. simpl in Hd. injection Hd as -> Hd.
    destruct x as [|c6 x]; [discriminate|]. simpl in Hd. injection Hd as -> Hd.
    destruct x as [|c7 x]; [discriminate|]. simpl in Hd. injection Hd as -> Hd.
    now exists x. }
  assert (Text.occurs "[/TOOL]" args = true) as Ht by (apply occurs_spec; eauto).
  congruence.
Qed.

(** A text that is one marker, with no closing tag in its arguments, is
    parsed as one call. *)
Lemma parse_one_marker (name args : string) :
  word_token name -> Text.occurs "[/TOOL]" args = false ->
  Parser.parse_tool_call_from_text (marker name args)
  = [Parser.ToolCall name (Parser.parse_kwargs name args)].
Proof.
  intros Hw Ho. rewrite parse_found.
  assert (found (marker name args) = [(name, args)]) as ->; [|reflexivity].
  rewrite <- (sapp_nil_r (marker name args)).
  rewrite (found_hit _ name args EmptyString); [reflexivity|].
  split; [reflexivity|]. split; [exact Hw|]. now apply shortest_without_close.
Qed.

(** Written as [[TOOL:calculator]expression=...[/TOOL]], with an ASCII
    expression in which there is no [|] and no closing tag, a call reaches
    the calculator: the parser gives one call with the trimmed expression,
    and for it the registry returns what [_calculator] returns on the trimmed
    expression. *)
Theorem keyword_calculator_call (methods : string -> @Registry.handler (list Calculator.eval_call))
    (has_research_tools : bool) (py_eval : Calculator.eval_call -> Py.result string)
    (expression : string) (w : list Calculator.eval_call) :
  methods "calculator" = Handlers.calculator_tool py_eval ->
  PyStr.isascii expression = true ->
  PyStr.contains "|" expression = false ->
  Text.occurs "[/TOOL]" expression = false ->
  Parser.parse_tool_call_from_text ("[TOOL:calculator]expression=" ++ expression ++ "[/TOOL]")
  = [Parser.ToolCall "calculator" {[ "expression" := PyStr.strip expression ]}] /\
  Registry.execute_tool (Registry.init methods has_research_tools) "calculator"
    {[ "expression" := PyStr.strip expression ]} w
  = ((Calculator._calculator py_eval (PyStr.strip expression)).1,
     (w ++ (Calculator._calculator py_eval (PyStr.strip expression)).2)%list).
Proof.
  intros Hm _ Hb Hc.
  assert (Parser.parse_kwargs "calculator" ("expression=" ++ expression)
          = {[ "expression" := PyStr.strip expression ]}) as Hkw.
  { unfold Parser.parse_kwargs.
    assert (PyStr.contains "=" ("expression=" ++ expression) = true) as -> by reflexivity.
    rewrite split_no_separator by (rewrite contains_app, Hb; reflexivity).
    cbn [foldl]. unfold Parser.parse_pair.
    assert (PyStr.contains "=" ("expression=" ++ expression) = true) as -> by reflexivity.
    reflexivity. }
  split.
  { change ("[TOOL:calculator]expression=" ++ expression ++ "[/TOOL]")
      with (marker "calculator" ("expression=" ++ expression)).
    rewrite parse_one_marker, Hkw; [reflexivity | split; [discriminate | reflexivity] |].
    destruct (Text.occurs "[/TOOL]" ("expression=" ++ expression)) eqn:E; [|reflexivity].
    apply occurs_spec in E as (pre & post & E).
    assert (exists pre', pre = "expression=" ++ pre') as [pre' ->].
    { clear - E.
      do 11 (destruct pre as [|? pre]; [discriminate|]; simpl in E; injection E as <- E).
      now exists pre. }
    rewrite sapp_assoc in E. apply (inj (String.append "expression=")) in E.
    assert (Text.occurs "[/TOOL]" expression = true) by (apply occurs_spec; eauto).
    congruence. }
  rewrite execute_tool_binds by reflexivity.
  unfold Registry.execute_tool_body, Registry.get_tool. rewrite init_calculator.
  cbn [Registry.function]. rewrite Hm. unfold Handlers.calculator_tool.
  rewrite bind_expression. rewrite lookup_singleton_eq. cbn [from_option id].
  destruct (Calculator._calculator py_eval (PyStr.strip expression)) as [[s|e] calls] eqn:E;
    [reflexivity|].
  cbn [fst snd]. unfold Py.except_Exception.
  now rewrite (calculator_raises py_eval (PyStr.strip expression) e) by now rewrite E.
Qed.

Lemma calculator_methods_calculator :
  calculator_methods "calculator" = Handlers.calculator_tool reference_eval.
Proof. reflexivity. Qed.

Lemma keyword_calculator_call_witness :
  Parser.parse_tool_call_from_text "[TOOL:calculator]expression= 2^3 [/TOOL]"
  = [Parser.ToolCall "calculator" {[ "expression" := "2^3" ]}] /\
  Registry.execute_tool (Registry.init calculator_methods true) "calculator"
    {[ "expression" := "2^3" ]} []
  = (Py.Return "🔢 2**3 = 8", [Calculator.EvalCall "2**3" [] Calculator.math_names]).
Proof.
  destruct (keyword_calculator_call calculator_methods true reference_eval " 2^3 " []
              calculator_methods_calculator eq_refl eq_refl eq_refl) as [H1 H2].
  split; [exact H1|].
  refine (eq_trans H2 _). vm_compute. reflexivity.
Defined.

(** ** The calculator and its names *)

(** An expression in which one of the names given to [eval] occurs
    ([sin], [cos], [tan], [sqrt], [pi], [e], [log], [abs], [pow]) is
    rejected: the names start with letters, and no letter is let through. *)
Theorem whitelisted_names_rejected (py_eval : Calculator.eval_call -> Py.result string)
    (expression name : string) :
  In name Calculator.math_names ->
  Text.occurs name expression = true ->
  Calculator._calculator py_eval expression = (Py.Return Calculator.rejected, []).
Proof.
  intros Hn Ho. apply occurs_spec in Ho as (pre & post & ->).
  unfold Calculator._calculator.
  assert (PyStr.forallb Calculator.char_allowed (pre ++ name ++ post) = false) as ->;
    [|reflexivity].
  apply forallb_false_iff.
  assert (exists c rest, name = String c rest /\ Calculator.char_allowed c = false)
    as (c & rest & -> & Hc).
  { simpl in Hn.
    repeat (destruct Hn as [<- | Hn]; [eexists _, _; split; reflexivity|]).
    destruct Hn. }
  exists pre, c, (rest ++ post). split; [reflexivity | exact Hc].
Qed.

Lemma whitelisted_names_rejected_witness :
  Calculator._calculator reference_eval "sqrt(16)" = (Py.Return Calculator.rejected, []).
Proof.
  apply (whitelisted_names_rejected reference_eval "sqrt(16)" "sqrt").
  - simpl. tauto.
  - reflexivity.
Defined.

(** ** Counting words *)

Lemma split_length (sep : ascii) (s : string) :
  length (PyStr.split sep s) = S (Text.count sep s).
Proof.
  induction s as [|c s IH]; simpl; [reflexivity|].
  destruct (Ascii.eqb c sep); simpl; [now rewrite IH|].
  pose proof (split_nonempty sep s) as Hne.
  destruct (PyStr.split sep s) as [|h t]; [congruence | exact IH].
Qed.

Lemma words_unfold (c : ascii) (s : string) :
  Text.words (String c s) =
  if PyStr.isspace c then Text.words s
  else match s with
       | EmptyString => [String c EmptyString]
       | String d _ =>
           if PyStr.isspace d then String c EmptyString :: Text.words s
           else match Text.words s with
                | h :: t => String c h :: t
                | [] => [String c EmptyString]
                end
       end.
Proof. reflexivity. Qed.

Lemma words_bound (s : string) :
  (starts_word s = true -> Text.words s <> []) /\
  2 * length (Text.words s) <= String.length s + (if starts_word s then 1 else 0).
Proof.
  induction s as [|c s [IH1 IH2]]; [simpl; split; [discriminate | lia]|].
  rewrite words_unfold. cbn [starts_word String.length].
  destruct (PyStr.isspace c) eqn:Hc; cbn [negb].
  - split; [discriminate|]. destruct (starts_word s); lia.
  - destruct s as [|d s']; [simpl; split; [discriminate | lia]|].
    cbn [starts_word] in IH1, IH2.
    destruct (PyStr.isspace d) eqn:Hd; cbn [negb] in IH1, IH2.
    + split; [discriminate|]. cbn [length]. cbn [String.length] in *. lia.
    + destruct (Text.words (String d s')) as [|h t]; [now destruct IH1|].
      split; [discriminate|]. cbn [length] in *. cbn [String.length] in *. lia.
Qed.

Lemma words_none (s : string) :
  Text.words s = [] <-> PyStr.forallb PyStr.isspace s = true.
Proof.
  induction s as [|c s IH]; [simpl; tauto|].
  rewrite words_unfold. cbn [PyStr.forallb].
  destruct (PyStr.isspace c) eqn:Hc; cbn [andb]; [exact IH|].
  split; [|discriminate].
  destruct s as [|d s']; [discriminate|].
  destruct (PyStr.isspace d); [discriminate|].
  destruct (Text.words (String d s')); discriminate.
Qed.

(** The numbers [count_words] reports for an ASCII text: the characters;
    the lines, one more than the line feeds (one line for the empty text,
    and one more for a text that ends with a line feed); the words, none
    exactly where the text is white space only, and never more than half the
    characters, rounded up. *)
Theorem count_words_numbers (text : string) :
  PyStr.isascii text = true ->
  Handlers._count_words text
  = Handlers.stats (length (Text.words text)) (String.length text) (S (Text.count "010" text)) /\
  (length (Text.words text) = 0 <-> PyStr.forallb PyStr.isspace text = true) /\
  2 * length (Text.words text) <= S (String.length text).
Proof.
  intros _.
  split; [unfold Handlers._count_words; now rewrite split_length|]. split.
  - rewrite <- words_none. apply length_zero_iff_nil.
  - destruct (words_bound text) as [_ H]. destruct (starts_word text); lia.
Qed.

Lemma count_words_numbers_witness :
  PyStr.isascii ("one two" ++ Text.nl ++ " three " ++ Text.nl) = true /\
  Handlers._count_words ("one two" ++ Text.nl ++ " three " ++ Text.nl)
  = Handlers.stats (length (Text.words ("one two" ++ Text.nl ++ " three " ++ Text.nl)))
      (String.length ("one two" ++ Text.nl ++ " three " ++ Text.nl))
      (S (Text.count "010" ("one two" ++ Text.nl ++ " three " ++ Text.nl))).
Proof.
  split; [reflexivity|].
  exact (proj1 (count_words_numbers ("one two" ++ Text.nl ++ " three " ++ Text.nl) eq_refl)).
Defined.

Example count_words_of_two_lines :
  Handlers._count_words ("one two" ++ Text.nl ++ " three " ++ Text.nl)
  = Handlers.stats 3 16 3.
Proof. reflexivity. Qed.

(** ** Reading a file and running code *)

Lemma prefix_spec (n : nat) (s : string) :
  String.length (Text.prefix n s) = Nat.min n (String.length s) /\
  exists rest, s = Text.prefix n s ++ rest.
Proof.
  revert s. induction n as [|n IH]; intros s; simpl.
  - split; [reflexivity | now exists s].
  - destruct s as [|c s]; simpl; [split; [reflexivity | now exists EmptyString]|].
    destruct (IH s) as [H1 [rest H2]]. split; [now rewrite H1|].
    exists rest. now rewrite <- H2.
Qed.

Lemma prefix_all (n : nat) (s : string) : String.length s <= n -> Text.prefix n s = s.
Proof.
  revert s. induction n as [|n IH]; intros [|c s]; simpl; try reflexivity; try lia.
  intros H. rewrite IH; [reflexivity | lia].
Qed.

(** [read_file] shows an ASCII file of up to 500 characters whole, and of
    a longer one its first 500 characters followed by three dots; a file
    that is not there and any other error of the kind [Exception] come back
    as messages. *)
Theorem read_file_shows (read : string -> Handlers.read_outcome) (path : string) :
  (forall content, read path = Handlers.Read content -> PyStr.isascii content = true ->
     exists shown,
       Handlers._read_file read path
       = Py.Return ("📄 Zawartość pliku '" ++ path ++ "':" ++ Text.nl ++ shown) /\
       String.length shown <= 503 /\
       (String.length content <= 500 -> shown = content) /\
       (500 < String.length content ->
        String.length shown = 503 /\ exists rest, content = Text.prefix 500 content ++ rest /\
        shown = Text.prefix 500 content ++ "...")) /\
  (read path = Handlers.NotFound ->
   Handlers._read_file read path = Py.Return ("❌ Plik '" ++ path ++ "' nie istnieje")) /\
  (forall e, read path = Handlers.ReadError e -> Py.exc_is_Exception e = true ->
     Handlers._read_file read path = Py.Return ("❌ Błąd czytania pliku: " ++ Py.exc_str e)).
Proof.
  unfold Handlers._read_file. split; [|split].
  - intros content -> _. destruct (prefix_spec 500 content) as [Hl [rest Hr]].
    destruct (Nat.ltb_spec 500 (String.length content)) as [Hlt|Hle].
    + exists (Text.prefix 500 content ++ "..."). split; [reflexivity|].
      rewrite slength_app, Hl. change (String.length "...") with 3.
      split; [lia|]. split; [lia|].
      intros _. split; [lia|]. exists rest. split; [exact Hr | reflexivity].
    + exists content. split; [reflexivity|]. split; [lia|]. split; [reflexivity | lia].
  - intros ->. reflexivity.
  - intros e -> He. unfold Py.except_Exception. now rewrite He.
Qed.

Lemma existsb_occurs (code : string) :
  existsb (fun d => Text.occurs d code) Handlers.dangerous = true <->
  exists d pre post, In d Handlers.dangerous /\ code = pre ++ d ++ post.
Proof.
  rewrite existsb_exists. split.
  - intros (d & Hd & Ho). apply occurs_spec in Ho as (pre & post & H). eauto.
  - intros (d & pre & post & Hd & H). exists d. split; [exact Hd|].
    apply occurs_spec. eauto.
Qed.

(** [execute_python] refuses a code, and starts no process for it,
    exactly where one of [import os], [import sys], [exec], [eval] and [__]
    occurs in it. *)
Theorem execute_python_denylist (run : Handlers.run_call -> Handlers.run_outcome)
    (code : string) :
  (exists d pre post, In d Handlers.dangerous /\ code = pre ++ d ++ post) <->
  Handlers._execute_python run code = (Py.Return Handlers.unsafe_code, []).
Proof.
  rewrite <- existsb_occurs. unfold Handlers._execute_python.
  destruct (existsb _ _); split; try reflexivity; discriminate.
Qed.

(** A code that is let through runs once, as [python3 -c code] with a
    timeout of five seconds; what comes back is the standard output, or the
    standard error where the output is empty, cut to 500 characters where
    it is ASCII; a process that runs out of time gives the timeout
    message. *)
Theorem execute_python_output (run : Handlers.run_call -> Handlers.run_outcome)
    (code : string) :
  Forall (fun d => Text.occurs d code = false) Handlers.dangerous ->
  let call := Handlers.Run ["python3"; "-c"; code] 5 in
  (Handlers._execute_python run code).2 = [call] /\
  (forall stdout stderr, run call = Handlers.Completed stdout stderr ->
     PyStr.isascii (if String.eqb stdout EmptyString then stderr else stdout) = true ->
     exists shown rest,
       (Handlers._execute_python run code).1 = Py.Return ("🐍 Wynik:" ++ Text.nl ++ shown) /\
       String.length shown <= 500 /\
       (if String.eqb stdout EmptyString then stderr else stdout) = shown ++ rest /\
       (rest <> EmptyString -> String.length shown = 500)) /\
  (run call = Handlers.TimeoutExpired ->
   (Handlers._execute_python run code).1 = Py.Return "❌ Timeout - kod wykonywał się za długo").
Proof.
  intros Hsafe call. unfold Handlers._execute_python.
  assert (existsb (fun d => Text.occurs d code) Handlers.dangerous = false) as ->.
  { destruct (existsb _ _) eqn:E; [|reflexivity].
    apply existsb_exists in E as (d & Hd & Ho).
    rewrite Forall_forall in Hsafe. apply list_elem_of_In in Hd.
    rewrite (Hsafe d Hd) in Ho. discriminate. }
  fold call. cbn [fst snd]. split; [reflexivity|]. split.
  - intros stdout stderr -> _.
    set (output := if String.eqb stdout EmptyString then stderr else stdout).
    destruct (prefix_spec 500 output) as [Hl [rest Hr]].
    exists (Text.prefix 500 output), rest. split; [reflexivity|].
    split; [lia|]. split; [exact Hr|].
    intros Hne. destruct (le_lt_dec (String.length output) 500) as [Hle|Hlt]; [|lia].
    rewrite (prefix_all 500 output Hle) in Hr.
    rewrite <- (sapp_nil_r output) in Hr at 1. apply (inj (String.append output)) in Hr.
    congruence.
  - intros ->. reflexivity.
Qed.

Lemma execute_python_output_witness :
  Forall (fun d => Text.occurs d "print(1)" = false) Handlers.dangerous /\
  (Handlers._execute_python printing "print(1)").2
  = [Handlers.Run ["python3"; "-c"; "print(1)"] 5].
Proof.
  assert (Forall (fun d => Text.occurs d "print(1)" = false) Handlers.dangerous) as H
    by (repeat constructor).
  split; [exact H|].
  exact (proj1 (execute_python_output printing "print(1)" H)).
Defined.

(** ** Trimming, and the title of a page *)

Lemma rstrip_unfold (c : ascii) (s : string) :
  PyStr.rstrip (String c s) =
  match PyStr.rstrip s with
  | EmptyString => if PyStr.isspace c then EmptyString else String c EmptyString
  | r => String c r
  end.
Proof. reflexivity. Qed.

Lemma lstrip_head (s : string) :
  PyStr.lstrip s = EmptyString \/
  exists c r, PyStr.lstrip s = String c r /\ PyStr.isspace c = false.
Proof.
  induction s as [|c s IH]; simpl; [now left|].
  destruct (PyStr.isspace c) eqn:E; [exact IH | right; eauto].
Qed.

Lemma rstrip_head (c : ascii) (s : string) :
  PyStr.isspace c = false -> exists r, PyStr.rstrip (String c s) = String c r.
Proof.
  intros H. rewrite rstrip_unfold, H. destruct (PyStr.rstrip s); eauto.
Qed.

Lemma rstrip_idem (s : string) : PyStr.rstrip (PyStr.rstrip s) = PyStr.rstrip s.
Proof.
  induction s as [|c s IH]; [reflexivity|].
  rewrite rstrip_unfold. destruct (PyStr.rstrip s) as [|y r] eqn:E.
  - destruct (PyStr.isspace c) eqn:Hc; [reflexivity|]. rewrite rstrip_unfold. simpl. now rewrite Hc.
  - rewrite rstrip_unfold, IH. reflexivity.
Qed.

Lemma strip_idem (s : string) : PyStr.strip (PyStr.strip s) = PyStr.strip s.
Proof.
  unfold PyStr.strip. destruct (lstrip_head s) as [-> | (c & r & -> & Hc)]; [reflexivity|].
  destruct (rstrip_head c r Hc) as [r' Hr]. rewrite Hr. simpl PyStr.lstrip. rewrite Hc.
  rewrite <- Hr. apply rstrip_idem.
Qed.

Lemma rstrip_spaces (t : string) :
  PyStr.forallb PyStr.isspace t = true -> PyStr.rstrip t = EmptyString.
Proof.
  induction t as [|c t IH]; [reflexivity|]. simpl PyStr.forallb.
  intros H. apply andb_prop in H as [Hc Ht]. rewrite rstrip_unfold, (IH Ht), Hc. reflexivity.
Qed.

Lemma strip_empty (t : string) :
  PyStr.strip t = EmptyString -> PyStr.forallb PyStr.isspace t = true.
Proof.
  unfold PyStr.strip. intros H.
  assert (PyStr.lstrip t = EmptyString) as Hl.
  { destruct (lstrip_head t) as [Hl | (c & r & Hl & Hc)]; [exact Hl|].
    rewrite Hl in H. destruct (rstrip_head c r Hc) as [r' Hr]. congruence. }
  clear H. induction t as [|c t IH]; [reflexivity|]. simpl in *.
  destruct (PyStr.isspace c); [now apply IH | discriminate].
Qed.

Lemma first_heading_trimmed (lines : list string) (title : string) :
  Scraping.first_heading lines = Some title ->
  title <> EmptyString /\ PyStr.strip title = title.
Proof.
  induction lines as [|line rest IH]; [discriminate|]. cbn [Scraping.first_heading].
  destruct (PyStr.strip_prefix "# " (PyStr.strip line)) as [t|] eqn:E; [|exact IH].
  intros [= <-]. split; [|apply strip_idem].
  intros Ht. apply strip_empty, rstrip_spaces in Ht.
  apply strip_prefix_Some in E.
  pose proof (strip_idem line) as Hi. unfold PyStr.strip at 1 in Hi.
  assert (PyStr.rstrip (PyStr.strip line) = PyStr.strip line) as Hr
    by (unfold PyStr.strip; apply rstrip_idem).
  rewrite E in Hr. change ("# " ++ t) with (String "#" (String " " t)) in Hr.
  rewrite !rstrip_unfold, Ht in Hr. simpl in Hr. discriminate.
Qed.

Lemma split_without (c sep : ascii) (s : string) :
  PyStr.contains c s = false ->
  Forall (fun p => PyStr.contains c p = false) (PyStr.split sep s).
Proof.
  induction s as [|x s IH]; simpl; [repeat constructor|].
  destruct (Ascii.eqb x c) eqn:E; [discriminate|]. intros H. specialize (IH H).
  destruct (Ascii.eqb x sep); [constructor; [reflexivity | exact IH]|].
  destruct (PyStr.split sep s) as [|h t]; [repeat constructor; simpl; now rewrite E|].
  apply Forall_cons in IH as [Hh Ht]. constructor; [simpl; now rewrite E | exact Ht].
Qed.

Lemma first_heading_none (lines : list string) :
  Forall (fun l => PyStr.contains "#" l = false) lines -> Scraping.first_heading lines = None.
Proof.
  induction 1 as [|line rest Hl _ IH]; [reflexivity|]. cbn [Scraping.first_heading].
  destruct (PyStr.strip_prefix "# " (PyStr.strip line)) as [t|] eqn:E; [|exact IH].
  apply strip_prefix_Some in E. apply (contains_strip "#") in Hl. rewrite E in Hl. discriminate.
Qed.

(** The title of an ASCII page is never empty and never padded with
    white space: it is the text after the first line that starts with [# ],
    trimmed, and such a line holds more than the mark; a content without [#]
    has the default title, [Brak tytułu]. *)
Theorem extract_title_trimmed (content : string) :
  PyStr.isascii content = true ->
  Scraping._extract_title content <> EmptyString /\
  PyStr.strip (Scraping._extract_title content) = Scraping._extract_title content /\
  (PyStr.contains "#" content = false ->
   Scraping._extract_title content = "Brak tytułu").
Proof.
  intros _. change "Brak tytułu" with Scraping.default_title.
  unfold Scraping._extract_title. split; [|split].
  - destruct (Scraping.first_heading _) as [t|] eqn:E; [|discriminate].
    now apply first_heading_trimmed in E.
  - destruct (Scraping.first_heading _) as [t|] eqn:E; [|reflexivity].
    now apply first_heading_trimmed in E.
  - intros H. rewrite first_heading_none; [reflexivity|].
    now apply split_without, contains_strip.
Qed.

Lemma extract_title_trimmed_witness :
  PyStr.isascii ("intro" ++ Text.nl ++ "plain text") = true /\
  Scraping._extract_title ("intro" ++ Text.nl ++ "plain text") = "Brak tytułu".
Proof.
  split; [reflexivity|].
  exact (proj2 (proj2 (extract_title_trimmed ("intro" ++ Text.nl ++ "plain text") eq_refl))
           eq_refl).
Defined.

Example extract_title_of_page :
  Scraping._extract_title ("intro" ++ Text.nl ++ "#" ++ Text.nl ++ "#  " ++ Text.nl
                           ++ "  # The  title  " ++ Text.nl ++ "# second")
  = "The  title".
Proof. reflexivity. Qed.

(** ** Scraping *)

Lemma scrape_world (key : string) (url : option string) (only_main_content : bool)
    (w : Scraping.world) :
  Scraping.scrape_endpoint (Scraping.scrape key url only_main_content w).2
  = Scraping.scrape_endpoint w /\
  Scraping.scrape_sent (Scraping.scrape key url only_main_content w).2
  = (Scraping.scrape_sent w
     ++ if String.eqb key EmptyString then []
        else [scrape_request_for key url only_main_content])%list.
Proof.
  unfold Scraping.scrape, Scraping._mock_scrape, Scraping.bind, Scraping.ret, Scraping.lift,
    Scraping.post, Research.datetime_now.
  destruct (String.eqb key EmptyString).
  - cbn. now rewrite app_nil_r.
  - cbn. change (Scraping.ScrapeRequest _ _ url only_main_content "markdown" 30)
      with (scrape_request_for key url only_main_content).
    destruct (Scraping.scrape_endpoint w _) as [status [err|[[| |c] [| |m]]]|err]; cbn; auto;
      destruct (status =? 200)%Z; cbn; auto.
Qed.

(** With a credential, [scrape] sends one request.  On a reply with status
    200 and a decoded body: a content that is a text gives a success with
    that content, and with the title read from it; with no content the
    success holds the markdown (the empty text where there is none either,
    [None] where it is [null]) and the default title, for a title is read
    from the content alone; a content that is [null] makes [scrape] fail,
    for [None] cannot be trimmed.  Every other reply is a failure.  A
    failure carries the URL, and the clock is not read for it. *)
Theorem scrape_outcomes (key : string) (url : option string) (only_main_content : bool)
    (w : Scraping.world) :
  key <> EmptyString ->
  let request := scrape_request_for key url only_main_content in
  let out := Scraping.scrape key url only_main_content w in
  Scraping.scrape_sent out.2 = (Scraping.scrape_sent w ++ [request])%list /\
  (forall data, Scraping.scrape_endpoint w request = Scraping.ScrapeReply 200 (inr data) ->
     (forall text, Scraping.data_content data = Scraping.Str text ->
        exists title timestamp,
          out.1 = Scraping.ScrapeSuccess url text title timestamp false /\
          (PyStr.isascii text = true -> title = Scraping._extract_title text)) /\
     (Scraping.data_content data = Scraping.Missing ->
        exists timestamp,
          out.1 = match Scraping.data_markdown data with
                  | Scraping.Str text =>
                      Scraping.ScrapeSuccess url text "Brak tytułu" timestamp false
                  | Scraping.Missing =>
                      Scraping.ScrapeSuccess url EmptyString "Brak tytułu" timestamp false
                  | Scraping.Null => Scraping.ScrapeSuccessNone url "Brak tytułu" timestamp
                  end) /\
     (Scraping.data_content data = Scraping.Null ->
        out.1 = Scraping.ScrapeFailure "'NoneType' object has no attribute 'strip'" url /\
        Research.readings (Scraping.base out.2) = Research.readings (Scraping.base w))) /\
  ((forall data, Scraping.scrape_endpoint w request <> Scraping.ScrapeReply 200 (inr data)) ->
     exists error, out.1 = Scraping.ScrapeFailure error url /\
                   Research.readings (Scraping.base out.2) = Research.readings (Scraping.base w)).
Proof.
  intros Hk request out.
  split.
  { subst out request. destruct (scrape_world key url only_main_content w) as [_ H].
    apply String.eqb_neq in Hk. now rewrite Hk in H. }
  apply String.eqb_neq in Hk. subst out.
  unfold Scraping.scrape, Scraping.bind, Scraping.ret, Scraping.lift, Scraping.post,
    Research.datetime_now.
  rewrite Hk. cbn.
  change (Scraping.ScrapeRequest _ _ url only_main_content "markdown" 30) with request.
  split.
  - intros [content markdown] ->. cbn. split; [|split].
    + intros text ->. cbn. eexists _, _. split; [reflexivity|]. intros _. reflexivity.
    + intros ->. destruct markdown; cbn; eexists; reflexivity.
    + intros ->. cbn. split; reflexivity.
  - intros Hno. destruct (Scraping.scrape_endpoint w request) as [status [err|data]|err]; cbn.
    + destruct (status =? 200)%Z; cbn; eauto.
    + destruct (Z.eqb_spec status 200) as [->|Hs]; cbn; [|eauto].
      now destruct (Hno data).
    + eauto.
Qed.

Lemma scrape_outcomes_witness :
  "key" <> EmptyString /\
  Scraping.scrape_sent
    (Scraping.scrape "key" (Some "https://a.example") true (scraping_world unreachable)).2
  = [scrape_request_for "key" (Some "https://a.example") true].
Proof.
  split; [discriminate|].
  exact (proj1 (scrape_outcomes "key" (Some "https://a.example") true
                  (scraping_world unreachable) ltac:(discriminate))).
Defined.

Example scrape_of_markdown_page :
  (Scraping.scrape "key" (Some "https://a.example") true (scraping_world unreachable)).1
  = Scraping.ScrapeSuccess (Some "https://a.example") ("# Heading" ++ Text.nl ++ "body")
      "Brak tytułu" "2026-11-03T10:00:00" false.
Proof. vm_compute. reflexivity. Qed.

Example scrape_of_null_content :
  (Scraping.scrape "key" (Some "https://a.example") true
     (Scraping.World (world_at unreachable) null_content [])).1
  = Scraping.ScrapeFailure "'NoneType' object has no attribute 'strip'"
      (Some "https://a.example").
Proof. vm_compute. reflexivity. Qed.

(** The content of a scrape can be cut where the reply is plain. *)
Lemma scrape_content_plain (key : string) (url : option string) (only_main_content : bool)
    (w : Scraping.world) :
  (forall request data,
     Scraping.scrape_endpoint w request = Scraping.ScrapeReply 200 (inr data) ->
     plain data = true) ->
  exists content,
    Scraping.scrape_content (Scraping.scrape key url only_main_content w).1 = Some content.
Proof.
  intros Hp.
  unfold Scraping.scrape, Scraping._mock_scrape, Scraping.bind, Scraping.ret, Scraping.lift,
    Scraping.post, Research.datetime_now.
  destruct (String.eqb key EmptyString); [cbn; eauto|]. cbn.
  destruct (Scraping.scrape_endpoint w _) as [status [err|data]|err] eqn:E; cbn.
  - destruct (status =? 200)%Z; cbn; eauto.
  - destruct (Z.eqb_spec status 200) as [->|Hs]; cbn; [|eauto].
    specialize (Hp _ _ E). destruct data as [[| |c] [| |m]]; cbn; eauto; discriminate.
  - eauto.
Qed.

Lemma scrape_pages_spec (key : string) (results : list Research.search_result)
    (w : Scraping.world) :
  (forall request data,
     Scraping.scrape_endpoint w request = Scraping.ScrapeReply 200 (inr data) ->
     plain data = true) ->
  exists pages,
    (Scraping.scrape_pages key results w).1 = Py.Return pages /\
    Forall2 page_of results pages /\
    Scraping.scrape_endpoint (Scraping.scrape_pages key results w).2
    = Scraping.scrape_endpoint w /\
    Scraping.scrape_sent (Scraping.scrape_pages key results w).2
    = (Scraping.scrape_sent w
       ++ if String.eqb key EmptyString then []
          else map (fun r => scrape_request_for key (Research.url r) true) results)%list.
Proof.
  revert w. induction results as [|r rest IH]; intros w Hp.
  - exists []. cbn. split; [reflexivity|]. split; [constructor|]. split; [reflexivity|].
    destruct (String.eqb key EmptyString); now rewrite app_nil_r.
  - destruct (scrape_world key (Research.url r) true w) as [He Hs].
    destruct (scrape_content_plain key (Research.url r) true w Hp) as [content Hc].
    destruct (Scraping.scrape key (Research.url r) true w) as [sr w1] eqn:Es.
    cbn [fst snd] in He, Hs, Hc.
    destruct (IH w1) as (pages & IH0 & IH1 & IH2 & IH3); [now rewrite He|].
    destruct (Scraping.scrape_pages key rest w1) as [ps w2] eqn:Ep.
    cbn [fst snd] in IH0, IH1, IH2, IH3. subst ps.
    exists (Scraping.Page (Research.url r) (Research.title r) (Text.prefix 2000 content)
              (Scraping.scrape_success sr) :: pages).
    assert (Scraping.scrape_pages key (r :: rest) w
            = (Py.Return
                 (Scraping.Page (Research.url r) (Research.title r) (Text.prefix 2000 content)
                    (Scraping.scrape_success sr) :: pages), w2)) as ->.
    { cbn [Scraping.scrape_pages]. unfold Scraping.bind, Scraping.scrape_page, Scraping.ret.
      unfold Scraping.bind. rewrite Es, Hc, Ep. reflexivity. }
    cbn [fst snd]. split; [reflexivity|]. split; [|split].
    + constructor; [|exact IH1]. repeat split.
      cbn [Scraping.page_content]. destruct (prefix_spec 2000 content) as [H _]. lia.
    + congruence.
    + rewrite IH3, Hs. destruct (String.eqb key EmptyString); cbn [map];
        now rewrite <- app_assoc.
Qed.

Lemma search_and_scrape_unfold (fromisoformat : string -> option DateTime.datetime)
    (key query : string) (max_age_days : Z) (w : Scraping.world) :
  let found := Research.search fromisoformat key query max_age_days 5 "advanced"
                 (Scraping.base w) in
  let w1 := Scraping.World found.2 (Scraping.scrape_endpoint w) (Scraping.scrape_sent w) in
  let scraped := Scraping.scrape_pages key (take 3 (Research.results_of found.1)) w1 in
  Scraping.search_and_scrape fromisoformat key query max_age_days w
  = if Research.success found.1
    then (match scraped.1 with
          | Py.Return pages =>
              Scraping.Combined query (Research.results_of found.1) pages (length pages)
          | Py.Raise e => Scraping.Raised e
          end, scraped.2)
    else (Scraping.SearchFailed found.1, w1).
Proof.
  cbv zeta. unfold Scraping.search_and_scrape, Scraping.bind, Scraping.lift, Scraping.ret.
  destruct (Research.search _ _ _ _ _ _ _) as [r b]. cbn [fst snd].
  destruct (Research.success r); cbn [negb]; [|reflexivity].
  destruct (Scraping.scrape_pages _ _ _) as [pages w2]. reflexivity.
Qed.

(** A search that does not succeed is passed on as it is by
    [search_and_scrape], and no page is asked for. *)
Theorem search_and_scrape_passes_failure (fromisoformat : string -> option DateTime.datetime)
    (key query : string) (max_age_days : Z) (w : Scraping.world) :
  let found := Research.search fromisoformat key query max_age_days 5 "advanced"
                 (Scraping.base w) in
  Research.success found.1 = false ->
  (Scraping.search_and_scrape fromisoformat key query max_age_days w).1
  = Scraping.SearchFailed found.1 /\
  Scraping.scrape_sent (Scraping.search_and_scrape fromisoformat key query max_age_days w).2
  = Scraping.scrape_sent w.
Proof.
  intros found H. rewrite search_and_scrape_unfold. fold found. rewrite H. split; reflexivity.
Qed.

Lemma search_and_scrape_passes_failure_witness :
  (Scraping.search_and_scrape DateTime.fromisoformat_basic "key" "q" 120 (scraping_world down)).1
  = Scraping.SearchFailed (Research.Failure "API error: 500" "Internal Server Error").
Proof.
  exact (proj1 (search_and_scrape_passes_failure DateTime.fromisoformat_basic "key" "q" 120
                  (scraping_world down) eq_refl)).
Defined.

(** With a credential and after a search that succeeds,
    [search_and_scrape] scrapes the first three results and no more, in
    their order.  Where the replies are plain it returns all the results of
    the search, one page for each of the first three with the URL and the
    title of the result and at most 2000 characters of content, and their
    number, after one scrape request for each.  Where the reply for the
    first result holds no content and a markdown that is [null], the call
    raises after that one request: the content [None] cannot be cut. *)
Theorem search_and_scrape_pages (fromisoformat : string -> option DateTime.datetime)
    (key query : string) (max_age_days : Z) (w : Scraping.world) :
  let found := Research.search fromisoformat key query max_age_days 5 "advanced"
                 (Scraping.base w) in
  let out := Scraping.search_and_scrape fromisoformat key query max_age_days w in
  key <> EmptyString ->
  Research.success found.1 = true ->
  ((forall request data,
      Scraping.scrape_endpoint w request = Scraping.ScrapeReply 200 (inr data) ->
      plain data = true) ->
   exists pages,
     out.1 = Scraping.Combined query (Research.results_of found.1) pages (length pages) /\
     length pages = Nat.min 3 (length (Research.results_of found.1)) /\
     Forall2 page_of (take 3 (Research.results_of found.1)) pages /\
     Scraping.scrape_sent out.2
     = (Scraping.scrape_sent w
        ++ map (fun r => scrape_request_for key (Research.url r) true)
             (take 3 (Research.results_of found.1)))%list) /\
  (forall r rest,
     Research.results_of found.1 = r :: rest ->
     Scraping.scrape_endpoint w (scrape_request_for key (Research.url r) true)
     = Scraping.ScrapeReply 200 (inr (Scraping.ScrapeData Scraping.Missing Scraping.Null)) ->
     out.1 = Scraping.Raised (Py.Exc "TypeError" true "'NoneType' object is not subscriptable") /\
     Scraping.scrape_sent out.2
     = (Scraping.scrape_sent w ++ [scrape_request_for key (Research.url r) true])%list).
Proof.
  intros found out Hk H. subst out. rewrite search_and_scrape_unfold. fold found. rewrite H.
  set (w1 := Scraping.World found.2 (Scraping.scrape_endpoint w) (Scraping.scrape_sent w)).
  apply String.eqb_neq in Hk. split.
  - intros Hp.
    destruct (scrape_pages_spec key (take 3 (Research.results_of found.1)) w1 Hp)
      as (pages & H0 & H1 & _ & H3).
    exists pages. cbn [fst snd]. rewrite H0. split; [reflexivity|]. split; [|split; [exact H1|]].
    + rewrite <- (Forall2_length _ _ _ H1), length_take. reflexivity.
    + now rewrite Hk in H3.
  - intros r rest -> Hr. cbn [take fst snd Scraping.scrape_pages].
    unfold Scraping.bind, Scraping.scrape_page, Scraping.ret. unfold Scraping.bind.
    unfold Scraping.scrape, Scraping.bind, Scraping.ret, Scraping.lift, Scraping.post,
      Research.datetime_now.
    rewrite Hk. cbn.
    change (Scraping.ScrapeRequest _ _ (Research.url r) true "markdown" 30)
      with (scrape_request_for key (Research.url r) true).
    rewrite Hr. cbn. split; reflexivity.
Qed.

Lemma search_and_scrape_pages_witness :
  exists pages,
    (Scraping.search_and_scrape DateTime.fromisoformat_basic "key" "q" 120
       (scraping_world repeating)).1
    = Scraping.Combined "q"
        (Research.results_of
           (Research.search DateTime.fromisoformat_basic "key" "q" 120 5 "advanced"
              (world_at repeating)).1)
        pages (length pages) /\
    length pages = 3.
Proof.
  destruct (proj1 (search_and_scrape_pages DateTime.fromisoformat_basic "key" "q" 120
                     (scraping_world repeating) ltac:(discriminate) eq_refl))
    as (pages & H1 & H2 & _).
  - intros request data [= <-]. reflexivity.
  - exists pages. split; [exact H1 | exact H2].
Defined.

Example search_and_scrape_over_null_markdown :
  (Scraping.search_and_scrape DateTime.fromisoformat_basic "key" "q" 120
     (Scraping.World (world_at repeating) null_markdown [])).1
  = Scraping.Raised (Py.Exc "TypeError" true "'NoneType' object is not subscriptable").
Proof. vm_compute. reflexivity. Qed.

(** ** The outcomes of a search *)

Lemma search_cases (fromisoformat : string -> option DateTime.datetime)
    (key query : string) (max_age_days num_results : Z) (search_depth : string)
    (w : Research.world) :
  key <> EmptyString ->
  (Research.search fromisoformat key query max_age_days num_results search_depth w).1
  = match Research.endpoint w (search_request key query max_age_days num_results search_depth) with
    | Research.NoReply error => Research.connection_failed error
    | Research.Reply status_code text json elapsed_ms =>
        if (status_code =? 200)%Z then
          match json with
          | inl error => Research.connection_failed error
          | inr data =>
              match DateTime.sub_days
                      (DateTime.of_epoch_us (Research.clock w (Research.readings w)))
                      max_age_days with
              | Py.Raise e => Research.connection_failed (Py.exc_str e)
              | Py.Return cutoff_date =>
                  let raw := default [] (Research.data_results data) in
                  let kept := filter (fun r => Research.keeps fromisoformat cutoff_date r = true) raw in
                  Research.SearchSuccess query (Research.slice_to num_results kept) (length kept)
                    (length kept <? length raw)%nat elapsed_ms
                    (Some (default EmptyString (Research.data_answer data))) false None
              end
          end
        else Research.Failure ("API error: " ++ PyStr.of_Z status_code) text
    end.
Proof.
  intros Hk. apply String.eqb_neq in Hk.
  unfold Research.search, Research.bind, Research.post, Research.ret, Research.datetime_now.
  rewrite Hk. cbn [Research.endpoint Research.sent Research.clock Research.readings].
  change (Research.Request _ _ query max_age_days num_results search_depth true 30)
    with (search_request key query max_age_days num_results search_depth).
  destruct (Research.endpoint w _) as [status text [err|data] ms|err]; [| |reflexivity].
  - destruct (status =? 200)%Z; reflexivity.
  - destruct (status =? 200)%Z; [|reflexivity]. cbn.
    destruct (DateTime.sub_days _ _); reflexivity.
Qed.

(** With a credential, a search succeeds exactly where the reply has
    status 200, its body decodes, and the cutoff date can be computed; so a
    [max_age_days] beyond 999999999 fails whatever the reply. *)
Theorem search_succeeds_iff (fromisoformat : string -> option DateTime.datetime)
    (key query : string) (max_age_days num_results : Z) (search_depth : string)
    (w : Research.world) :
  key <> EmptyString ->
  let out := (Research.search fromisoformat key query max_age_days num_results search_depth w).1 in
  (Research.success out = true <->
   exists text data elapsed_ms cutoff_date,
     Research.endpoint w (search_request key query max_age_days num_results search_depth)
     = Research.Reply 200 text (inr data) elapsed_ms /\
     DateTime.sub_days (DateTime.of_epoch_us (Research.clock w (Research.readings w)))
       max_age_days = Py.Return cutoff_date) /\
  (999999999 < Z.abs max_age_days -> Research.success out = false)%Z.
Proof.
  intros Hk out. subst out. rewrite (search_cases _ _ _ _ _ _ _ Hk).
  split.
  - destruct (Research.endpoint w _) as [status text [err|data] ms|err].
    + split; [destruct (status =? 200)%Z; discriminate|].
      intros (? & ? & ? & ? & [=] & _).
    + destruct (Z.eqb_spec status 200) as [->|Hs].
      * destruct (DateTime.sub_days _ _) as [cutoff|e] eqn:E.
        -- split; [|reflexivity]. intros _. eauto 6.
        -- split; [discriminate|]. intros (? & ? & ? & ? & _ & [=]).
      * split; [discriminate|]. intros (? & ? & ? & ? & [= ? ? ?] & _). congruence.
    + split; [discriminate|]. intros (? & ? & ? & ? & [=] & _).
  - intros Hbig.
    assert (forall d, exists e, DateTime.sub_days d max_age_days = Py.Raise e) as Hr.
    { intros d. unfold DateTime.sub_days.
      rewrite (proj2 (Z.ltb_lt _ _) Hbig). eauto. }
    destruct (Research.endpoint w _) as [status text [err|data] ms|err]; try reflexivity.
    + destruct (status =? 200)%Z; reflexivity.
    + destruct (status =? 200)%Z; [|reflexivity].
      destruct (Hr (DateTime.of_epoch_us (Research.clock w (Research.readings w)))) as [e ->].
      reflexivity.
Qed.

Lemma search_succeeds_iff_witness :
  Research.success
    (Research.search DateTime.fromisoformat_basic "key" "q" 1000000000 10 "advanced"
       (world_at repeating)).1 = false.
Proof.
  apply (proj2 (search_succeeds_iff DateTime.fromisoformat_basic "key" "q" 1000000000 10
                  "advanced" (world_at repeating) ltac:(discriminate))).
  reflexivity.
Defined.

(** With a credential, the results of a successful search are results
    the upstream sent, in its order; their number is at most [total_found],
    which is at most the number received, and at most [num_results] where
    that is not negative; [filtered_by_date] says whether [total_found] is
    below the number received. *)
Theorem search_results_bounds (fromisoformat : string -> option DateTime.datetime)
    (key query : string) (max_age_days num_results : Z) (search_depth : string)
    (w : Research.world) :
  key <> EmptyString ->
  forall query' results total_found filtered_by_date elapsed_ms answer mock message,
    (Research.search fromisoformat key query max_age_days num_results search_depth w).1
    = Research.SearchSuccess query' results total_found filtered_by_date elapsed_ms
        answer mock message ->
    exists text data,
      Research.endpoint w (search_request key query max_age_days num_results search_depth)
      = Research.Reply 200 text (inr data) elapsed_ms /\
      sublist results (default [] (Research.data_results data)) /\
      length results <= total_found /\
      total_found <= length (default [] (Research.data_results data)) /\
      ((0 <= num_results)%Z -> length results <= Z.to_nat num_results) /\
      (filtered_by_date = true <->
       total_found < length (default [] (Research.data_results data))) /\
      mock = false /\ query' = query.
Proof.
  intros Hk query' results total fbd ms answer mock message.
  rewrite (search_cases _ _ _ _ _ _ _ Hk).
  destruct (Research.endpoint w _) as [status text [err|data] ms'|err]; try discriminate.
  { destruct (status =? 200)%Z; discriminate. }
  destruct (Z.eqb_spec status 200) as [->|Hs]; [|discriminate].
  destruct (DateTime.sub_days _ _) as [cutoff|e]; [|discriminate].
  cbv zeta. set (raw := default [] (Research.data_results data)).
  set (kept := filter _ raw). intros [= <- <- <- <- <- <- <- <-].
  exists text, data. split; [reflexivity|].
  assert (sublist (Research.slice_to num_results kept) kept) as Hsub
    by (unfold Research.slice_to; destruct (0 <=? num_results)%Z; apply sublist_take).
  split; [etransitivity; [exact Hsub | apply sublist_filter]|].
  split; [now apply sublist_length|].
  split; [apply length_filter|].
  split; [intros Hn; rewrite slice_to_take by exact Hn; apply firstn_le_length|].
  split; [apply Nat.ltb_lt | split; reflexivity].
Qed.

Lemma search_results_bounds_witness :
  "key" <> EmptyString /\
  exists text data,
    Research.endpoint (world_at repeating) (search_request "key" "q" 120 2 "advanced")
    = Research.Reply 200 text (inr data) 7 /\
    sublist [page (Some "https://a.example") "first a"; page (Some "https://b.example") "b"]
      (default [] (Research.data_results data)).
Proof.
  split; [discriminate|].
  destruct (search_results_bounds DateTime.fromisoformat_basic "key" "q" 120 2 "advanced"
              (world_at repeating) ltac:(discriminate)
              "q" [page (Some "https://a.example") "first a"; page (Some "https://b.example") "b"]
              4 false 7 (Some EmptyString) false None eq_refl)
    as (text & data & H1 & H2 & _).
  exists text, data. split; [exact H1 | exact H2].
Defined.

Lemma search_results_length (fromisoformat : string -> option DateTime.datetime)
    (key query : string) (max_age_days num_results : Z) (search_depth : string)
    (w : Research.world) :
  (1 <= num_results)%Z ->
  length (Research.results_of
            (Research.search fromisoformat key query max_age_days num_results search_depth w).1)
  <= Z.to_nat num_results.
Proof.
  intros Hn. destruct (String.eqb_spec key EmptyString) as [->|Hk].
  - cbn. lia.
  - rewrite (search_cases _ _ _ _ _ _ _ Hk).
    destruct (Research.endpoint w _) as [status text [err|data] ms|err]; cbn; try lia.
    + destruct (status =? 200)%Z; cbn; lia.
    + destruct (status =? 200)%Z; cbn; [|lia].
      destruct (DateTime.sub_days _ _); cbn; [|lia].
      rewrite slice_to_take by lia. apply firstn_le_length.
Qed.

(** ** More on deep research *)

(** [deep_research] never returns more than ten results, and
    [total_unique] is their number: the one search it makes is cut to ten
    results, so the cut of the unique results to 15 removes nothing. *)
Theorem deep_research_at_most_ten (fromisoformat : string -> option DateTime.datetime)
    (key query : string) (sources : option (list string)) (max_age_days : Z)
    (w : Research.world) :
  exists results timestamp,
    (Research.deep_research fromisoformat key query sources max_age_days w).1
    = Research.DeepSuccess query results (length results) (default ["tavily"] sources) timestamp /\
    length results <= 10.
Proof.
  rewrite deep_research_unfold. cbn [fst].
  set (all_results := if bool_decide _ then _ else _).
  assert (length all_results <= 10) as Hall.
  { subst all_results. case_bool_decide; [|simpl; lia].
    destruct (Research.success _); [|simpl; lia].
    apply (search_results_length fromisoformat key query max_age_days 10 "advanced" w). lia. }
  assert (length (Research.unique_loop ∅ [] all_results) <= 10) as Hu.
  { rewrite unique_loop_firsts, app_nil_l.
    pose proof (sublist_length _ _ (firsts_sublist ∅ all_results)). lia. }
  eexists _, _. rewrite take_ge by lia. split; [reflexivity | exact Hu].
Qed.

(** Asked for sources that do not name [tavily], [deep_research] makes no
    search and sends nothing: it reads the clock once and returns a success
    with no result. *)
Theorem deep_research_without_tavily (fromisoformat : string -> option DateTime.datetime)
    (key query : string) (sources : list string) (max_age_days : Z) (w : Research.world) :
  "tavily" ∉ sources ->
  Research.deep_research fromisoformat key query (Some sources) max_age_days w
  = (Research.DeepSuccess query [] 0 sources
       (DateTime.isoformat (DateTime.of_epoch_us (Research.clock w (Research.readings w)))),
     Research.World (Research.clock w) (S (Research.readings w))
       (Research.endpoint w) (Research.sent w)).
Proof.
  intros H. rewrite deep_research_unfold. cbn [from_option id].
  now rewrite bool_decide_eq_false_2 by exact H.
Qed.

Lemma deep_research_without_tavily_witness :
  (Research.deep_research DateTime.fromisoformat_basic "key" "q" (Some ["serper"]) 120
     (world_at repeating)).1
  = Research.DeepSuccess "q" [] 0 ["serper"] "2026-11-03T10:00:00".
Proof.
  rewrite (deep_research_without_tavily DateTime.fromisoformat_basic "key" "q"
             ["serper"] 120 (world_at repeating)).
  - reflexivity.
  - intros H. apply list_elem_of_singleton in H. discriminate.
Defined.

(** ** The status *)

(** The status says that Tavily is configured exactly where a search
    sends a request: with [tavily_configured] false the search answers from
    the mock and sends nothing. *)
Theorem status_tells_mock (fromisoformat : string -> option DateTime.datetime)
    (tavily_api_key serper_api_key query : string) (max_age_days num_results : Z)
    (search_depth : string) (w : Research.world) :
  let status := Status.get_status tavily_api_key serper_api_key in
  let out := Research.search fromisoformat tavily_api_key query max_age_days num_results
               search_depth w in
  (Status.tavily_configured status = true ->
   Research.sent out.2
   = (Research.sent w
      ++ [search_request tavily_api_key query max_age_days num_results search_depth])%list) /\
  (Status.tavily_configured status = false ->
   Research.sent out.2 = Research.sent w /\
   out.1 = mock_response query max_age_days
             (mock_published (Research.clock w (Research.readings w)))) /\
  Status.features status = ["search"; "scrape"; "search_and_scrape"; "deep_research"] /\
  Status.default_max_age_days status = 120%Z.
Proof.
  cbv zeta. unfold Status.get_status, Status.nonempty. cbn [Status.tavily_configured].
  split; [|split; [|split; reflexivity]].
  - intros H. apply negb_true_iff, String.eqb_neq in H. now apply search_sends.
  - intros H. apply negb_false_iff, String.eqb_eq in H. subst.
    unfold Research.search. cbn [String.eqb].
    unfold Research._mock_search, Research.bind, Research.datetime_now, Research.ret,
      mock_response, mock_result, mock_published.
    cbv beta. cbn [fst snd Research.sent]. split; reflexivity.
Qed.

(** ** The mock page *)

Lemma occurs_app_r (p a s : string) : Text.occurs p s = true -> Text.occurs p (a ++ s) = true.
Proof.
  rewrite !occurs_spec. intros (pre & post & ->). exists (a ++ pre), post.
  now rewrite sapp_assoc.
Qed.

Lemma occurs_at (p x post : string) : Text.occurs (p ++ x) (p ++ x ++ post) = true.
Proof. apply occurs_spec. exists EmptyString, post. now rewrite sapp_assoc. Qed.

(** Without a credential [scrape] sends nothing and succeeds with a page
    tagged as mock, whatever the URL (one that is missing is shown as
    [None]); the clock is read twice, first for the date written in the
    content and then for the timestamp, so the two may differ. *)
Theorem scrape_without_credential (url : option string) (only_main_content : bool)
    (w : Scraping.world) :
  let out := Scraping.scrape EmptyString url only_main_content w in
  let clock := Research.clock (Scraping.base w) in
  let readings := Research.readings (Scraping.base w) in
  Scraping.scrape_sent out.2 = Scraping.scrape_sent w /\
  Research.sent (Scraping.base out.2) = Research.sent (Scraping.base w) /\
  Research.readings (Scraping.base out.2) = S (S readings) /\
  exists content,
    out.1 = Scraping.ScrapeSuccess url content ("Symulowana strona: " ++ default "None" url)
              (DateTime.isoformat (DateTime.of_epoch_us (clock (S readings)))) true /\
    Text.occurs ("- Data: " ++ DateTime.isoformat (DateTime.of_epoch_us (clock readings)))
      content = true.
Proof.
  cbv zeta. unfold Scraping.scrape. cbn [String.eqb].
  unfold Scraping._mock_scrape, Scraping.bind, Scraping.ret, Scraping.lift,
    Research.datetime_now, Scraping.shown.
  cbv beta.
  cbn [fst snd Scraping.base Scraping.scrape_sent Research.sent Research.readings
       Research.clock].
  split; [reflexivity|]. split; [reflexivity|]. split; [reflexivity|].
  eexists. split; [reflexivity|].
  repeat first [ apply occurs_at | apply occurs_app_r ].
Qed.
